(** * RedFlagProfits: the dashboard payload and its renderer

    The repository publishes aggregate billionaire wealth as a JSON-like
    payload ([window.wealthTimelineData] in [docs/index.html]) and draws
    it with [WealthTimelineChart] ([docs/js/wealth-timeline-chart.js] and
    [src/static/js/wealth-timeline-chart.js]).  This development embeds
    the two renderers, the first version of the chart, the navigation
    script and the published payload.  The analytics pipeline (a Python
    program) is not part of the sources at hand; of it, only the growth
    model of the specification is set against the published fit.

    Layout: [JS] holds the JavaScript value model shared by the
    renderers; [Docs] and [Static] embed one renderer each, [Animation]
    their scroll animation, [Simple] the first version of the chart and
    [Nav] the navigation script; [Calendar] and [Growth] serve the
    published fit; theorems come last. *)

From Stdlib Require Import ZArith QArith Qabs Qround Qcanon Reals Lra Lia.
From Stdlib Require Import String Ascii DecimalString Qreals.
From stdpp Require Import base gmap strings list numbers.

Local Open Scope string_scope.

(** ** JavaScript values, truthiness, exceptions *)

Module JS.

(** A property that may be missing.  [undefined] and [null] are kept
    apart because template literals print them differently; [?.],
    [||], [!] and [if] treat them alike. *)
Inductive js (A : Type) : Type :=
| undefined
| null
| val (a : A).
Arguments undefined {A}.
Arguments null {A}.
Arguments val {A} a.

(** ToBoolean. *)
Class Truthy (A : Type) := truthy : A -> bool.

#[export] Instance truthy_bool : Truthy bool := fun b => b.
(** A finite number is falsy exactly when it is zero. *)
#[export] Instance truthy_number : Truthy Q :=
  fun q => negb (Qnum q =? 0)%Z.
#[export] Instance truthy_integer : Truthy Z := fun z => negb (z =? 0)%Z.
#[export] Instance truthy_string : Truthy string :=
  fun s => match s with EmptyString => false | _ => true end.
(** Arrays are objects: always truthy, also when empty. *)
#[export] Instance truthy_array {A} : Truthy (list A) := fun _ => true.
#[export] Instance truthy_js {A} `{Truthy A} : Truthy (js A) :=
  fun v => match v with val a => truthy a | _ => false end.

(** [v || d], with [f] the conversion the context applies to [v]. *)
Definition or_else {A B} `{Truthy A} (v : js A) (f : A -> B) (d : B) : B :=
  match v with
  | val a => if truthy a then f a else d
  | _ => d
  end.

(** [o?.p] *)
Definition optchain {A B} (o : js A) (p : A -> js B) : js B :=
  match o with
  | val a => p a
  | _ => undefined
  end.

(** ** Outcomes: normal completion or a thrown exception *)

Inductive outcome (A : Type) : Type :=
| Ok (a : A)
| Throw (msg : string).
Arguments Ok {A} a.
Arguments Throw {A} msg.

(** State-and-exception monad; the state at the point of the throw is
    kept, as JavaScript keeps every mutation made before it. *)
Definition M (S A : Type) : Type := S -> outcome A * S.

Definition ret {S A} (a : A) : M S A := fun s => (Ok a, s).
Definition bind {S A B} (m : M S A) (k : A -> M S B) : M S B :=
  fun s => match m s with
           | (Ok a, s') => k a s'
           | (Throw e, s') => (Throw e, s')
           end.
Definition throw {S A} (msg : string) : M S A := fun s => (Throw msg, s).
Definition get {S} : M S S := fun s => (Ok s, s).
Definition put {S} (s : S) : M S unit := fun _ => (Ok tt, s).
(** [try { m } catch (error) { }] with a handler that only logs. *)
Definition try_catch {S} (m : M S unit) : M S unit :=
  fun s => match m s with
           | (Ok _, s') => (Ok tt, s')
           | (Throw _, s') => (Ok tt, s')
           end.

(** [o.p] on a value that may be missing: a TypeError when it is. *)
Definition prop {S A B} (o : js A) (p : A -> B) : M S B :=
  match o with
  | val a => ret (p a)
  | undefined => throw "TypeError: Cannot read properties of undefined"
  | null => throw "TypeError: Cannot read properties of null"
  end.

(** ** Number formatting *)

Definition digits (n : Z) : string :=
  NilEmpty.string_of_uint (N.to_uint (Z.to_N n)).

Fixpoint zeros (k : nat) : string :=
  match k with
  | O => ""
  | S k' => String "0" (zeros k')
  end.

(** [Number.prototype.toFixed(f)] on a finite number below 10^21: the
    integer [n] closest to [x * 10^f], the larger one on a tie, printed
    with [f] fraction digits. *)
Definition toFixed (f : nat) (x : Q) : string :=
  let s := if (Qnum x <? 0)%Z then "-" else "" in
  let ax := Qabs x in
  let n := Qfloor (ax * inject_Z (10 ^ Z.of_nat f) + (1 # 2)) in
  let m := digits n in
  let m := zeros (S f - String.length m) ++ m in
  let k := String.length m in
  let a := substring 0 (k - f) m in
  let b := substring (k - f) f m in
  s ++ (match f with O => a | _ => a ++ "." ++ b end).

(** ToString of an integer-valued number. *)
Definition string_of_int (z : Z) : string :=
  if (z <? 0)%Z then "-" ++ digits (- z) else digits z.

(** ToString of a string-valued property inside a template literal. *)
Definition interpolate (v : js string) : string :=
  match v with
  | undefined => "undefined"
  | null => "null"
  | val s => s
  end.

End JS.
Export JS.

Notation "x <- m ;; k" := (bind m (fun x => k))
  (at level 100, m at next level, right associativity).
Notation "m ;;; k" := (bind m (fun _ => k))
  (at level 100, right associativity).

(** ** The chart data payload ([window.wealthTimelineData]) *)

Module Point.
(** [{"x": "2023-04-15", "y": 12.64}] *)
Record t := mk { x : string; y : Q }.
End Point.

(** [new Date(s)]; the parse itself is the host's. *)
Inductive Date := NewDate (s : string).

Module ChartPoint.
(** [{ x: new Date(point.x), y: point.y }] *)
Record t := mk { x : Date; y : Q }.
End ChartPoint.

Module InflationData.
Record t := mk {
  data : js (list Point.t);
  inflationType : js string;
  baseDate : js string }.
End InflationData.

Record Summary := {
  dataPoints : js Z;
  timespan : js string;
  startValue : js Q;
  endValue : js Q;
  totalIncrease : js Q }.

Record FitParams := {
  fit_a : js Q;
  fit_b : js Q;
  annualGrowthRate : js Q;
  r_squared : js Q }.

Record ChartData := {
  data : list Point.t;
  trendLine : js (list Point.t);
  fitParams : js FitParams;
  summary : js Summary;
  inflationData : js InflationData.t;
  inflationTrendLine : js (list Point.t);
  inflationSummary : js Summary;
  inflationFitParams : js FitParams }.

#[export] Instance truthy_Summary : Truthy Summary := fun _ => true.
#[export] Instance truthy_FitParams : Truthy FitParams := fun _ => true.
#[export] Instance truthy_InflationData : Truthy InflationData.t :=
  fun _ => true.

(** ** Chart.js and the page *)

Module Dataset.
(** A Chart.js dataset: the fields the renderer sets that tell the
    datasets apart; the remaining styling constants are left out. *)
Record t := mk {
  label : string;
  data : list ChartPoint.t;
  borderColor : string;
  backgroundColor : string;
  borderWidth : Q;
  pointRadius : Q;
  order : Z }.
End Dataset.

#[export] Instance truthy_Dataset : Truthy Dataset.t := fun _ => true.

(** [new Chart(ctx, config)]: [chart.data.datasets]. *)
Record ChartJs := { datasets : list Dataset.t }.
#[export] Instance truthy_ChartJs : Truthy ChartJs := fun _ => true.

(** A [.chart-btn[data-view]] element. *)
Record Button := {
  text : string;
  data_view : string;
  disabled : bool;
  active : bool;
  listener : bool }.

(** The first [.chart-section] of the document. *)
Record ChartSection := {
  has_controls : bool;
  buttons : list Button }.
#[export] Instance truthy_ChartSection : Truthy ChartSection := fun _ => true.

(** The [.chart-info] element. *)
Record Element := { innerHTML : string }.
#[export] Instance truthy_Element : Truthy Element := fun _ => true.

Record Dom := {
  innerWidth : Z;
  Chart_loaded : bool;
  canvases : list string;
  chart_container : bool;
  chart_section : js ChartSection;
  chart_info : js Element }.

(** The fields of a [WealthTimelineChart] instance. *)
Record ChartObj := {
  canvasId : string;
  chartData : ChartData;
  chart : js ChartJs;
  showInflation : bool;
  originalDatasetConfigs : js (list Dataset.t);
  animationPlayed : bool;
  isAnimating : bool }.

Record World := { this : ChartObj; document : Dom }.

Definition set_this (f : ChartObj -> ChartObj) : M World unit :=
  fun w => (Ok tt, {| this := f (this w); document := document w |}).
Definition set_document (f : Dom -> Dom) : M World unit :=
  fun w => (Ok tt, {| this := this w; document := f (document w) |}).

Definition with_chart (c : js ChartJs) (o : ChartObj) : ChartObj :=
  {| canvasId := canvasId o; chartData := chartData o; chart := c;
     showInflation := showInflation o;
     originalDatasetConfigs := originalDatasetConfigs o;
     animationPlayed := animationPlayed o; isAnimating := isAnimating o |}.
Definition with_showInflation (b : bool) (o : ChartObj) : ChartObj :=
  {| canvasId := canvasId o; chartData := chartData o; chart := chart o;
     showInflation := b;
     originalDatasetConfigs := originalDatasetConfigs o;
     animationPlayed := animationPlayed o; isAnimating := isAnimating o |}.
Definition with_configs (c : js (list Dataset.t)) (o : ChartObj) : ChartObj :=
  {| canvasId := canvasId o; chartData := chartData o; chart := chart o;
     showInflation := showInflation o;
     originalDatasetConfigs := c;
     animationPlayed := animationPlayed o; isAnimating := isAnimating o |}.
Definition with_info (h : string) (d : Dom) : Dom :=
  {| innerWidth := innerWidth d; Chart_loaded := Chart_loaded d;
     canvases := canvases d; chart_container := chart_container d;
     chart_section := chart_section d;
     chart_info := match chart_info d with
                   | val _ => val {| innerHTML := h |}
                   | v => v
                   end |}.
Definition with_section (s : js ChartSection) (d : Dom) : Dom :=
  {| innerWidth := innerWidth d; Chart_loaded := Chart_loaded d;
     canvases := canvases d; chart_container := chart_container d;
     chart_section := s; chart_info := chart_info d |}.

(** [datasets[i] = d]: an assignment past the end extends the array. *)
Definition assign {A} (i : nat) (d : A) (l : list A) : list A :=
  if decide (i < length l)%nat then <[i := d]> l else (l ++ [d])%list.

(** [dataToUse.map((p) => ({ x: new Date(p.x), y: p.y }))] *)
Definition to_chart_points (l : list Point.t) : list ChartPoint.t :=
  map (fun p => ChartPoint.mk (NewDate (Point.x p)) (Point.y p)) l.

Definition dq : string := String (ascii_of_nat 34) EmptyString.
Definition nl : string := String (ascii_of_nat 10) EmptyString.

(** The two buttons of the [.chart-controls] markup; the second carries
    [disabled] when [!this.chartData.inflationData]. *)
Definition controls (cd : ChartData) : list Button :=
  [ {| text := "Nominal Values"; data_view := "nominal";
       disabled := false; active := true; listener := false |};
    {| text := "Inflation Adjusted"; data_view := "inflation";
       disabled := negb (truthy (inflationData cd)); active := false;
       listener := false |} ].

(** [addEventListener("click", ...)] on every button found. *)
Definition listen (b : Button) : Button :=
  {| text := text b; data_view := data_view b; disabled := disabled b;
     active := active b; listener := true |}.

(** [b.classList.toggle("active", b === btn)] over all buttons. *)
Definition toggle_active (i : nat) (bs : list Button) : list Button :=
  imap (fun j b => {| text := text b; data_view := data_view b;
                      disabled := disabled b; active := Nat.eqb j i;
                      listener := listener b |}) bs.

(** [new WealthTimelineChart(canvasId, chartData)] before the constructor
    body runs its calls. *)
Definition fresh (id : string) (cd : ChartData) : ChartObj :=
  {| canvasId := id; chartData := cd; chart := null;
     showInflation := false; originalDatasetConfigs := null;
     animationPlayed := false; isAnimating := false |}.

(** User events: a click on the [i]-th button of the chart section. *)
Inductive event := Click (i : nat).

(** The text of the [.chart-info] template literal, by its holes, line
    breaks and indentation included.  [indent] is the indentation of the
    template's lines (six spaces in [docs], eight in [src/static]) and
    [tail] what follows the closing [</span>] up to the closing
    backtick. *)
Definition info_html
    (indent points span note start stop increase growth r2 tail : string) : string :=
  nl ++ indent
  ++ "<strong>" ++ points ++ " data points</strong> from " ++ span ++ "<br>"
  ++ nl ++ indent
  ++ "Growth" ++ note ++ ": $" ++ start ++ "T → $" ++ stop ++ "T "
  ++ nl ++ indent
  ++ "(+" ++ increase ++ "%)<br>"
  ++ nl ++ indent
  ++ "<span style=" ++ dq ++ "color: var(--red-light)" ++ dq
  ++ ">Exponential growth rate: " ++ growth ++ "% per year (R² = " ++ r2
  ++ ")</span>" ++ tail.

(** [value?.toFixed(f) || "N/A"] *)
Definition fixed_or_NA (f : nat) (v : js Q) : string :=
  or_else (optchain v (fun q => val (toFixed f q))) (fun s => s) "N/A".

(** The holes of the template that come from [summary]. *)
Definition summary_html (indent : string) (s : Summary) (note growth r2 tail : string) : string :=
  info_html indent
            (or_else (dataPoints s) string_of_int "N/A")
            (or_else (timespan s) (fun t => t) "N/A")
            note
            (fixed_or_NA 1 (startValue s))
            (fixed_or_NA 1 (endValue s))
            (fixed_or_NA 1 (totalIncrease s))
            growth r2 tail.

(** ** [docs/js/wealth-timeline-chart.js] *)

Module Docs.

Definition isMobile (d : Dom) : bool := (innerWidth d <=? 768)%Z.
Definition isSmallMobile (d : Dom) : bool := (innerWidth d <=? 480)%Z.
(** [isMobile ? (isSmallMobile ? 2 : 2.5) : 3] *)
Definition responsive_size (d : Dom) : Q :=
  if isMobile d then (if isSmallMobile d then 2 else 2.5) else 3.

Definition prepareDatasets : M World (list Dataset.t) :=
  w <- get ;;
  let cd := chartData (this w) in
  let dataPoints := to_chart_points (data cd) in
  let datasets :=
    [ Dataset.mk "Total Wealth" dataPoints "#8b2635" "#8b2635" 0
                 (responsive_size (document w)) 2 ] in
  if truthy (optchain (trendLine cd)
               (fun l => val (Z.of_nat (length l)))) then
    trendData <- prop (trendLine cd) to_chart_points ;;
    ret (datasets ++
         [ Dataset.mk "Exponential Trend" trendData "#e74c3c" "transparent"
                      (responsive_size (document w)) 0 1 ])%list
  else ret datasets.

Definition updateInfo : M World unit :=
  w <- get ;;
  let infoArea := chart_info (document w) in
  let cd := chartData (this w) in
  if negb (truthy infoArea) || negb (truthy (summary cd)) then ret tt else
  let summary0 := summary cd in
  let growthRate0 : js Q :=
    val (or_else (optchain (fitParams cd) annualGrowthRate) (fun q => q) 0%Q) in
  let rSquared0 : js Q :=
    val (or_else (optchain (fitParams cd) r_squared) (fun q => q) 0%Q) in
  vars <-
    (if showInflation (this w) && truthy (inflationData cd)
        && truthy (inflationSummary cd) then
       ty <- prop (inflationData cd) InflationData.inflationType ;;
       let inflationNote := " (" ++ interpolate ty ++ " adjusted)" in
       if truthy (inflationFitParams cd) then
         g <- prop (inflationFitParams cd) annualGrowthRate ;;
         r <- prop (inflationFitParams cd) r_squared ;;
         ret (inflationSummary cd, inflationNote, g, r)
       else ret (inflationSummary cd, inflationNote, growthRate0, rSquared0)
     else ret (summary0, "", growthRate0, rSquared0)) ;;
  let '(summary1, inflationNote, growthRate, rSquared) := vars in
  html <- prop summary1 (fun s =>
            summary_html "      " s inflationNote (fixed_or_NA 1 growthRate)
                         (fixed_or_NA 3 rSquared) (nl ++ "    ")) ;;
  set_document (with_info html).

(** [canvas.getContext("2d")] and [new Chart(ctx, config)] are calls into
    the platform and into Chart.js; they are taken to return, as they do
    on a canvas element that carries no chart yet. *)
Definition init : M World unit :=
  w <- get ;;
  if negb (bool_decide (canvasId (this w) ∈ canvases (document w)))
  then ret tt else
  datasets <- prepareDatasets ;;
  set_this (with_configs (val datasets)) ;;;
  set_this (with_chart (val {| datasets := datasets |})) ;;;
  updateInfo.

Definition setupControls : M World unit :=
  w <- get ;;
  match chart_section (document w) with
  | val chartSection =>
      let bs :=
        if negb (has_controls chartSection)
        then (buttons chartSection ++ controls (chartData (this w)))%list
        else buttons chartSection in
      set_document (with_section
        (val {| has_controls := true; buttons := map listen bs |}))
  | _ => ret tt
  end.

Definition updateChartData : M World unit :=
  w <- get ;;
  let cd := chartData (this w) in
  if negb (truthy (chart (this w)))
     || negb (truthy (originalDatasetConfigs (this w))) then ret tt else
  vars <-
    (if showInflation (this w) && truthy (inflationData cd) then
       dataToUse <- prop (inflationData cd) InflationData.data ;;
       ty <- prop (inflationData cd) InflationData.inflationType ;;
       let labelSuffix := " (" ++ interpolate ty ++ " Adjusted)" in
       if truthy (inflationTrendLine cd)
       then ret (dataToUse, inflationTrendLine cd, labelSuffix)
       else ret (dataToUse, trendLine cd, labelSuffix)
     else ret (val (data cd), trendLine cd, "")) ;;
  let '(dataToUse, trendToUse, labelSuffix) := vars in
  configs <- prop (originalDatasetConfigs (this w)) (fun c => c) ;;
  ds <- prop (chart (this w)) datasets ;;
  points <- prop dataToUse to_chart_points ;;
  let d0 := default (Dataset.mk "" [] "" "" 0 0 0) (configs !! 0%nat) in
  let ds :=
    assign 0 (Dataset.mk ("Total Wealth" ++ labelSuffix) points
                (Dataset.borderColor d0) (Dataset.backgroundColor d0)
                (Dataset.borderWidth d0) (responsive_size (document w))
                (Dataset.order d0)) ds in
  set_this (with_chart (val {| datasets := ds |})) ;;;
  match configs !! 1%nat, ds !! 1%nat with
  | Some d1, Some _ =>
      trend <- prop trendToUse to_chart_points ;;
      set_this (with_chart (val {| datasets :=
        assign 1 (Dataset.mk ("Exponential Trend" ++ labelSuffix) trend
                    (Dataset.borderColor d1) (Dataset.backgroundColor d1)
                    (responsive_size (document w)) (Dataset.pointRadius d1)
                    (Dataset.order d1)) ds |}))
  | _, _ => ret tt
  end.

Definition handleControlClick (i : nat) (btn : Button) : M World unit :=
  let view := data_view btn in
  if negb (truthy view) || disabled btn then ret tt else
  let newShowInflation := String.eqb view "inflation" in
  w <- get ;;
  (if negb (Bool.eqb newShowInflation (showInflation (this w))) then
     set_this (with_showInflation newShowInflation) ;;;
     updateChartData ;;;
     updateInfo
   else ret tt) ;;;
  w' <- get ;;
  match chart_section (document w') with
  | val sec =>
      set_document (with_section
        (val {| has_controls := has_controls sec;
                buttons := toggle_active i (buttons sec) |}))
  | _ => ret tt
  end.

(** The constructor, without [setupScrollAnimation]: the renderer as
    clicks alone drive it.  [Animation] adds the observer and its
    timers. *)
Definition constructor (id : string) (cd : ChartData) (d : Dom) : outcome unit * World :=
  let w := {| this := fresh id cd; document := d |} in
  if Chart_loaded d then (init ;;; setupControls) w else (Ok tt, w).

(** The page reacting to one event: the listener runs on the clicked
    button if it has one; an exception escaping the listener is
    reported by the host and the page goes on. *)
Definition dispatch (w : World) (e : event) : World :=
  match e with
  | Click i =>
      match optchain (chart_section (document w))
              (fun s => match buttons s !! i with
                        | Some b => val b
                        | None => undefined
                        end) with
      | val btn =>
          if listener btn then snd (handleControlClick i btn w) else w
      | _ => w
      end
  end.

Definition run (w : World) (es : list event) : World :=
  fold_left dispatch es w.

End Docs.

(** ** [src/static/js/wealth-timeline-chart.js] *)

Module Static.

Definition prepareDatasets : M World (list Dataset.t) :=
  w <- get ;;
  let cd := chartData (this w) in
  let dataPoints := to_chart_points (data cd) in
  let datasets :=
    [ Dataset.mk "Total Wealth" dataPoints "#8b2635" "#8b2635" 0 3 2 ] in
  if truthy (trendLine cd)
     && or_else (trendLine cd) (fun l => (0 <? length l)%nat) false then
    trendData <- prop (trendLine cd) to_chart_points ;;
    ret (datasets ++
         [ Dataset.mk "Exponential Trend" trendData "#e74c3c" "transparent"
                      3 0 1 ])%list
  else ret datasets.

(** The closing line of the template:
    [this.showInflation ? '<br><span ...>...</span>' : ''] *)
Definition footer (show : bool) : string :=
  if show then
    "<br><span style=" ++ dq
    ++ "color: var(--text-muted); font-size: 0.875rem;" ++ dq
    ++ ">Growth rate calculated using inflation-adjusted values</span>"
  else "".

Definition updateInfo : M World unit :=
  try_catch (
    w <- get ;;
    let infoArea := chart_info (document w) in
    let cd := chartData (this w) in
    if negb (truthy infoArea) then ret tt else
    if negb (truthy (summary cd)) then ret tt else
    let summary0 := summary cd in
    let growthRate0 : js Q :=
      val (or_else (optchain (fitParams cd) annualGrowthRate)
             (fun q => q) 0%Q) in
    let rSquared0 : js Q :=
      val (or_else (optchain (fitParams cd) r_squared) (fun q => q) 0%Q) in
    vars <-
      (if showInflation (this w) then
         if truthy (inflationData cd) && truthy (inflationSummary cd) then
           ty <- prop (inflationData cd) InflationData.inflationType ;;
           bd <- prop (inflationData cd) InflationData.baseDate ;;
           let inflationNote :=
             " (" ++ interpolate ty ++ " adjusted to "
             ++ or_else bd (fun d => d) "latest" ++ " dollars)" in
           if truthy (inflationFitParams cd) then
             g <- prop (inflationFitParams cd) annualGrowthRate ;;
             r <- prop (inflationFitParams cd) r_squared ;;
             ret (inflationSummary cd, inflationNote, g, r)
           else
             ret (inflationSummary cd, inflationNote, growthRate0, rSquared0)
         else ret (summary0, "", growthRate0, rSquared0)
       else ret (summary0, "", growthRate0, rSquared0)) ;;
    let '(summary1, inflationNote, growthRate, rSquared) := vars in
    html <- prop summary1 (fun s =>
              summary_html "        " s inflationNote
                           (fixed_or_NA 1 growthRate)
                           (fixed_or_NA 3 rSquared)
                           (nl ++ "        " ++ footer (showInflation (this w))
                            ++ nl ++ "      ")) ;;
    set_document (with_info html)).

(** [canvas.getContext("2d")] and [new Chart(ctx, config)] are calls into
    the platform and into Chart.js; they are taken to return, as they do
    on a canvas element that carries no chart yet. *)
Definition init : M World unit :=
  w <- get ;;
  if negb (bool_decide (canvasId (this w) ∈ canvases (document w)))
  then ret tt else
  datasets <- prepareDatasets ;;
  set_this (with_configs (val datasets)) ;;;
  set_this (with_chart (val {| datasets := datasets |})) ;;;
  updateInfo.

Definition setupControls : M World unit :=
  w <- get ;;
  match chart_section (document w) with
  | val chartSection =>
      let bs :=
        if negb (has_controls chartSection)
        then (buttons chartSection ++ controls (chartData (this w)))%list
        else buttons chartSection in
      set_document (with_section
        (val {| has_controls := true; buttons := map listen bs |}))
  | _ => ret tt
  end.

Definition updateChartData : M World unit :=
  w <- get ;;
  let cd := chartData (this w) in
  if negb (truthy (chart (this w)))
     || negb (truthy (originalDatasetConfigs (this w))) then ret tt else
  vars <-
    (if showInflation (this w) && truthy (inflationData cd) then
       dataToUse <- prop (inflationData cd) InflationData.data ;;
       ty <- prop (inflationData cd) InflationData.inflationType ;;
       let labelSuffix := " (" ++ interpolate ty ++ " Adjusted)" in
       (* console.log(..., dataToUse.length, "points") *)
       prop dataToUse (fun l => length l) ;;;
       if truthy (inflationTrendLine cd)
       then ret (dataToUse, inflationTrendLine cd, labelSuffix)
       else ret (dataToUse, trendLine cd, labelSuffix)
     else ret (val (data cd), trendLine cd, "")) ;;
  let '(dataToUse, trendToUse, labelSuffix) := vars in
  processedData <- prop dataToUse to_chart_points ;;
  let processedTrendData := or_else trendToUse to_chart_points [] in
  configs <- prop (originalDatasetConfigs (this w)) (fun c => c) ;;
  ds <- prop (chart (this w)) datasets ;;
  let d0 := default (Dataset.mk "" [] "" "" 0 0 0) (configs !! 0%nat) in
  let ds :=
    assign 0 (Dataset.mk ("Total Wealth" ++ labelSuffix) processedData
                (Dataset.borderColor d0) (Dataset.backgroundColor d0)
                (Dataset.borderWidth d0) (Dataset.pointRadius d0)
                (Dataset.order d0)) ds in
  set_this (with_chart (val {| datasets := ds |})) ;;;
  match configs !! 1%nat, ds !! 1%nat with
  | Some d1, Some _ =>
      set_this (with_chart (val {| datasets :=
        assign 1 (Dataset.mk ("Exponential Trend" ++ labelSuffix)
                    processedTrendData
                    (Dataset.borderColor d1) (Dataset.backgroundColor d1)
                    (Dataset.borderWidth d1) (Dataset.pointRadius d1)
                    (Dataset.order d1)) ds |}))
  | _, _ => ret tt
  end.

Definition handleControlClick (i : nat) (btn : Button) : M World unit :=
  let view := data_view btn in
  if truthy view && negb (disabled btn) then
    let newShowInflation := String.eqb view "inflation" in
    w <- get ;;
    (if negb (Bool.eqb newShowInflation (showInflation (this w))) then
       set_this (with_showInflation newShowInflation) ;;;
       updateChartData ;;;
       try_catch updateInfo
     else ret tt) ;;;
    w' <- get ;;
    match chart_section (document w') with
    | val sec =>
        set_document (with_section
          (val {| has_controls := has_controls sec;
                  buttons := toggle_active i (buttons sec) |}))
    | _ => ret tt
    end
  else ret tt.

(** The constructor, without its console output and without
    [setupScrollAnimation]: the renderer as clicks alone drive it.
    [Animation] adds the observer and its timers. *)
Definition constructor (id : string) (cd : ChartData) (d : Dom) : outcome unit * World :=
  let w := {| this := fresh id cd; document := d |} in
  if Chart_loaded d then (init ;;; setupControls) w else (Ok tt, w).

Definition dispatch (w : World) (e : event) : World :=
  match e with
  | Click i =>
      match optchain (chart_section (document w))
              (fun s => match buttons s !! i with
                        | Some b => val b
                        | None => undefined
                        end) with
      | val btn =>
          if listener btn then snd (handleControlClick i btn w) else w
      | _ => w
      end
  end.

Definition run (w : World) (es : list event) : World :=
  fold_left dispatch es w.

End Static.

(** ** The page and the payload of [docs/index.html] *)

(** The document as served: one canvas, a chart container, a chart
    section without controls and an empty [.chart-info]. *)
Definition page : Dom :=
  {| innerWidth := 1280; Chart_loaded := true;
     canvases := ["wealth-timeline-chart"]; chart_container := true;
     chart_section := val {| has_controls := false; buttons := [] |};
     chart_info := val {| innerHTML := "" |} |}.

(** [window.wealthTimelineData], with the first and last entries of its
    [data] and [trendLine] arrays. *)
Definition wealthTimelineData : ChartData :=
  {| data := [ Point.mk "2023-04-15" 12.640847367000001%Q;
               Point.mk "2025-06-01" 16.529622766%Q ];
     trendLine := val [ Point.mk "2023-04-15" 12.353175509465203%Q;
                        Point.mk "2025-06-01" 15.888761266437603%Q ];
     fitParams := val {| fit_a := val 12.353175509465203%Q;
                         fit_b := val 0.0003235203912776391%Q;
                         annualGrowthRate := val 12.543071809643624%Q;
                         r_squared := val 0.9634206022190024%Q |};
     summary := val {| dataPoints := val 141%Z;
                       timespan := val "2023-04-15 to 2025-06-01";
                       startValue := val 12.640847367000001%Q;
                       endValue := val 16.529622766%Q;
                       totalIncrease := val 30.763565812462655%Q |};
     inflationData := null;
     inflationTrendLine := undefined;
     inflationSummary := undefined;
     inflationFitParams := undefined |}.


(** ** Views of the renderer state used in the statements *)

(** The two controls as [setupControls] leaves them when the payload has
    no inflation data, up to which of them carries the [active] class. *)
Definition nominal_controls (a0 a1 : bool) : list Button :=
  [ {| text := "Nominal Values"; data_view := "nominal";
       disabled := false; active := a0; listener := true |};
    {| text := "Inflation Adjusted"; data_view := "inflation";
       disabled := true; active := a1; listener := true |} ].

(** The renderer state in which only the nominal view can be shown. *)
Definition nominal_only (cd : ChartData) (c : js ChartJs) (w : World) : Prop :=
  chartData (this w) = cd /\
  showInflation (this w) = false /\
  chart (this w) = c /\
  exists a0 a1,
    chart_section (document w) =
      val {| has_controls := true; buttons := nominal_controls a0 a1 |}.

(** A chart section as [docs/index.html] serves it: no controls yet. *)
Definition bare_section : js ChartSection :=
  val {| has_controls := false; buttons := [] |}.

(** The chart shows the nominal series: its first dataset is the
    "Total Wealth" one with the points of [data]. *)
Definition shows_nominal (cd : ChartData) (c : js ChartJs) : Prop :=
  exists d0 rest,
    c = val {| datasets := d0 :: rest |} /\
    Dataset.label d0 = "Total Wealth" /\
    Dataset.data d0 = to_chart_points (data cd).

(** A missing property: [null] or [undefined]. *)
Definition absent {A} (v : js A) : Prop := v = null \/ v = undefined.

(** A property that [||] replaces by its default: missing, or zero. *)
Definition missing_or_zero (v : js Q) : Prop := truthy v = false.

(** The inflation-adjusted summary is the one on display. *)
Definition inflation_view (w : World) : bool :=
  showInflation (this w)
  && truthy (inflationData (chartData (this w)))
  && truthy (inflationSummary (chartData (this w))).

(** The growth figures on display are those of [inflationFitParams]. *)
Definition inflation_fit_used (w : World) : bool :=
  inflation_view w && truthy (inflationFitParams (chartData (this w))).

(** A fit that reports zero growth and zero R². *)
Definition zero_fit : FitParams :=
  {| fit_a := undefined; fit_b := undefined;
     annualGrowthRate := val 0%Q; r_squared := val 0%Q |}.

Definition with_fitParams (f : js FitParams) (cd : ChartData) : ChartData :=
  {| data := data cd; trendLine := trendLine cd; fitParams := f;
     summary := summary cd; inflationData := inflationData cd;
     inflationTrendLine := inflationTrendLine cd;
     inflationSummary := inflationSummary cd;
     inflationFitParams := inflationFitParams cd |}.

(** The same renderer state over another payload. *)
Definition with_chartData (cd : ChartData) (w : World) : World :=
  {| this := {| canvasId := canvasId (this w); chartData := cd;
                chart := chart (this w);
                showInflation := showInflation (this w);
                originalDatasetConfigs := originalDatasetConfigs (this w);
                animationPlayed := animationPlayed (this w);
                isAnimating := isAnimating (this w) |};
     document := document w |}.

(** The points of the [i]-th dataset of the chart, if any. *)
Definition dataset_points (w : World) (i : nat) : option (list ChartPoint.t) :=
  match chart (this w) with
  | val c => Dataset.data <$> datasets c !! i
  | _ => None
  end.

Definition dataset_label (w : World) (i : nat) : option string :=
  match chart (this w) with
  | val c => Dataset.label <$> datasets c !! i
  | _ => None
  end.

(** ** Sample payloads *)

(** A payload that carries a nominal fit and trend and an
    inflation-adjusted series, but no [inflationTrendLine]. *)
Definition payload_without_inflation_trend : ChartData :=
  {| data := [ Point.mk "2023-01-01" 10%Q; Point.mk "2024-01-01" 11.3%Q ];
     trendLine := val [ Point.mk "2023-01-01" 10%Q;
                        Point.mk "2024-01-01" 11.3%Q ];
     fitParams := val {| fit_a := val 10%Q; fit_b := val 0.00033%Q;
                         annualGrowthRate := val 13%Q;
                         r_squared := val 1%Q |};
     summary := val {| dataPoints := val 2%Z;
                       timespan := val "2023-01-01 to 2024-01-01";
                       startValue := val 10%Q; endValue := val 11.3%Q;
                       totalIncrease := val 13%Q |};
     inflationData :=
       val (InflationData.mk
              (val [ Point.mk "2023-01-01" 10.4%Q;
                     Point.mk "2024-01-01" 11.3%Q ])
              (val "cpi_u") (val "2024-01-01"));
     inflationTrendLine := undefined;
     inflationSummary := undefined;
     inflationFitParams := undefined |}.

(** A payload whose nominal fit is missing while the inflation-adjusted
    series comes with its own summary and fit. *)
Definition payload_without_nominal_fit : ChartData :=
  {| data := [ Point.mk "2023-01-01" 10%Q; Point.mk "2024-01-01" 11.3%Q ];
     trendLine := undefined;
     fitParams := undefined;
     summary := val {| dataPoints := val 2%Z;
                       timespan := val "2023-01-01 to 2024-01-01";
                       startValue := val 10%Q; endValue := val 11.3%Q;
                       totalIncrease := val 13%Q |};
     inflationData :=
       val (InflationData.mk
              (val [ Point.mk "2023-01-01" 10.4%Q;
                     Point.mk "2024-01-01" 11.3%Q ])
              (val "cpi_u") (val "2024-01-01"));
     inflationTrendLine := undefined;
     inflationSummary :=
       val {| dataPoints := val 2%Z;
              timespan := val "2023-01-01 to 2024-01-01";
              startValue := val 10.4%Q; endValue := val 11.3%Q;
              totalIncrease := val 8.7%Q |};
     inflationFitParams :=
       val {| fit_a := val 10.4%Q; fit_b := val 0.00023%Q;
              annualGrowthRate := val 8.7%Q; r_squared := val 0.95%Q |} |}.

(** The renderer after construction on [page] and a click on the
    "Inflation Adjusted" button. *)
Definition Docs_inflation_view (cd : ChartData) : World :=
  Docs.run (snd (Docs.constructor "wealth-timeline-chart" cd page)) [Click 1].
Definition Static_inflation_view (cd : ChartData) : World :=
  Static.run (snd (Static.constructor "wealth-timeline-chart" cd page)) [Click 1].

(** The same payload with a trend line fitted to the adjusted series. *)
Definition payload_with_inflation_trend : ChartData :=
  {| data := data payload_without_inflation_trend;
     trendLine := trendLine payload_without_inflation_trend;
     fitParams := fitParams payload_without_inflation_trend;
     summary := summary payload_without_inflation_trend;
     inflationData := inflationData payload_without_inflation_trend;
     inflationTrendLine :=
       val [ Point.mk "2023-01-01" 10.4%Q; Point.mk "2024-01-01" 11.3%Q ];
     inflationSummary := undefined;
     inflationFitParams := undefined |}.


(** * The published fit

    The Python program that ingests snapshots, stores them and computes
    the published numbers is not among the sources.  What follows sets
    the growth model of its specification against the fit it published
    in [docs/index.html]. *)

(** ** Calendar dates *)

Module Calendar.

Definition digit (c : ascii) : option Z :=
  let n := (Z.of_nat (nat_of_ascii c) - 48)%Z in
  if ((0 <=? n) && (n <=? 9))%Z then Some n else None.

Fixpoint number (s : string) (acc : Z) : option Z :=
  match s with
  | EmptyString => Some acc
  | String c s' =>
      match digit c with
      | Some d => number s' (10 * acc + d)%Z
      | None => None
      end
  end.




End Calendar.

(** ** Growth model *)

Module Growth.

Local Open Scope R_scope.






(** *** Rational enclosures of [exp]

    [exp x] is bracketed by [(1 + x/2^n)^(2^n)] and [(1 - x/2^n)^-(2^n)];
    the powers are taken by repeated squaring, rounded outwards to
    [precision] decimal digits. *)





(** The value of a payload number. *)
Definition number (v : js Q) : R :=
  match v with
  | val q => Q2R q
  | _ => 0
  end.

End Growth.

(** ** The published fit *)

Definition published_fit : FitParams :=
  match fitParams wealthTimelineData with
  | val f => f
  | _ => {| fit_a := undefined; fit_b := undefined;
            annualGrowthRate := undefined; r_squared := undefined |}
  end.


(** ** The datasets of a view *)

(** [{ ...dataset, data: points, label: name }] *)
Definition redraw (d : Dataset.t) (name : string) (points : list ChartPoint.t) : Dataset.t :=
  Dataset.mk name points (Dataset.borderColor d) (Dataset.backgroundColor d)
             (Dataset.borderWidth d) (Dataset.pointRadius d) (Dataset.order d).

(** The label suffix of the inflation-adjusted view. *)
Definition adjusted_suffix (idat : InflationData.t) : string :=
  " (" ++ interpolate (InflationData.inflationType idat) ++ " Adjusted)".

(** The trend line the inflation-adjusted view draws. *)
Definition adjusted_trend (cd : ChartData) : js (list Point.t) :=
  if truthy (inflationTrendLine cd) then inflationTrendLine cd else trendLine cd.

(** The datasets of the inflation-adjusted view, from those of the
    nominal view: the points dataset first, the trend dataset, when there
    is one, second. *)
Definition adjusted_datasets (cd : ChartData) (idat : InflationData.t)
    (pts : list Point.t) (nominal : list Dataset.t) : list Dataset.t :=
  match nominal with
  | [] => []
  | d0 :: rest =>
      redraw d0 ("Total Wealth" ++ adjusted_suffix idat) (to_chart_points pts)
      :: match rest with
         | [] => []
         | d1 :: rest' =>
             redraw d1 ("Exponential Trend" ++ adjusted_suffix idat)
                    (or_else (adjusted_trend cd) to_chart_points [])
             :: rest'
         end
  end.

(** What [updateChartData] draws for a value of [showInflation]: the
    nominal datasets, the adjusted ones, or nothing when the payload's
    [inflationData] has no [data] to map over. *)
Definition view_datasets (cd : ChartData) (nominal : list Dataset.t)
    (show : bool) : option (list Dataset.t) :=
  if show then
    match inflationData cd with
    | val idat =>
        match InflationData.data idat with
        | val pts => Some (adjusted_datasets cd idat pts nominal)
        | _ => None
        end
    | _ => Some nominal
    end
  else Some nominal.

(** A renderer whose chart, if it has one, shows the datasets of one of
    the two views over the datasets [nominal] kept at construction. *)
Definition drawn (cd : ChartData) (nominal : list Dataset.t) (w : World) : Prop :=
  chartData (this w) = cd /\
  ((chart (this w) = null /\ originalDatasetConfigs (this w) = null) \/
   (originalDatasetConfigs (this w) = val nominal /\
    exists show ds,
      view_datasets cd nominal show = Some ds /\
      chart (this w) = val {| datasets := ds |})).

(** The datasets [prepareDatasets] builds: the points, and the trend
    line when the payload has a non-empty one. *)
Definition has_trend (cd : ChartData) : bool :=
  or_else (trendLine cd) (fun l => (0 <? length l)%nat) false.

Definition trend_points (cd : ChartData) : list ChartPoint.t :=
  or_else (trendLine cd) to_chart_points [].

Definition Docs_prepared (cd : ChartData) (d : Dom) : list Dataset.t :=
  (Dataset.mk "Total Wealth" (to_chart_points (data cd)) "#8b2635" "#8b2635"
              0 (Docs.responsive_size d) 2
   :: if has_trend cd then
        [ Dataset.mk "Exponential Trend" (trend_points cd) "#e74c3c"
                     "transparent" (Docs.responsive_size d) 0 1 ]
      else [])%list.

Definition Static_prepared (cd : ChartData) : list Dataset.t :=
  (Dataset.mk "Total Wealth" (to_chart_points (data cd)) "#8b2635" "#8b2635"
              0 3 2
   :: if has_trend cd then
        [ Dataset.mk "Exponential Trend" (trend_points cd) "#e74c3c"
                     "transparent" 3 0 1 ]
      else [])%list.

(** The renderer right after construction on a page. *)
Definition Docs_constructed (id : string) (cd : ChartData) (d : Dom) : World :=
  snd (Docs.constructor id cd d).
Definition Static_constructed (id : string) (cd : ChartData) (d : Dom) : World :=
  snd (Static.constructor id cd d).

(** The same renderer state with [showInflation] set. *)
Definition select_view (show : bool) (w : World) : World :=
  {| this := with_showInflation show (this w); document := document w |}.

(** The page after [updateInfo] has run for a payload and a value of
    [showInflation]. *)
Definition Docs_info_document (cd : ChartData) (show : bool) (d : Dom) : Dom :=
  document (snd (Docs.updateInfo
                   {| this := with_showInflation show (fresh "" cd);
                      document := d |})).
Definition Static_info_document (cd : ChartData) (show : bool) (d : Dom) : Dom :=
  document (snd (Static.updateInfo
                   {| this := with_showInflation show (fresh "" cd);
                      document := d |})).

(** The controls of a chart section after a click on the [i]-th. *)
Definition click_section (i : nat) (d : Dom) : Dom :=
  match chart_section d with
  | val sec =>
      with_section (val {| has_controls := has_controls sec;
                           buttons := toggle_active i (buttons sec) |}) d
  | _ => d
  end.

(** The page after [setupControls] has run for a payload. *)
Definition setup_section (cd : ChartData) (d : Dom) : Dom :=
  match chart_section d with
  | val sec =>
      with_section
        (val {| has_controls := true;
                buttons :=
                  map listen
                    (if negb (has_controls sec)
                     then (buttons sec ++ controls cd)%list
                     else buttons sec) |}) d
  | _ => d
  end.

(** The chart object [init] leaves when it finds its canvas. *)
Definition initialised (id : string) (cd : ChartData) (ds : list Dataset.t) : ChartObj :=
  {| canvasId := id; chartData := cd; chart := val {| datasets := ds |};
     showInflation := false; originalDatasetConfigs := val ds;
     animationPlayed := false; isAnimating := false |}.

(** ** Tooltip and axis callbacks of [getChartOptions] *)

(** [label.split(" ")[0]] *)
Fixpoint first_word (s : string) : string :=
  match s with
  | EmptyString => EmptyString
  | String c s' =>
      if Ascii.eqb c " "%char then EmptyString else String c (first_word s')
  end.

Module DocsOptions.

(** [plugins.tooltip.callbacks.label] *)
Definition tooltip_label (dataset : Dataset.t) (parsed : ChartPoint.t) : string :=
  let value := ChartPoint.y parsed in
  let label := first_word (Dataset.label dataset) in
  label ++ ": $" ++ toFixed 1 value ++ "T".

(** [scales.y.ticks.callback] *)
Definition tick_label (value : Q) : string := "$" ++ toFixed 1 value ++ "T".

End DocsOptions.

Module StaticOptions.

(** [plugins.tooltip.callbacks.label] *)
Definition tooltip_label (w : World) (dataset : Dataset.t) (parsed : ChartPoint.t) : string :=
  let value := ChartPoint.y parsed in
  let label := Dataset.label dataset in
  let inflationSuffix :=
    match inflationData (chartData (this w)) with
    | val idat =>
        if showInflation (this w) then
          " (" ++ interpolate (InflationData.inflationType idat) ++ " Adjusted)"
        else ""
    | _ => ""
    end in
  label ++ inflationSuffix ++ ": $" ++ toFixed 1 value ++ " trillion".

(** [scales.y.ticks.callback] *)
Definition tick_label (value : Q) : string := "$" ++ toFixed 1 value ++ "T".

End StaticOptions.

(** The number of datasets of the chart, if there is a chart. *)
Definition dataset_count (w : World) : option nat :=
  match chart (this w) with
  | val c => Some (length (datasets c))
  | _ => None
  end.

(** The state both renderers keep under clicks: the chart shows one of
    the views of the payload, over the datasets kept at construction,
    and the window is as wide as it was. *)
Definition Docs_view_inv (cd : ChartData) (d0 : Dom) (w : World) : Prop :=
  drawn cd (Docs_prepared cd d0) w /\
  innerWidth (document w) = innerWidth d0.
Definition Static_view_inv (cd : ChartData) (w : World) : Prop :=
  drawn cd (Static_prepared cd) w.

(** The [i]-th dataset of the chart, if any. *)
Definition dataset (w : World) (i : nat) : option Dataset.t :=
  match chart (this w) with
  | val c => datasets c !! i
  | _ => None
  end.

(** A payload whose inflation data arrived without its [data] array. *)
Definition payload_without_inflation_points : ChartData :=
  {| data := data payload_without_inflation_trend;
     trendLine := trendLine payload_without_inflation_trend;
     fitParams := fitParams payload_without_inflation_trend;
     summary := summary payload_without_inflation_trend;
     inflationData :=
       val (InflationData.mk undefined (val "cpi_u") (val "2024-01-01"));
     inflationTrendLine := undefined;
     inflationSummary := undefined;
     inflationFitParams := undefined |}.

(** The published page without the chart's canvas. *)
Definition page_without_canvas : Dom :=
  {| innerWidth := innerWidth page; Chart_loaded := Chart_loaded page;
     canvases := []; chart_container := chart_container page;
     chart_section := chart_section page; chart_info := chart_info page |}.

(** ** The first version of the chart ([src/unnamed/part_003]) *)

Module Simple.

(** [${summary.dataPoints}] *)
Definition interpolate_int (v : js Z) : string :=
  match v with
  | undefined => "undefined"
  | null => "null"
  | val z => string_of_int z
  end.

(** The text of the [.chart-info] template literal, by its holes, line
    breaks and indentation included. *)
Definition info_html (points span start stop increase : string) : string :=
  nl ++ "                <strong>" ++ points ++ " data points</strong> from "
  ++ span ++ "<br>"
  ++ nl ++ "                Growth: $" ++ start ++ "T → $" ++ stop ++ "T "
  ++ nl ++ "                (+" ++ increase ++ "%)"
  ++ nl ++ "            ".

Definition updateInfo : M World unit :=
  w <- get ;;
  let infoArea := chart_info (document w) in
  if truthy infoArea && truthy (summary (chartData (this w))) then
    let summary0 := summary (chartData (this w)) in
    points <- prop summary0 (fun s => interpolate_int (dataPoints s)) ;;
    span <- prop summary0 (fun s => interpolate (timespan s)) ;;
    startValue0 <- prop summary0 startValue ;;
    start <- prop startValue0 (toFixed 1) ;;
    endValue0 <- prop summary0 endValue ;;
    stop <- prop endValue0 (toFixed 1) ;;
    totalIncrease0 <- prop summary0 totalIncrease ;;
    increase <- prop totalIncrease0 (toFixed 1) ;;
    set_document (with_info (info_html points span start stop increase))
  else ret tt.

(** The one dataset of the chart; it sets no [order], which Chart.js
    reads as 0. *)
Definition dataset (cd : ChartData) : Dataset.t :=
  Dataset.mk "Total Billionaire Wealth" (to_chart_points (data cd))
             "#e74c3c" "rgba(231, 76, 60, 0.1)" 2 0 0.

(** [try { ... } catch (error) { console.error(...); throw error; }] *)
Definition rethrow {S A} (m : M S A) : M S A := m.

(** [getContext] and [new Chart] are taken to return, as they do on a
    canvas element that carries no chart yet. *)
Definition init : M World unit :=
  w <- get ;;
  if negb (bool_decide (canvasId (this w) ∈ canvases (document w)))
  then ret tt else
  rethrow (
    set_this (with_chart
                (val {| datasets := [dataset (chartData (this w))] |})) ;;;
    updateInfo).

Definition constructor (id : string) (cd : ChartData) (d : Dom) : outcome unit * World :=
  let w := {| this := fresh id cd; document := d |} in
  if Chart_loaded d then init w else (Ok tt, w).

(** [destroy()] *)
Definition destroy : M World unit :=
  w <- get ;;
  if truthy (chart (this w)) then set_this (with_chart null) else ret tt.

(** The auto-initialisation: [window.wealthChart] and the page after the
    timeout has fired; [None] is a page whose script defines no
    [window.wealthTimelineData]. *)
Definition auto_initialize (payload : option ChartData) (d : Dom) : js ChartObj * Dom :=
  match payload with
  | Some cd =>
      if Chart_loaded d then
        match constructor "wealth-timeline-chart" cd d with
        | (Ok _, w) => (val (this w), document w)
        | (Throw _, w) => (undefined, document w)
        end
      else (undefined, d)
  | None => (undefined, d)
  end.

End Simple.

(** ** Navigation ([main.js]) *)

Module Nav.

(** A [section[id]] element. *)
Record section := { section_id : string; offsetTop : Z }.

(** A [.nav-link] element. *)
Record link := { href : js string; link_active : bool }.

Record page := {
  nav_active : js bool;        (* [.nav], with its [active] class *)
  toggle_active : js bool;     (* [.nav-toggle], with its [active] class *)
  sections : list section;
  links : list link;
  pageYOffset : Q }.

(** The [current] of the scroll listener after its loop over the
    sections. *)
Definition current (sections : list section) (pageYOffset : Q) : string :=
  fold_left
    (fun current s =>
       if Qle_bool (inject_Z (offsetTop s - 200)) pageYOffset
       then section_id s else current)
    sections "".

(** [link.getAttribute("href") === `#${current}`] *)
Definition points_at (current : string) (l : link) : bool :=
  match href l with
  | val h => String.eqb h ("#" ++ current)
  | _ => false
  end.

(** The scroll listener. *)
Definition on_scroll (p : page) : page :=
  let c := current (sections p) (pageYOffset p) in
  {| nav_active := nav_active p; toggle_active := toggle_active p;
     sections := sections p;
     links := map (fun l => {| href := href l;
                               link_active := points_at c l |}) (links p);
     pageYOffset := pageYOffset p |}.

(** The click listener of [.nav-toggle], attached only when both
    elements exist. *)
Definition on_toggle (p : page) : page :=
  match nav_active p, toggle_active p with
  | val n, val t =>
      {| nav_active := val (negb n); toggle_active := val (negb t);
         sections := sections p; links := links p;
         pageYOffset := pageYOffset p |}
  | _, _ => p
  end.

(** The click listener of a [.nav-link[href^="#"]], the scrolling
    itself left to the host. *)
Definition on_link_click (p : page) : page :=
  {| nav_active := match nav_active p with val _ => val false | v => v end;
     toggle_active := match toggle_active p with val _ => val false | v => v end;
     sections := sections p; links := links p;
     pageYOffset := pageYOffset p |}.

End Nav.

(** The same payload with another summary. *)
Definition with_summary (s : js Summary) (cd : ChartData) : ChartData :=
  {| data := data cd; trendLine := trendLine cd; fitParams := fitParams cd;
     summary := s; inflationData := inflationData cd;
     inflationTrendLine := inflationTrendLine cd;
     inflationSummary := inflationSummary cd;
     inflationFitParams := inflationFitParams cd |}.

(** The published summary without its total increase. *)
Definition summary_without_total : Summary :=
  {| dataPoints := val 141%Z;
     timespan := val "2023-04-15 to 2025-06-01";
     startValue := val 12.640847367000001%Q;
     endValue := val 16.529622766%Q;
     totalIncrease := undefined |}.

Definition payload_without_total : ChartData :=
  with_summary (val summary_without_total) wealthTimelineData.

(** A page of three sections and their links, scrolled into the
    second. *)
Definition scrolled_page : Nav.page :=
  {| Nav.nav_active := val false; Nav.toggle_active := val false;
     Nav.sections := [ Nav.Build_section "overview" 0;
                       Nav.Build_section "timeline" 900;
                       Nav.Build_section "about" 2400 ];
     Nav.links := [ Nav.Build_link (val "#overview") true;
                    Nav.Build_link (val "#timeline") false;
                    Nav.Build_link (val "#about") false;
                    Nav.Build_link null false ];
     Nav.pageYOffset := 1000.5%Q |}.

(** ** The scroll animation

    [setupScrollAnimation], [animateChart] and [animateTrendLine] of both
    renderers, with the timers they start.  The host delivers two kinds
    of event besides the clicks: the intersection observer reporting its
    entries, and an interval timer firing. *)

Module Animation.

Inductive version := docs | static.

Definition init (v : version) : M World unit :=
  match v with docs => Docs.init | static => Static.init end.
Definition setupControls (v : version) : M World unit :=
  match v with docs => Docs.setupControls | static => Static.setupControls end.
Definition updateInfo (v : version) : M World unit :=
  match v with docs => Docs.updateInfo | static => Static.updateInfo end.
Definition updateChartData (v : version) : M World unit :=
  match v with docs => Docs.updateChartData | static => Static.updateChartData end.
(** A click on the [i]-th button of the chart section. *)
Definition click (v : version) (w : World) (i : nat) : World :=
  match v with
  | docs => Docs.dispatch w (Click i)
  | static => Static.dispatch w (Click i)
  end.

(** An interval timer, with the variables its callback closes over.
    The [datasets] array they also hold is the chart's own array:
    [this.chart] is assigned by [init] and never again while a timer
    runs ([destroy] is not among the events).  The
    [trendDataset] of the second timer is the object that was the
    chart's second dataset when the timer started; [attached] tells
    whether it still is, since [updateChartData] puts a new object in
    its place. *)
Inductive timer :=
| pointInterval (pointIndex : nat) (originalData originalTrend : list ChartPoint.t)
| interval (currentStep : nat) (trendData : list ChartPoint.t) (attached : bool).

Definition detach (t : timer) : timer :=
  match t with
  | interval currentStep trendData _ => interval currentStep trendData false
  | _ => t
  end.

(** The renderer, whether its intersection observer exists, and the
    running timers in the order they were started. *)
Record Page := { world : World; observing : bool; timers : list timer }.

Inductive event :=
| Intersect (isIntersecting : list bool)
| Tick (i : nat)
| Press (i : nat).

Definition lift {A} (m : M World A) : M Page A :=
  fun p => let (r, w) := m (world p) in
           (r, {| world := w; observing := observing p; timers := timers p |}).

Definition observe : M Page unit :=
  fun p => (Ok tt, {| world := world p; observing := true; timers := timers p |}).

Definition set_timers (f : list timer -> list timer) : M Page unit :=
  fun p => (Ok tt, {| world := world p; observing := observing p;
                      timers := f (timers p) |}).

Definition setInterval (t : timer) : M Page unit :=
  set_timers (fun ts => ts ++ [t])%list.
Definition clearInterval (i : nat) : M Page unit :=
  set_timers (delete i).

Definition with_isAnimating (b : bool) (o : ChartObj) : ChartObj :=
  {| canvasId := canvasId o; chartData := chartData o; chart := chart o;
     showInflation := showInflation o;
     originalDatasetConfigs := originalDatasetConfigs o;
     animationPlayed := animationPlayed o; isAnimating := b |}.
Definition with_animationPlayed (b : bool) (o : ChartObj) : ChartObj :=
  {| canvasId := canvasId o; chartData := chartData o; chart := chart o;
     showInflation := showInflation o;
     originalDatasetConfigs := originalDatasetConfigs o;
     animationPlayed := b; isAnimating := isAnimating o |}.

Definition with_data (points : list ChartPoint.t) (d : Dataset.t) : Dataset.t :=
  Dataset.mk (Dataset.label d) points (Dataset.borderColor d)
             (Dataset.backgroundColor d) (Dataset.borderWidth d)
             (Dataset.pointRadius d) (Dataset.order d).

(** [datasets[i].data = f(datasets[i].data)] on the chart's array; an
    index the array does not have is left alone. *)
Definition set_data (i : nat) (f : list ChartPoint.t -> list ChartPoint.t) (o : ChartObj) : ChartObj :=
  with_chart
    (match chart o with
     | val c => val {| datasets :=
                         alter (fun d => with_data (f (Dataset.data d)) d) i
                               (datasets c) |}
     | v => v
     end) o.

(** [a[i]] *)
Definition at_index {A} (a : list A) (i : nat) : js A :=
  match a !! i with
  | Some x => val x
  | None => undefined
  end.

Fixpoint forEach {S A} (a : list A) (f : A -> M S unit) : M S unit :=
  match a with
  | [] => ret tt
  | x :: a' => f x ;;; forEach a' f
  end.

Section Floor.

(** [Math.floor(length * (currentStep / 40))] in double precision. *)
Variable pointCount : nat -> nat -> nat.

Variable v : version.

(** The callback of [animateTrendLine]'s timer, the [i]-th one
    running. *)
Definition interval_callback (i currentStep : nat) (trendData : list ChartPoint.t) (attached : bool) : M Page unit :=
  if (currentStep <=? 40)%nat then
    p <- get ;;
    (if attached then
       lift (set_this (set_data 1 (fun _ =>
               firstn (pointCount (length trendData) currentStep) trendData)))
     else ret tt) ;;;
    _ <- prop (chart (this (world p))) (fun c => c) ;;   (* chart.update *)
    set_timers (<[i := interval (S currentStep) trendData attached]>)
  else
    clearInterval i ;;;
    lift (set_this (with_isAnimating false)) ;;;
    lift (updateInfo v).

Definition animateTrendLine (trendData : list ChartPoint.t) : M Page unit :=
  setInterval (interval 0 trendData true).

(** The callback of [animateChart]'s timer, the [i]-th one running. *)
Definition pointInterval_callback (i pointIndex : nat) (originalData originalTrend : list ChartPoint.t) : M Page unit :=
  p <- get ;;
  match originalData !! pointIndex with
  | Some point =>
      chart0 <- prop (chart (this (world p))) (fun c => c) ;;
      _ <- prop (at_index (datasets chart0) 0) Dataset.data ;;
      lift (set_this (set_data 0 (fun data => data ++ [point])%list)) ;;;
      set_timers (<[i := pointInterval (S pointIndex) originalData originalTrend]>)
  | None =>
      clearInterval i ;;;
      if truthy (optchain (chart (this (world p)))
                          (fun c => at_index (datasets c) 1))
         && (0 <? length originalTrend)%nat
      then animateTrendLine originalTrend
      else
        lift (set_this (with_isAnimating false)) ;;;
        match v with
        | docs => lift (updateInfo docs)
        | static => ret tt
        end
  end.

Definition animateChart : M Page unit :=
  p <- get ;;
  let o := this (world p) in
  if negb (truthy (chart o)) || isAnimating o then ret tt else
  lift (set_this (with_isAnimating true)) ;;;
  datasets0 <- prop (chart o) datasets ;;
  originalData <- prop (at_index datasets0 0) Dataset.data ;;
  let originalTrend :=
    match at_index datasets0 1 with
    | val d => Dataset.data d
    | _ => []
    end in
  lift (set_this (set_data 0 (fun _ => []))) ;;;
  lift (set_this (set_data 1 (fun _ => []))) ;;;
  setInterval (pointInterval 0 originalData originalTrend).

(** The observer's callback, entry by entry. *)
Definition observer_entry (isIntersecting : bool) : M Page unit :=
  p <- get ;;
  let o := this (world p) in
  if isIntersecting && negb (animationPlayed o) && negb (isAnimating o) then
    animateChart ;;;
    lift (set_this (with_animationPlayed true))
  else ret tt.

Definition observer_callback (entries : list bool) : M Page unit :=
  forEach entries observer_entry.

Definition setupScrollAnimation : M Page unit :=
  p <- get ;;
  if negb (chart_container (document (world p))) then ret tt else observe.

(** The whole constructor. *)
Definition constructor (id : string) (cd : ChartData) (d : Dom) : outcome unit * Page :=
  let p := {| world := {| this := fresh id cd; document := d |};
              observing := false; timers := [] |} in
  if Chart_loaded d
  then (lift (init v) ;;; setupScrollAnimation ;;; lift (setupControls v)) p
  else (Ok tt, p).

(** Whether the click that took the renderer from [w] to [w'] put a new
    object into [datasets[1]]: [handleControlClick] changed
    [showInflation], and [updateChartData] then got as far as that
    assignment. *)
Definition trend_replaced (w w' : World) : bool :=
  negb (Bool.eqb (showInflation (this w')) (showInflation (this w)))
  && match fst (updateChartData v (select_view (showInflation (this w')) w)) with
     | Ok _ => true
     | Throw _ => false
     end
  && truthy (optchain (originalDatasetConfigs (this w))
                      (fun configs => at_index configs 1))
  && truthy (optchain (chart (this w)) (fun c => at_index (datasets c) 1)).

(** The page reacting to one event; an exception escaping a callback is
    reported by the host and the page goes on. *)
Definition dispatch (p : Page) (e : event) : Page :=
  match e with
  | Intersect entries =>
      if observing p then snd (observer_callback entries p) else p
  | Tick i =>
      match timers p !! i with
      | Some (pointInterval pointIndex originalData originalTrend) =>
          snd (pointInterval_callback i pointIndex originalData originalTrend p)
      | Some (interval currentStep trendData attached) =>
          snd (interval_callback i currentStep trendData attached p)
      | None => p
      end
  | Press i =>
      let w' := click v (world p) i in
      {| world := w'; observing := observing p;
         timers := if trend_replaced (world p) w'
                   then map detach (timers p) else timers p |}
  end.

Definition run (p : Page) (es : list event) : Page :=
  fold_left dispatch es p.

End Floor.

(** *** The states an undisturbed animation goes through *)

(** The renderer [w] with the given flags and datasets. *)
Definition stage (w : World) (animating played : bool) (ds : list Dataset.t) : World :=
  {| this := {| canvasId := canvasId (this w); chartData := chartData (this w);
                chart := val {| datasets := ds |};
                showInflation := showInflation (this w);
                originalDatasetConfigs := originalDatasetConfigs (this w);
                animationPlayed := played; isAnimating := animating |};
     document := document w |}.

(** The datasets after the first, the trend line emptied. *)
Definition cleared (rest : list Dataset.t) : list Dataset.t :=
  match rest with
  | d1 :: rest' => with_data [] d1 :: rest'
  | [] => []
  end.

(** The points of the trend line, if there is one. *)
Definition trend_of (rest : list Dataset.t) : list ChartPoint.t :=
  match rest with
  | d1 :: _ => Dataset.data d1
  | [] => []
  end.

(** The renderer in the middle of an animation, with the datasets on
    display and the running timers. *)
Definition playing (w : World) (ds : list Dataset.t) (ts : list timer) : Page :=
  {| world := stage w true true ds; observing := true; timers := ts |}.

(** The renderer once the last timer is cleared, [info] telling
    whether [updateInfo] ran. *)
Definition finished (v : version) (w : World) (ds : list Dataset.t) (info : bool) : Page :=
  let w' := stage w false true ds in
  {| world := if info then snd (updateInfo v w') else w';
     observing := true; timers := [] |}.

(** The datasets the constructor builds, and the page [updateInfo]
    leaves, in either version. *)
Definition prepared (v : version) (cd : ChartData) (d : Dom) : list Dataset.t :=
  match v with
  | docs => Docs_prepared cd d
  | static => Static_prepared cd
  end.
Definition info_document (v : version) (cd : ChartData) (show : bool) (d : Dom) : Dom :=
  match v with
  | docs => Docs_info_document cd show d
  | static => Static_info_document cd show d
  end.

(** Renderer and page right after construction, on a page with the
    canvas. *)
Definition constructed (v : version) (id : string) (cd : ChartData) (d : Dom) : World :=
  {| this := initialised id cd (prepared v cd d);
     document := setup_section cd (info_document v cd false d) |}.

(** The same after a click on the second control has selected the
    adjusted view. *)
Definition adjusted (v : version) (id : string) (cd : ChartData) (d : Dom) : World :=
  {| this := with_showInflation true (initialised id cd (prepared v cd d));
     document := click_section 1
                   (info_document v cd true
                      (setup_section cd (info_document v cd false d))) |}.

(** Whether the animation ends in [updateInfo]. *)
Definition info_refreshed (v : version) (rest : list Dataset.t) : bool :=
  match v with
  | docs => true
  | static => (0 <? length (trend_of rest))%nat
  end.

(** The timer events of an undisturbed animation. *)
Definition ticks (d0 : Dataset.t) (rest : list Dataset.t) : nat :=
  length (Dataset.data d0) + 1
  + (if (0 <? length (trend_of rest))%nat then 42 else 0).

(** The trend dataset before step [k] of its animation. *)
Definition trend_at (pointCount : nat -> nat -> nat) (trendData : list ChartPoint.t) (d1 : Dataset.t) (k : nat) : Dataset.t :=
  match k with
  | O => d1
  | S j => with_data (firstn (pointCount (length trendData) j) trendData) d1
  end.

(** A division rounding down: a [pointCount] to run the model with. *)
Definition exact_pointCount (len step : nat) : nat := len * step / 40.

End Animation.

(** The published page once the chart is constructed. *)
Definition Docs_page_observed : Animation.Page :=
  snd (Animation.constructor Animation.docs
         "wealth-timeline-chart" wealthTimelineData page).
Definition Static_page_observed : Animation.Page :=
  snd (Animation.constructor Animation.static
         "wealth-timeline-chart" wealthTimelineData page).

(** ** The info line, field by field

    What [updateInfo] is meant to print, written out hole by hole: the
    counterpart of [Docs.updateInfo] and [Static.updateInfo] in the
    statements about the info line. *)

(** An amount to [f] decimals, or "N/A" when the field is missing. *)
Definition amount_or_NA (f : nat) (v : js Q) : string :=
  match v with
  | val q => toFixed f q
  | _ => "N/A"
  end.

(** The number of data points, or "N/A" when it is missing or zero. *)
Definition count_or_NA (v : js Z) : string :=
  match v with
  | val z => if (z =? 0)%Z then "N/A" else string_of_int z
  | _ => "N/A"
  end.

(** The time span, or "N/A" when it is missing or empty. *)
Definition span_or_NA (v : js string) : string :=
  match v with
  | val EmptyString => "N/A"
  | val t => t
  | _ => "N/A"
  end.

(** The summary on display: [inflationSummary] in the inflation view,
    the nominal [summary] otherwise. *)
Definition displayed_summary (w : World) : js Summary :=
  if inflation_view w then inflationSummary (chartData (this w))
  else summary (chartData (this w)).

(** The note after "Growth", empty in the nominal view. *)
Definition Docs_note (w : World) : string :=
  if inflation_view w then
    match inflationData (chartData (this w)) with
    | val idat =>
        " (" ++ interpolate (InflationData.inflationType idat) ++ " adjusted)"
    | _ => ""
    end
  else "".

Definition Static_note (w : World) : string :=
  if inflation_view w then
    match inflationData (chartData (this w)) with
    | val idat =>
        " (" ++ interpolate (InflationData.inflationType idat)
        ++ " adjusted to "
        ++ match InflationData.baseDate idat with
           | val EmptyString => "latest"
           | val day => day
           | _ => "latest"
           end
        ++ " dollars)"
    | _ => ""
    end
  else "".

(** What follows the closing [</span>] in each template. *)
Definition Docs_tail : string := nl ++ "    ".
Definition Static_tail (w : World) : string :=
  nl ++ "        " ++ Static.footer (showInflation (this w)) ++ nl ++ "      ".

(** A number of the nominal fit: to [f] decimals, or zero to [f]
    decimals ([zero]) when it is missing or zero. *)
Definition fit_or_zero (f : nat) (zero : string) (v : js Q) : string :=
  if truthy v then amount_or_NA f v else zero.

(** A payload whose inflation-adjusted fit lacks its growth rate and
    reports an R² of zero, and whose adjusted summary reports no
    increase. *)
Definition payload_with_partial_inflation_fit : ChartData :=
  {| data := data payload_without_nominal_fit;
     trendLine := undefined;
     fitParams := undefined;
     summary := val {| dataPoints := val 2%Z;
                       timespan := val "2023-01-01 to 2024-01-01";
                       startValue := val 10%Q; endValue := val 11.3%Q;
                       totalIncrease := val 13%Q |};
     inflationData := inflationData payload_without_nominal_fit;
     inflationTrendLine := undefined;
     inflationSummary :=
       val {| dataPoints := val 2%Z;
              timespan := val "2023-01-01 to 2024-01-01";
              startValue := val 10.4%Q; endValue := val 11.3%Q;
              totalIncrease := val 0%Q |};
     inflationFitParams :=
       val {| fit_a := val 10.4%Q; fit_b := val 0.00023%Q;
              annualGrowthRate := undefined; r_squared := val 0%Q |} |}.

(** ** The view on display *)

(** The chart shows the datasets of the very view that [showInflation]
    selects, over the datasets [nominal] kept at construction. *)
Definition shows_selected (cd : ChartData) (nominal : list Dataset.t) (w : World) : Prop :=
  chartData (this w) = cd /\
  originalDatasetConfigs (this w) = val nominal /\
  exists ds,
    view_datasets cd nominal (showInflation (this w)) = Some ds /\
    chart (this w) = val {| datasets := ds |}.

(** * Theorems about the renderers *)

Ltac js_unfold :=
  unfold prop, try_catch, set_this, set_document, bind, ret, get, put, throw,
    or_else, optchain in *;
  unfold truthy, truthy_js, truthy_bool, truthy_array, truthy_Summary,
    truthy_FitParams, truthy_InflationData, truthy_Dataset, truthy_ChartJs,
    truthy_ChartSection, truthy_Element in *.

(** Propagate what is known about a property of the payload or page. *)
Ltac js_rew :=
  repeat match goal with
    | H : _ = val _ |- _ => rewrite H in *
    | H : _ = undefined |- _ => rewrite H in *
    | H : _ = null |- _ => rewrite H in *
    end.

(** Case analysis on an innermost scrutinee of the goal. *)
Ltac js_case :=
  match goal with
  | |- context [match ?x with _ => _ end] =>
      lazymatch x with
      | context [match _ with _ => _ end] => fail
      | _ => destruct x eqn:?
      end
  end.

Ltac js_absurd :=
  match goal with
  | H : context [(_ && false)%bool] |- _ =>
      rewrite ?andb_false_r in H; cbn in H; done
  | H : context [(_ || true)%bool] |- _ =>
      rewrite ?orb_true_r in H; cbn in H; done
  end.

Ltac js_eval :=
  js_unfold; cbn;
  repeat (js_case; js_rew; js_unfold; cbn; try done; try js_absurd).

Ltac js_crush :=
  js_unfold; cbn in *;
  repeat (first [ progress js_rew
                | progress (js_unfold; cbn in *)
                | progress simplify_eq
                | case_match ]);
  try done.


(** ** Frame properties of [updateInfo]: it never throws and touches
    nothing but the [.chart-info] element. *)

Lemma Docs_updateInfo_frame (w : World) :
  exists w', Docs.updateInfo w = (Ok tt, w') /\
    this w' = this w /\
    chart_section (document w') = chart_section (document w).
Proof.
  unfold Docs.updateInfo. js_eval; eauto.
Qed.

Lemma Static_updateInfo_frame (w : World) :
  exists w', Static.updateInfo w = (Ok tt, w') /\
    this w' = this w /\
    chart_section (document w') = chart_section (document w).
Proof.
  unfold Static.updateInfo. js_eval; eauto.
Qed.

Lemma Docs_prepareDatasets_head (w : World) :
  exists d0 rest, Docs.prepareDatasets w = (Ok (d0 :: rest), w) /\
    Dataset.label d0 = "Total Wealth" /\
    Dataset.data d0 = to_chart_points (data (chartData (this w))).
Proof.
  unfold Docs.prepareDatasets. js_eval; eauto.
Qed.

Lemma Static_prepareDatasets_head (w : World) :
  exists d0 rest, Static.prepareDatasets w = (Ok (d0 :: rest), w) /\
    Dataset.label d0 = "Total Wealth" /\
    Dataset.data d0 = to_chart_points (data (chartData (this w))).
Proof.
  unfold Static.prepareDatasets. js_eval; eauto.
Qed.

Arguments Docs.updateInfo : simpl never.
Arguments Static.updateInfo : simpl never.
Arguments Docs.updateChartData : simpl never.
Arguments Static.updateChartData : simpl never.
Arguments Docs.init : simpl never.
Arguments Static.init : simpl never.

Lemma Docs_init_spec (w : World) :
  exists w', Docs.init w = (Ok tt, w') /\
    chartData (this w') = chartData (this w) /\
    canvasId (this w') = canvasId (this w) /\
    showInflation (this w') = showInflation (this w) /\
    chart_section (document w') = chart_section (document w) /\
    (canvasId (this w) ∈ canvases (document w) ->
     shows_nominal (chartData (this w)) (chart (this w'))).
Proof.
  unfold Docs.init, bind at 1, get; cbn.
  destruct (bool_decide _) eqn:Hc; cbn.
  - destruct (Docs_prepareDatasets_head w) as (d0 & rest & E & Hl & Hd).
    unfold bind at 1. rewrite E. unfold bind, set_this; cbn.
    match goal with |- context [Docs.updateInfo ?v] =>
      destruct (Docs_updateInfo_frame v) as (w' & -> & Ht & Hs) end.
    exists w'. rewrite Ht, Hs; cbn. repeat split; try done.
    intros _. by exists d0, rest.
  - exists w. unfold ret. repeat split; try done.
    intros Hin. apply bool_decide_eq_false_1 in Hc. done.
Qed.

Lemma Static_init_spec (w : World) :
  exists w', Static.init w = (Ok tt, w') /\
    chartData (this w') = chartData (this w) /\
    canvasId (this w') = canvasId (this w) /\
    showInflation (this w') = showInflation (this w) /\
    chart_section (document w') = chart_section (document w) /\
    (canvasId (this w) ∈ canvases (document w) ->
     shows_nominal (chartData (this w)) (chart (this w'))).
Proof.
  unfold Static.init, bind at 1, get; cbn.
  destruct (bool_decide _) eqn:Hc; cbn.
  - destruct (Static_prepareDatasets_head w) as (d0 & rest & E & Hl & Hd).
    unfold bind at 1. rewrite E. unfold bind, set_this; cbn.
    match goal with |- context [Static.updateInfo ?v] =>
      destruct (Static_updateInfo_frame v) as (w' & -> & Ht & Hs) end.
    exists w'. rewrite Ht, Hs; cbn. repeat split; try done.
    intros _. by exists d0, rest.
  - exists w. unfold ret. repeat split; try done.
    intros Hin. apply bool_decide_eq_false_1 in Hc. done.
Qed.

(** ** A payload without inflation data: the controls and the view *)

Lemma controls_without_inflation (cd : ChartData) :
  absent (inflationData cd) ->
  map listen (controls cd) = nominal_controls true false.
Proof. by intros [H | H]; unfold controls; rewrite H. Qed.

Section Controls.
Variables (id : string) (cd : ChartData) (d : Dom).
Hypothesis no_inflation : absent (inflationData cd).
Hypothesis loaded : Chart_loaded d = true.
Hypothesis bare : chart_section d = bare_section.

Lemma Docs_constructor_nominal :
  let r := Docs.constructor id cd d in
  fst r = Ok tt /\
  nominal_only cd (chart (this (snd r))) (snd r) /\
  (id ∈ canvases d -> shows_nominal cd (chart (this (snd r)))).
Proof.
  unfold Docs.constructor. rewrite loaded.
  match goal with |- context [(Docs.init ;;; _) ?v] =>
    destruct (Docs_init_spec v) as (w' & E & Hcd & Hid & Hsh & Hsec & Hnom) end.
  cbn in *. unfold Docs.setupControls, bind, get. rewrite E, Hsec, bare; cbn.
  rewrite Hcd.
  destruct no_inflation as [H | H]; rewrite H; cbn;
    repeat split; cbn; eauto.
Qed.

Lemma Static_constructor_nominal :
  let r := Static.constructor id cd d in
  fst r = Ok tt /\
  nominal_only cd (chart (this (snd r))) (snd r) /\
  (id ∈ canvases d -> shows_nominal cd (chart (this (snd r)))).
Proof.
  unfold Static.constructor. rewrite loaded.
  match goal with |- context [(Static.init ;;; _) ?v] =>
    destruct (Static_init_spec v) as (w' & E & Hcd & Hid & Hsh & Hsec & Hnom) end.
  cbn in *. unfold Static.setupControls, bind, get. rewrite E, Hsec, bare; cbn.
  rewrite Hcd.
  destruct no_inflation as [H | H]; rewrite H; cbn;
    repeat split; cbn; eauto.
Qed.
End Controls.

(** Clicks cannot leave the nominal view once the inflation control is
    disabled. *)
Lemma Docs_dispatch_nominal cd c w e :
  nominal_only cd c w -> nominal_only cd c (Docs.dispatch w e).
Proof.
  intros (Hcd & Hsh & Hc & a0 & a1 & Hsec). destruct e as [i].
  unfold Docs.dispatch. rewrite Hsec. cbn.
  destruct i as [|[|i]]; cbn; try by (repeat split; eauto).
  unfold Docs.handleControlClick; cbn. js_unfold; cbn.
  rewrite Hsh; cbn. rewrite Hsec; cbn. repeat split; eauto.
Qed.

Lemma Static_dispatch_nominal cd c w e :
  nominal_only cd c w -> nominal_only cd c (Static.dispatch w e).
Proof.
  intros (Hcd & Hsh & Hc & a0 & a1 & Hsec). destruct e as [i].
  unfold Static.dispatch. rewrite Hsec. cbn.
  destruct i as [|[|i]]; cbn; try by (repeat split; eauto).
  unfold Static.handleControlClick; cbn. js_unfold; cbn.
  rewrite Hsh; cbn. rewrite Hsec; cbn. repeat split; eauto.
Qed.

Lemma Docs_run_nominal cd c es : forall w,
  nominal_only cd c w -> nominal_only cd c (Docs.run w es).
Proof.
  unfold Docs.run. induction es as [|e es IH]; intros w Hw; [done|].
  cbn. apply IH. by apply Docs_dispatch_nominal.
Qed.

Lemma Static_run_nominal cd c es : forall w,
  nominal_only cd c w -> nominal_only cd c (Static.run w es).
Proof.
  unfold Static.run. induction es as [|e es IH]; intros w Hw; [done|].
  cbn. apply IH. by apply Static_dispatch_nominal.
Qed.

(** C9: for every payload whose [inflationData] is absent ([null] or
    [undefined]) the "Inflation Adjusted" control comes out of the
    controls markup disabled while "Nominal Values" stays enabled; and
    on a page whose chart section has no controls yet, in both
    renderers, whatever is clicked after construction the chart object
    stays in the nominal view ([showInflation] false, the controls as
    rendered, the chart untouched), the chart showing the nominal
    series whenever its canvas exists. *)
Theorem C9_inflation_control_disabled
    (id : string) (cd : ChartData) (d : Dom) (es : list event) :
  absent (inflationData cd) ->
  (forall b, b ∈ controls cd ->
     data_view b = "inflation" -> disabled b = true) /\
  (forall b, b ∈ controls cd ->
     data_view b = "nominal" -> disabled b = false) /\
  (Chart_loaded d = true -> chart_section d = bare_section ->
   let wd := snd (Docs.constructor id cd d) in
   let ws := snd (Static.constructor id cd d) in
   (nominal_only cd (chart (this wd)) (Docs.run wd es) /\
    (id ∈ canvases d -> shows_nominal cd (chart (this (Docs.run wd es))))) /\
   (nominal_only cd (chart (this ws)) (Static.run ws es) /\
    (id ∈ canvases d -> shows_nominal cd (chart (this (Static.run ws es)))))).
Proof.
  intros Habs. split; [|split].
  - intros b Hb Hv. unfold controls in Hb.
    apply elem_of_cons in Hb as [-> | Hb]; [done|].
    apply list_elem_of_singleton in Hb as ->. cbn.
    by destruct Habs as [-> | ->].
  - intros b Hb Hv. unfold controls in Hb.
    apply elem_of_cons in Hb as [-> | Hb]; [done|].
    apply list_elem_of_singleton in Hb as ->. done.
  - intros Hl Hb wd ws. split.
    + destruct (Docs_constructor_nominal id cd d Habs Hl Hb) as (_ & Hn & Hs).
      pose proof (Docs_run_nominal cd _ es _ Hn) as Hr.
      split; [exact Hr|]. intros Hin.
      destruct Hr as (_ & _ & Hc & _). subst wd ws. rewrite Hc. by apply Hs.
    + destruct (Static_constructor_nominal id cd d Habs Hl Hb) as (_ & Hn & Hs).
      pose proof (Static_run_nominal cd _ es _ Hn) as Hr.
      split; [exact Hr|]. intros Hin.
      destruct Hr as (_ & _ & Hc & _). subst wd ws. rewrite Hc. by apply Hs.
Qed.

(** The published payload on the published page, after a click on each
    control. *)
Lemma C9_published_payload_stays_nominal :
  showInflation
    (this (Docs.run
             (snd (Docs.constructor "wealth-timeline-chart"
                     wealthTimelineData page)) [Click 1; Click 0])) = false /\
  showInflation
    (this (Static.run
             (snd (Static.constructor "wealth-timeline-chart"
                     wealthTimelineData page)) [Click 1; Click 0])) = false.
Proof.
  destruct (C9_inflation_control_disabled "wealth-timeline-chart"
              wealthTimelineData page [Click 1; Click 0])
    as (_ & _ & H).
  - left. reflexivity.
  - destruct H as [[(_ & Hd & _) _] [(_ & Hs & _) _]];
      [reflexivity | reflexivity | split; assumption].
Defined.

(** ** [updateInfo] and a missing fit *)

Lemma missing_or_zero_spec (v : js Q) :
  missing_or_zero v <-> absent v \/ exists q, v = val q /\ (q == 0)%Q.
Proof.
  unfold missing_or_zero, absent. destruct v as [| |q]; cbn.
  - naive_solver.
  - naive_solver.
  - change (negb (Qnum q =? 0)%Z = false <->
            (val q = null \/ val q = undefined) \/
            exists q0, val q = val q0 /\ (q0 == 0)%Q).
    unfold Qeq. destruct q as [n dn]; cbn.
    rewrite negb_false_iff, Z.eqb_eq. split.
    + intros ->. right. eexists. split; [done|]. cbn. lia.
    + intros [[? | ?] | (q & ? & Hq)]; simplify_eq. cbn in Hq. lia.
Qed.

Lemma or_else_missing (v : js Q) :
  missing_or_zero v -> or_else v (fun q => q) 0%Q = 0%Q.
Proof.
  unfold missing_or_zero, or_else. destruct v as [| |q]; try done.
  change (truthy (val q)) with (truthy q). by intros ->.
Qed.

Arguments toFixed : simpl never.
Arguments fixed_or_NA : simpl never.
Arguments summary_html : simpl never.

Section MissingFit.
Variable w : World.
Let cd := chartData (this w).
Let growth0 := or_else (optchain (fitParams cd) annualGrowthRate) (fun q => q) 0%Q.
Let r20 := or_else (optchain (fitParams cd) r_squared) (fun q => q) 0%Q.

Hypothesis no_growth : missing_or_zero (optchain (fitParams cd) annualGrowthRate).
Hypothesis no_r2 : missing_or_zero (optchain (fitParams cd) r_squared).

Lemma Docs_missing_fit_as_zero_fit :
  document (snd (Docs.updateInfo w)) =
  document (snd (Docs.updateInfo
                   (with_chartData (with_fitParams (val zero_fit) cd) w))).
Proof.
  assert (Hg : growth0 = 0%Q) by (by apply or_else_missing).
  assert (Hr : r20 = 0%Q) by (by apply or_else_missing).
  subst growth0 r20 cd. unfold Docs.updateInfo.
  unfold bind at 1 3, get. cbn.
  destruct (negb _ || negb _)%bool; [done|].
  rewrite Hg, Hr. clear Hg Hr no_growth no_r2.
  unfold with_chartData, with_fitParams. js_eval.
Qed.

Lemma Static_missing_fit_as_zero_fit :
  document (snd (Static.updateInfo w)) =
  document (snd (Static.updateInfo
                   (with_chartData (with_fitParams (val zero_fit) cd) w))).
Proof.
  assert (Hg : growth0 = 0%Q) by (by apply or_else_missing).
  assert (Hr : r20 = 0%Q) by (by apply or_else_missing).
  subst growth0 r20 cd. unfold Static.updateInfo, try_catch.
  unfold bind at 1 3, get. cbn.
  destruct (negb (truthy (chart_info _))); [done|].
  destruct (negb (truthy (summary _))); [done|].
  rewrite Hg, Hr. clear Hg Hr no_growth no_r2.
  unfold with_chartData, with_fitParams. js_eval.
Qed.
End MissingFit.

(** C10, as stated, fails: a payload without [fitParams] whose
    inflation-adjusted series has its own fit shows that fit's 8.7% and
    R² 0.950 once the inflation view is selected, not 0. *)
Lemma C10_missing_fit_not_shown_as_zero :
  fitParams payload_without_nominal_fit = undefined /\
  chart_info (document (Docs_inflation_view payload_without_nominal_fit)) =
    val {| innerHTML :=
             info_html "      " "2" "2023-01-01 to 2024-01-01"
                       " (cpi_u adjusted)"
                       "10.4" "11.3" "8.7" "8.7" "0.950" (nl ++ "    ") |} /\
  chart_info (document (Static_inflation_view payload_without_nominal_fit)) =
    val {| innerHTML :=
             info_html "        " "2" "2023-01-01 to 2024-01-01"
                       " (cpi_u adjusted to 2024-01-01 dollars)"
                       "10.4" "11.3" "8.7" "8.7" "0.950"
                       (nl ++ "        " ++ Static.footer true
                        ++ nl ++ "      ") |}.
Proof. repeat split; vm_compute; reflexivity. Qed.

(** ** [updateChartData] in the inflation view *)

(** C7, as stated, fails: with inflation data but no
    [inflationTrendLine] in the payload, both renderers draw the
    inflation-adjusted view with the nominal trend line, relabelled. *)
Lemma C7_nominal_trend_reused :
  let cd := payload_without_inflation_trend in
  showInflation (this (Docs_inflation_view cd)) = true /\
  dataset_label (Docs_inflation_view cd) 1 =
    Some "Exponential Trend (cpi_u Adjusted)" /\
  dataset_points (Docs_inflation_view cd) 1 =
    or_else (trendLine cd) (fun t => Some (to_chart_points t)) None /\
  showInflation (this (Static_inflation_view cd)) = true /\
  dataset_label (Static_inflation_view cd) 1 =
    Some "Exponential Trend (cpi_u Adjusted)" /\
  dataset_points (Static_inflation_view cd) 1 =
    or_else (trendLine cd) (fun t => Some (to_chart_points t)) None.
Proof. repeat split; vm_compute; reflexivity. Qed.

Lemma assign_0 {A} (d x : A) (l : list A) : assign 0 d (x :: l) = d :: l.
Proof. unfold assign. case_decide; [done | cbn in *; lia]. Qed.

Lemma assign_1 {A} (d x y : A) (l : list A) :
  assign 1 d (x :: y :: l) = x :: d :: l.
Proof. unfold assign. case_decide; [done | cbn in *; lia]. Qed.



(** * Theorems about the growth figures *)

Section ExpEnclosure.
Local Open Scope R_scope.
Import Growth.















End ExpEnclosure.


Section PublishedFit.
Local Open Scope R_scope.
Import Growth.

Let a := number (fit_a published_fit).
Let b := number (fit_b published_fit).
Let g := number (annualGrowthRate published_fit).






End PublishedFit.



(** * Further properties of the renderers *)

Lemma Docs_prepareDatasets_eq (w : World) :
  Docs.prepareDatasets w =
  (Ok (Docs_prepared (chartData (this w)) (document w)), w).
Proof.
  unfold Docs.prepareDatasets, Docs_prepared, has_trend, trend_points.
  js_unfold; cbn.
  destruct (trendLine (chartData (this w))) as [| |l]; cbn; try done.
  change (truthy (Z.of_nat (length l))) with (negb (Z.of_nat (length l) =? 0)%Z).
  destruct l; cbn; done.
Qed.

Lemma Static_prepareDatasets_eq (w : World) :
  Static.prepareDatasets w = (Ok (Static_prepared (chartData (this w))), w).
Proof.
  unfold Static.prepareDatasets, Static_prepared, has_trend, trend_points.
  js_unfold; cbn.
  destruct (trendLine (chartData (this w))) as [| |l]; cbn; try done.
  destruct l; cbn; done.
Qed.

Lemma assign_0_same {A} (d : A) (l : list A) :
  (0 < length l)%nat -> assign 0 d l = d :: tail l.
Proof. destruct l; cbn; [lia|]. intros _. apply assign_0. Qed.

Ltac view_cases w :=
  destruct (showInflation (this w)); cbn;
  [ destruct (inflationData (chartData (this w))) as [| |idat]; cbn;
    [ | | unfold adjusted_trend;
          destruct (inflationTrendLine (chartData (this w))); cbn;
          destruct (InflationData.data idat) as [| |pts]; cbn ]
  | ].

Lemma Docs_updateChartData_view (w : World) (nominal ds : list Dataset.t) :
  let cd := chartData (this w) in
  originalDatasetConfigs (this w) = val nominal ->
  chart (this w) = val {| datasets := ds |} ->
  nominal = Docs_prepared cd (document w) ->
  length ds = length nominal ->
  match view_datasets cd nominal (showInflation (this w)) with
  | Some ds' =>
      Docs.updateChartData w =
      (Ok tt, {| this := with_chart (val {| datasets := ds' |}) (this w);
                 document := document w |})
  | None => exists msg, Docs.updateChartData w = (Throw msg, w)
  end.
Proof.
  intros cd Hcfg Hch Hnom Hlen. subst cd nominal.
  unfold view_datasets, Docs.updateChartData.
  js_unfold; cbn. rewrite Hcfg, Hch; cbn.
  unfold Docs_prepared, has_trend, trend_points, or_else, adjusted_datasets in *.
  destruct (trendLine (chartData (this w))) as [| |l] eqn:Htl; cbn in *.
  - destruct ds as [|x0 [|x1 ds]]; try done. cbn.
    view_cases w; rewrite ?assign_0; cbn; eauto.
  - destruct ds as [|x0 [|x1 ds]]; try done. cbn.
    view_cases w; rewrite ?assign_0; cbn; eauto.
  - destruct l as [|p l]; cbn in *.
    + destruct ds as [|x0 [|x1 ds]]; try done. cbn.
      view_cases w; rewrite ?assign_0; cbn; eauto.
    + destruct ds as [|x0 [|x1 [|x2 ds]]]; try done. cbn.
      view_cases w; rewrite ?assign_0; cbn; rewrite ?Htl; cbn; rewrite ?assign_1; cbn; eauto.
Qed.

Lemma Static_updateChartData_view (w : World) (nominal ds : list Dataset.t) :
  let cd := chartData (this w) in
  originalDatasetConfigs (this w) = val nominal ->
  chart (this w) = val {| datasets := ds |} ->
  nominal = Static_prepared cd ->
  length ds = length nominal ->
  match view_datasets cd nominal (showInflation (this w)) with
  | Some ds' =>
      Static.updateChartData w =
      (Ok tt, {| this := with_chart (val {| datasets := ds' |}) (this w);
                 document := document w |})
  | None => exists msg, Static.updateChartData w = (Throw msg, w)
  end.
Proof.
  intros cd Hcfg Hch Hnom Hlen. subst cd nominal.
  unfold view_datasets, Static.updateChartData.
  js_unfold; cbn. rewrite Hcfg, Hch; cbn.
  unfold Static_prepared, has_trend, trend_points, or_else, adjusted_datasets in *.
  destruct (trendLine (chartData (this w))) as [| |l] eqn:Htl; cbn in *.
  - destruct ds as [|x0 [|x1 ds]]; try done. cbn.
    view_cases w; rewrite ?assign_0; cbn; eauto.
  - destruct ds as [|x0 [|x1 ds]]; try done. cbn.
    view_cases w; rewrite ?assign_0; cbn; eauto.
  - destruct l as [|p l]; cbn in *.
    + destruct ds as [|x0 [|x1 ds]]; try done. cbn.
      view_cases w; rewrite ?assign_0; cbn; eauto.
    + destruct ds as [|x0 [|x1 [|x2 ds]]]; try done. cbn.
      view_cases w; rewrite ?assign_0; cbn; rewrite ?Htl; cbn; rewrite ?assign_1; cbn; eauto.
Qed.

(** Without a chart or without the kept configurations nothing is drawn. *)
Lemma Docs_updateChartData_no_chart (w : World) :
  truthy (chart (this w)) = false \/
  truthy (originalDatasetConfigs (this w)) = false ->
  Docs.updateChartData w = (Ok tt, w).
Proof.
  unfold Docs.updateChartData; js_unfold; cbn.
  intros [H | H].
  - destruct (chart (this w)); cbn in *; done.
  - destruct (chart (this w)); cbn in *; try done.
    destruct (originalDatasetConfigs (this w)); cbn in *; done.
Qed.

Lemma Static_updateChartData_no_chart (w : World) :
  truthy (chart (this w)) = false \/
  truthy (originalDatasetConfigs (this w)) = false ->
  Static.updateChartData w = (Ok tt, w).
Proof.
  unfold Static.updateChartData; js_unfold; cbn.
  intros [H | H].
  - destruct (chart (this w)); cbn in *; done.
  - destruct (chart (this w)); cbn in *; try done.
    destruct (originalDatasetConfigs (this w)); cbn in *; done.
Qed.

Lemma Docs_updateInfo_eq (w : World) :
  Docs.updateInfo w =
  (Ok tt, {| this := this w;
             document := Docs_info_document (chartData (this w))
                           (showInflation (this w)) (document w) |}).
Proof.
  unfold Docs_info_document, Docs.updateInfo.
  destruct w as [o d]; cbn.
  js_eval.
Qed.

Lemma Static_updateInfo_eq (w : World) :
  Static.updateInfo w =
  (Ok tt, {| this := this w;
             document := Static_info_document (chartData (this w))
                           (showInflation (this w)) (document w) |}).
Proof.
  unfold Static_info_document, Static.updateInfo.
  destruct w as [o d]; cbn.
  js_eval.
Qed.

(** [updateInfo] writes a text that depends on the payload and the view
    only, and writes it into the [.chart-info] element only. *)
Lemma Docs_info_document_shape (cd : ChartData) (show : bool) :
  exists oh : option string, forall d,
    Docs_info_document cd show d =
    match oh with Some h => with_info h d | None => d end.
Proof.
  unfold Docs_info_document, Docs.updateInfo. js_unfold; cbn.
  destruct (summary cd) as [| |s] eqn:Hs; cbn.
  1,2: exists None; intros d; destruct (chart_info d); cbn; done.
  destruct show, (inflationData cd) as [| |idat],
    (inflationSummary cd) as [| |isum],
    (inflationFitParams cd) as [| |ifit]; cbn;
    eexists (Some _); intros [iw cl cs cc sec [| |el]]; cbn; reflexivity.
Qed.

Lemma Static_info_document_shape (cd : ChartData) (show : bool) :
  exists oh : option string, forall d,
    Static_info_document cd show d =
    match oh with Some h => with_info h d | None => d end.
Proof.
  unfold Static_info_document, Static.updateInfo. js_unfold; cbn.
  destruct (summary cd) as [| |s] eqn:Hs; cbn.
  1,2: exists None; intros d; destruct (chart_info d); cbn; done.
  destruct show, (inflationData cd) as [| |idat],
    (inflationSummary cd) as [| |isum],
    (inflationFitParams cd) as [| |ifit]; cbn;
    eexists (Some _); intros [iw cl cs cc sec [| |el]]; cbn; reflexivity.
Qed.

Lemma with_info_twice h h' d : with_info h (with_info h' d) = with_info h d.
Proof. destruct d as [iw cl cs cc sec [| |el]]; reflexivity. Qed.

Lemma with_info_section h s d :
  with_info h (with_section s d) = with_section s (with_info h d).
Proof. reflexivity. Qed.

(** ** One click, as an equation *)

Lemma Docs_click_eq (w : World) (i : nat) (btn : Button) :
  disabled btn = false -> truthy (data_view btn) = true ->
  Docs.handleControlClick i btn w =
  let new := String.eqb (data_view btn) "inflation" in
  if Bool.eqb new (showInflation (this w)) then
    (Ok tt, {| this := this w; document := click_section i (document w) |})
  else
    match Docs.updateChartData (select_view new w) with
    | (Ok _, w2) =>
        (Ok tt,
         {| this := this w2;
            document :=
              click_section i
                (Docs_info_document (chartData (this w2))
                   (showInflation (this w2)) (document w2)) |})
    | (Throw e, w2) => (Throw e, w2)
    end.
Proof.
  intros Hd Hv. unfold Docs.handleControlClick. rewrite Hd, Hv. cbn.
  unfold bind, get, set_this, set_document, ret, try_catch, click_section,
    select_view; cbn.
  destruct (Bool.eqb _ _); cbn.
  - destruct (chart_section (document w)); destruct w; reflexivity.
  - destruct (Docs.updateChartData _) as [[[]|e] w2]; [|reflexivity].
    rewrite Docs_updateInfo_eq; cbn.
    destruct (chart_section _); reflexivity.
Qed.

Lemma Static_click_eq (w : World) (i : nat) (btn : Button) :
  disabled btn = false -> truthy (data_view btn) = true ->
  Static.handleControlClick i btn w =
  let new := String.eqb (data_view btn) "inflation" in
  if Bool.eqb new (showInflation (this w)) then
    (Ok tt, {| this := this w; document := click_section i (document w) |})
  else
    match Static.updateChartData (select_view new w) with
    | (Ok _, w2) =>
        (Ok tt,
         {| this := this w2;
            document :=
              click_section i
                (Static_info_document (chartData (this w2))
                   (showInflation (this w2)) (document w2)) |})
    | (Throw e, w2) => (Throw e, w2)
    end.
Proof.
  intros Hd Hv. unfold Static.handleControlClick. rewrite Hd, Hv. cbn.
  unfold bind, get, set_this, set_document, ret, try_catch, click_section,
    select_view; cbn.
  destruct (Bool.eqb _ _); cbn.
  - destruct (chart_section (document w)); destruct w; reflexivity.
  - destruct (Static.updateChartData _) as [[[]|e] w2]; [|reflexivity].
    rewrite Static_updateInfo_eq; cbn.
    destruct (chart_section _); reflexivity.
Qed.

(** A click on a disabled control, or on one without a view, does
    nothing at all. *)
Lemma Docs_click_ignored (w : World) (i : nat) (btn : Button) :
  disabled btn = true \/ data_view btn = "" ->
  Docs.handleControlClick i btn w = (Ok tt, w).
Proof.
  unfold Docs.handleControlClick. intros [-> | ->]; cbn;
    rewrite ?orb_true_r; reflexivity.
Qed.

Lemma Static_click_ignored (w : World) (i : nat) (btn : Button) :
  disabled btn = true \/ data_view btn = "" ->
  Static.handleControlClick i btn w = (Ok tt, w).
Proof.
  unfold Static.handleControlClick. intros [-> | ->]; cbn;
    rewrite ?andb_false_r; reflexivity.
Qed.
Arguments Docs_info_document : simpl never.
Arguments Static_info_document : simpl never.
Arguments Docs_prepared : simpl never.
Arguments Static_prepared : simpl never.
Arguments adjusted_datasets : simpl never.

(** ** Construction, as an equation *)

Lemma Docs_constructor_eq (id : string) (cd : ChartData) (d : Dom) :
  Chart_loaded d = true ->
  Docs.constructor id cd d =
  (Ok tt,
   if bool_decide (id ∈ canvases d) then
     {| this := initialised id cd (Docs_prepared cd d);
        document := setup_section cd (Docs_info_document cd false d) |}
   else {| this := fresh id cd; document := setup_section cd d |}).
Proof.
  intros Hl. unfold Docs.constructor. rewrite Hl.
  unfold bind at 1. unfold Docs.init. unfold bind at 1, get. cbn.
  destruct (bool_decide (id ∈ canvases d)); cbn.
  - unfold bind at 1. rewrite Docs_prepareDatasets_eq.
    unfold bind, set_this; cbn. rewrite Docs_updateInfo_eq; cbn.
    unfold Docs.setupControls, bind, get, setup_section, set_document, ret; cbn.
    destruct (Docs_info_document_shape cd false) as [oh Hoh].
    rewrite Hoh. destruct oh; cbn; destruct (chart_section d); reflexivity.
  - unfold Docs.setupControls, bind, get, setup_section, set_document, ret; cbn.
    destruct (chart_section d); reflexivity.
Qed.

Lemma Static_constructor_eq (id : string) (cd : ChartData) (d : Dom) :
  Chart_loaded d = true ->
  Static.constructor id cd d =
  (Ok tt,
   if bool_decide (id ∈ canvases d) then
     {| this := initialised id cd (Static_prepared cd);
        document := setup_section cd (Static_info_document cd false d) |}
   else {| this := fresh id cd; document := setup_section cd d |}).
Proof.
  intros Hl. unfold Static.constructor. rewrite Hl.
  unfold bind at 1. unfold Static.init. unfold bind at 1, get. cbn.
  destruct (bool_decide (id ∈ canvases d)); cbn.
  - unfold bind at 1. rewrite Static_prepareDatasets_eq.
    unfold bind, set_this; cbn. rewrite Static_updateInfo_eq; cbn.
    unfold Static.setupControls, bind, get, setup_section, set_document, ret; cbn.
    destruct (Static_info_document_shape cd false) as [oh Hoh].
    rewrite Hoh. destruct oh; cbn; destruct (chart_section d); reflexivity.
  - unfold Static.setupControls, bind, get, setup_section, set_document, ret; cbn.
    destruct (chart_section d); reflexivity.
Qed.

(** The text [updateInfo] writes is a function of the payload and the
    view; whether it writes at all depends on the payload only. *)
Lemma Docs_info_document_uniform (cd : ChartData) :
  (forall show d, Docs_info_document cd show d = d) \/
  (exists h : bool -> string,
     forall show d, Docs_info_document cd show d = with_info (h show) d).
Proof.
  destruct (summary cd) as [| |s] eqn:Hs.
  1,2: left; intros show d; unfold Docs_info_document, Docs.updateInfo;
       js_unfold; cbn; rewrite Hs; destruct (chart_info d); cbn; done.
  right.
  exists (fun show =>
            match chart_info (Docs_info_document cd show page) with
            | val el => innerHTML el
            | _ => ""
            end).
  intros show d. unfold Docs_info_document, Docs.updateInfo.
  js_unfold; cbn. rewrite Hs; cbn.
  destruct show, (inflationData cd) as [| |idat],
    (inflationSummary cd) as [| |isum],
    (inflationFitParams cd) as [| |ifit]; cbn;
    destruct d as [iw cl cs cc sec [| |el]]; cbn; reflexivity.
Qed.

Lemma Static_info_document_uniform (cd : ChartData) :
  (forall show d, Static_info_document cd show d = d) \/
  (exists h : bool -> string,
     forall show d, Static_info_document cd show d = with_info (h show) d).
Proof.
  destruct (summary cd) as [| |s] eqn:Hs.
  1,2: left; intros show d; unfold Static_info_document, Static.updateInfo;
       js_unfold; cbn; rewrite Hs; destruct (chart_info d); cbn; done.
  right.
  exists (fun show =>
            match chart_info (Static_info_document cd show page) with
            | val el => innerHTML el
            | _ => ""
            end).
  intros show d. unfold Static_info_document, Static.updateInfo.
  js_unfold; cbn. rewrite Hs; cbn.
  destruct show, (inflationData cd) as [| |idat],
    (inflationSummary cd) as [| |isum],
    (inflationFitParams cd) as [| |ifit]; cbn;
    destruct d as [iw cl cs cc sec [| |el]]; cbn; reflexivity.
Qed.

Lemma Docs_prepared_width (cd : ChartData) (d d' : Dom) :
  innerWidth d' = innerWidth d -> Docs_prepared cd d' = Docs_prepared cd d.
Proof.
  intros H. unfold Docs_prepared, Docs.responsive_size, Docs.isMobile,
    Docs.isSmallMobile. by rewrite H.
Qed.

Lemma view_datasets_length cd nominal show ds :
  view_datasets cd nominal show = Some ds -> length ds = length nominal.
Proof.
  unfold view_datasets, adjusted_datasets. intros H.
  destruct show; [|by simplify_eq].
  destruct (inflationData cd) as [| |idat]; try by simplify_eq.
  destruct (InflationData.data idat); try done. simplify_eq.
  destruct nominal as [|d0 [|d1 rest]]; reflexivity.
Qed.

(** ** Switching the view *)

Lemma Docs_switch (w : World) (i : nat) (btn : Button) (new : bool)
    (nominal ds : list Dataset.t) :
  let cd := chartData (this w) in
  originalDatasetConfigs (this w) = val nominal ->
  chart (this w) = val {| datasets := ds |} ->
  nominal = Docs_prepared cd (document w) ->
  length ds = length nominal ->
  disabled btn = false -> truthy (data_view btn) = true ->
  String.eqb (data_view btn) "inflation" = new ->
  showInflation (this w) = negb new ->
  match view_datasets cd nominal new with
  | Some ds' =>
      Docs.handleControlClick i btn w =
      (Ok tt,
       {| this := with_chart (val {| datasets := ds' |})
                    (with_showInflation new (this w));
          document := click_section i
                        (Docs_info_document cd new (document w)) |})
  | None =>
      exists msg,
        Docs.handleControlClick i btn w = (Throw msg, select_view new w)
  end.
Proof.
  intros cd Hcfg Hch Hnom Hlen Hd Hv Hnew Hsh.
  rewrite (Docs_click_eq w i btn Hd Hv). cbn zeta. rewrite Hnew, Hsh.
  replace (Bool.eqb new (negb new)) with false by (by destruct new).
  pose proof (Docs_updateChartData_view (select_view new w) nominal ds
                Hcfg Hch Hnom Hlen) as H.
  cbn in H. fold cd in H.
  destruct (view_datasets cd nominal new) as [ds'|].
  - rewrite H. reflexivity.
  - destruct H as [msg ->]. by exists msg.
Qed.

Lemma Static_switch (w : World) (i : nat) (btn : Button) (new : bool)
    (nominal ds : list Dataset.t) :
  let cd := chartData (this w) in
  originalDatasetConfigs (this w) = val nominal ->
  chart (this w) = val {| datasets := ds |} ->
  nominal = Static_prepared cd ->
  length ds = length nominal ->
  disabled btn = false -> truthy (data_view btn) = true ->
  String.eqb (data_view btn) "inflation" = new ->
  showInflation (this w) = negb new ->
  match view_datasets cd nominal new with
  | Some ds' =>
      Static.handleControlClick i btn w =
      (Ok tt,
       {| this := with_chart (val {| datasets := ds' |})
                    (with_showInflation new (this w));
          document := click_section i
                        (Static_info_document cd new (document w)) |})
  | None =>
      exists msg,
        Static.handleControlClick i btn w = (Throw msg, select_view new w)
  end.
Proof.
  intros cd Hcfg Hch Hnom Hlen Hd Hv Hnew Hsh.
  rewrite (Static_click_eq w i btn Hd Hv). cbn zeta. rewrite Hnew, Hsh.
  replace (Bool.eqb new (negb new)) with false by (by destruct new).
  pose proof (Static_updateChartData_view (select_view new w) nominal ds
                Hcfg Hch Hnom Hlen) as H.
  cbn in H. fold cd in H.
  destruct (view_datasets cd nominal new) as [ds'|].
  - rewrite H. reflexivity.
  - destruct H as [msg ->]. by exists msg.
Qed.

Lemma Docs_dispatch_click (w : World) (i : nat) (sec : ChartSection) (btn : Button) :
  chart_section (document w) = val sec ->
  buttons sec !! i = Some btn -> listener btn = true ->
  Docs.dispatch w (Click i) = snd (Docs.handleControlClick i btn w).
Proof. intros Hs Hb Hl. unfold Docs.dispatch. rewrite Hs; cbn. by rewrite Hb, Hl. Qed.

Lemma Static_dispatch_click (w : World) (i : nat) (sec : ChartSection) (btn : Button) :
  chart_section (document w) = val sec ->
  buttons sec !! i = Some btn -> listener btn = true ->
  Static.dispatch w (Click i) = snd (Static.handleControlClick i btn w).
Proof. intros Hs Hb Hl. unfold Static.dispatch. rewrite Hs; cbn. by rewrite Hb, Hl. Qed.

Section RoundTrip.
Variables (id : string) (cd : ChartData) (d : Dom).
Variables (idat : InflationData.t) (pts : list Point.t).
Hypothesis loaded : Chart_loaded d = true.
Hypothesis canvas : id ∈ canvases d.
Hypothesis bare : chart_section d = bare_section.
Hypothesis has_inflation : inflationData cd = val idat.
Hypothesis has_points : InflationData.data idat = val pts.

Lemma adjusted_view :
  forall nominal,
    view_datasets cd nominal true =
    Some (adjusted_datasets cd idat pts nominal).
Proof. intros. unfold view_datasets. by rewrite has_inflation, has_points. Qed.

Lemma Docs_round_trip :
  let w0 := Docs_constructed id cd d in
  showInflation (this (Docs.run w0 [Click 1])) = true /\
  chartData (this (Docs.run w0 [Click 1])) = cd /\
  dataset_label (Docs.run w0 [Click 1]) 0 =
    Some ("Total Wealth" ++ adjusted_suffix idat) /\
  dataset_points (Docs.run w0 [Click 1]) 0 = Some (to_chart_points pts) /\
  Docs.run w0 [Click 1; Click 0] = w0.
Proof.
  unfold Docs_constructed. rewrite (Docs_constructor_eq id cd d loaded).
  rewrite (bool_decide_eq_true_2 _ canvas). cbn [snd].
  set (P := Docs_prepared cd d).
  set (A := adjusted_datasets cd idat pts P).
  set (w0 := {| this := initialised id cd P;
                document := setup_section cd (Docs_info_document cd false d) |}).
  set (w1 := {| this := with_chart (val {| datasets := A |})
                          (with_showInflation true (initialised id cd P));
                document := click_section 1
                              (Docs_info_document cd true (document w0)) |}).
  assert (Hw : forall show D, innerWidth (Docs_info_document cd show D) = innerWidth D).
  { intros show D. destruct (Docs_info_document_uniform cd) as [H | [h H]];
      by rewrite H. }
  assert (E1 : Docs.dispatch w0 (Click 1) = w1).
  { pose proof (Docs_switch w0 1
        {| text := "Inflation Adjusted"; data_view := "inflation";
           disabled := false; active := false; listener := true |}
        true P P) as Hsw.
    cbn zeta in Hsw. rewrite adjusted_view in Hsw.
    erewrite Docs_dispatch_click; [rewrite Hsw; try done | | |].
    - subst w0 P. cbn [this document chartData initialised].
      apply eq_sym, Docs_prepared_width. unfold setup_section.
      destruct (chart_section (Docs_info_document cd false d)); cbn;
        by rewrite Hw.
    - subst w0. cbn [document]. unfold setup_section.
      destruct (Docs_info_document_uniform cd) as [H | [h H]]; rewrite H;
        cbn; rewrite bare; cbn; rewrite has_inflation; reflexivity.
    - reflexivity.
    - reflexivity. }
  assert (E2 : Docs.dispatch w1 (Click 0) = w0).
  { pose proof (Docs_switch w1 0
        {| text := "Nominal Values"; data_view := "nominal";
           disabled := false; active := false; listener := true |}
        false P A) as Hsw.
    cbn zeta in Hsw. unfold view_datasets in Hsw.
    erewrite Docs_dispatch_click; [rewrite Hsw; try done | | |].
    - subst w1 w0. cbn [this document chartData initialised with_chart
                         with_showInflation snd].
      f_equal. unfold setup_section, click_section.
      destruct (Docs_info_document_uniform cd) as [H | [h H]]; rewrite !H;
        cbn; rewrite bare; cbn; rewrite has_inflation; cbn;
        destruct d as [? ? ? ? ? [| |?]]; reflexivity.
    - subst w1 w0 P. cbn [this document chartData initialised with_chart
                           with_showInflation].
      apply eq_sym, Docs_prepared_width. unfold setup_section, click_section.
      destruct (Docs_info_document_uniform cd) as [H | [h H]]; rewrite !H;
        cbn; rewrite bare; reflexivity.
    - subst A. apply (view_datasets_length cd P true), adjusted_view.
    - subst w1 w0. cbn [document]. unfold setup_section, click_section.
      destruct (Docs_info_document_uniform cd) as [H | [h H]]; rewrite !H;
        cbn; rewrite bare; cbn; rewrite has_inflation; reflexivity.
    - reflexivity.
    - reflexivity. }
  unfold Docs.run. cbn [fold_left]. rewrite E1, E2.
  repeat split.
Qed.


Lemma Static_round_trip :
  let w0 := Static_constructed id cd d in
  showInflation (this (Static.run w0 [Click 1])) = true /\
  chartData (this (Static.run w0 [Click 1])) = cd /\
  dataset_label (Static.run w0 [Click 1]) 0 =
    Some ("Total Wealth" ++ adjusted_suffix idat) /\
  dataset_points (Static.run w0 [Click 1]) 0 = Some (to_chart_points pts) /\
  Static.run w0 [Click 1; Click 0] = w0.
Proof.
  unfold Static_constructed. rewrite (Static_constructor_eq id cd d loaded).
  rewrite (bool_decide_eq_true_2 _ canvas). cbn [snd].
  set (P := Static_prepared cd).
  set (A := adjusted_datasets cd idat pts P).
  set (w0 := {| this := initialised id cd P;
                document := setup_section cd (Static_info_document cd false d) |}).
  set (w1 := {| this := with_chart (val {| datasets := A |})
                          (with_showInflation true (initialised id cd P));
                document := click_section 1
                              (Static_info_document cd true (document w0)) |}).
  assert (Hw : forall show D, innerWidth (Static_info_document cd show D) = innerWidth D).
  { intros show D. destruct (Static_info_document_uniform cd) as [H | [h H]];
      by rewrite H. }
  assert (E1 : Static.dispatch w0 (Click 1) = w1).
  { pose proof (Static_switch w0 1
        {| text := "Inflation Adjusted"; data_view := "inflation";
           disabled := false; active := false; listener := true |}
        true P P) as Hsw.
    cbn zeta in Hsw. rewrite adjusted_view in Hsw.
    erewrite Static_dispatch_click; [rewrite Hsw; try done | | |].
    - subst w0. cbn [document]. unfold setup_section.
      destruct (Static_info_document_uniform cd) as [H | [h H]]; rewrite H;
        cbn; rewrite bare; cbn; rewrite has_inflation; reflexivity.
    - reflexivity.
    - reflexivity. }
  assert (E2 : Static.dispatch w1 (Click 0) = w0).
  { pose proof (Static_switch w1 0
        {| text := "Nominal Values"; data_view := "nominal";
           disabled := false; active := false; listener := true |}
        false P A) as Hsw.
    cbn zeta in Hsw. unfold view_datasets in Hsw.
    erewrite Static_dispatch_click; [rewrite Hsw; try done | | |].
    - subst w1 w0. cbn [this document chartData initialised with_chart
                         with_showInflation snd].
      f_equal. unfold setup_section, click_section.
      destruct (Static_info_document_uniform cd) as [H | [h H]]; rewrite !H;
        cbn; rewrite bare; cbn; rewrite has_inflation; cbn;
        destruct d as [? ? ? ? ? [| |?]]; reflexivity.
    - subst A. apply (view_datasets_length cd P true), adjusted_view.
    - subst w1 w0. cbn [document]. unfold setup_section, click_section.
      destruct (Static_info_document_uniform cd) as [H | [h H]]; rewrite !H;
        cbn; rewrite bare; cbn; rewrite has_inflation; reflexivity.
    - reflexivity.
    - reflexivity. }
  unfold Static.run. cbn [fold_left]. rewrite E1, E2.
  repeat split.
Qed.


End RoundTrip.

(** ** What every click preserves *)

Arguments click_section : simpl never.
Arguments setup_section : simpl never.

Lemma click_section_width i d : innerWidth (click_section i d) = innerWidth d.
Proof. unfold click_section. by destruct (chart_section d). Qed.

Lemma Docs_info_document_width cd show d :
  innerWidth (Docs_info_document cd show d) = innerWidth d.
Proof.
  destruct (Docs_info_document_uniform cd) as [H | [h H]]; by rewrite H.
Qed.

Ltac same_width :=
  cbn [document];
  rewrite ?click_section_width, ?Docs_info_document_width; done.

Lemma drawn_select cd nominal show w :
  drawn cd nominal w -> drawn cd nominal (select_view show w).
Proof. intros H. exact H. Qed.

Lemma Docs_click_inv cd d0 w i btn :
  Docs_view_inv cd d0 w ->
  Docs_view_inv cd d0 (snd (Docs.handleControlClick i btn w)).
Proof.
  intros [[Hcd Hdr] Hw].
  destruct (disabled btn) eqn:Hd;
    [by rewrite Docs_click_ignored by (by left)|].
  destruct (truthy (data_view btn)) eqn:Hv.
  2: { rewrite Docs_click_ignored; [done|]. right.
       by destruct (data_view btn). }
  rewrite (Docs_click_eq w i btn Hd Hv). cbn zeta.
  set (new := String.eqb (data_view btn) "inflation").
  destruct (Bool.eqb new (showInflation (this w))) eqn:Hb; cbn [snd].
  - split; [split; [done|exact Hdr]|]. same_width.
  - destruct Hdr as [[Hc Ho] | (Ho & show & ds & Hview & Hc)].
    + rewrite Docs_updateChartData_no_chart by (left; cbn; by rewrite Hc).
      cbn. split; [split; [done|left; done]|].
      same_width.
    + pose proof (Docs_updateChartData_view (select_view new w)
                    (Docs_prepared cd d0) ds) as H.
      cbn zeta in H. cbn [select_view this document chartData
                          with_showInflation originalDatasetConfigs chart
                          showInflation] in H.
      rewrite Hcd in H. specialize (H Ho Hc).
      specialize (H (eq_sym (Docs_prepared_width cd d0 (document w) Hw))
                    (view_datasets_length _ _ _ _ Hview)).
      destruct (view_datasets cd (Docs_prepared cd d0) new) as [ds'|] eqn:Hn.
      * rewrite H. cbn. split; [split; [done|]|].
        -- right. split; [done|]. by exists new, ds'.
        -- same_width.
      * destruct H as [msg ->]. cbn. split; [split; [done|]|done].
        right. split; [done|]. by exists show, ds.
Qed.

Lemma Static_click_inv cd w i btn :
  Static_view_inv cd w ->
  Static_view_inv cd (snd (Static.handleControlClick i btn w)).
Proof.
  intros [Hcd Hdr].
  destruct (disabled btn) eqn:Hd;
    [by rewrite Static_click_ignored by (by left)|].
  destruct (truthy (data_view btn)) eqn:Hv.
  2: { rewrite Static_click_ignored; [done|]. right.
       by destruct (data_view btn). }
  rewrite (Static_click_eq w i btn Hd Hv). cbn zeta.
  set (new := String.eqb (data_view btn) "inflation").
  destruct (Bool.eqb new (showInflation (this w))) eqn:Hb; cbn [snd].
  - split; [done|exact Hdr].
  - destruct Hdr as [[Hc Ho] | (Ho & show & ds & Hview & Hc)].
    + rewrite Static_updateChartData_no_chart by (left; cbn; by rewrite Hc).
      cbn. split; [done|left; done].
    + pose proof (Static_updateChartData_view (select_view new w)
                    (Static_prepared cd) ds) as H.
      cbn zeta in H. cbn [select_view this document chartData
                          with_showInflation originalDatasetConfigs chart
                          showInflation] in H.
      rewrite Hcd in H.
      specialize (H Ho Hc eq_refl (view_datasets_length _ _ _ _ Hview)).
      destruct (view_datasets cd (Static_prepared cd) new) as [ds'|] eqn:Hn.
      * rewrite H. cbn. split; [done|].
        right. split; [done|]. by exists new, ds'.
      * destruct H as [msg ->]. cbn. split; [done|].
        right. split; [done|]. by exists show, ds.
Qed.

Lemma Docs_dispatch_inv cd d0 w e :
  Docs_view_inv cd d0 w -> Docs_view_inv cd d0 (Docs.dispatch w e).
Proof.
  intros H. destruct e as [i]. unfold Docs.dispatch.
  destruct (optchain _ _) as [| |btn]; try done.
  destruct (listener btn); [|done]. by apply Docs_click_inv.
Qed.

Lemma Static_dispatch_inv cd w e :
  Static_view_inv cd w -> Static_view_inv cd (Static.dispatch w e).
Proof.
  intros H. destruct e as [i]. unfold Static.dispatch.
  destruct (optchain _ _) as [| |btn]; try done.
  destruct (listener btn); [|done]. by apply Static_click_inv.
Qed.

Lemma Docs_run_inv cd d0 es : forall w,
  Docs_view_inv cd d0 w -> Docs_view_inv cd d0 (Docs.run w es).
Proof.
  unfold Docs.run. induction es as [|e es IH]; intros w H; [done|].
  cbn. apply IH. by apply Docs_dispatch_inv.
Qed.

Lemma Static_run_inv cd es : forall w,
  Static_view_inv cd w -> Static_view_inv cd (Static.run w es).
Proof.
  unfold Static.run. induction es as [|e es IH]; intros w H; [done|].
  cbn. apply IH. by apply Static_dispatch_inv.
Qed.

Lemma setup_section_width cd d : innerWidth (setup_section cd d) = innerWidth d.
Proof. unfold setup_section. by destruct (chart_section d). Qed.

Lemma Docs_constructed_inv id cd d :
  Docs_view_inv cd d (Docs_constructed id cd d).
Proof.
  unfold Docs_constructed, Docs.constructor.
  destruct (Chart_loaded d) eqn:Hl.
  - change (if true then ?a else ?b) with a.
    pose proof (Docs_constructor_eq id cd d Hl) as E.
    unfold Docs.constructor in E. rewrite Hl in E. rewrite E. cbn [snd].
    destruct (bool_decide _); cbn.
    + split; [split; [done|]|].
      * right. split; [done|]. by exists false, (Docs_prepared cd d).
      * cbn [document]. by rewrite setup_section_width, Docs_info_document_width.
    + split; [split; [done|by left]|]. cbn [document]. by rewrite setup_section_width.
  - cbn. split; [split; [done|by left]|done].
Qed.

Lemma Static_constructed_inv id cd d :
  Static_view_inv cd (Static_constructed id cd d).
Proof.
  unfold Static_constructed, Static.constructor.
  destruct (Chart_loaded d) eqn:Hl.
  - change (if true then ?a else ?b) with a.
    pose proof (Static_constructor_eq id cd d Hl) as E.
    unfold Static.constructor in E. rewrite Hl in E. rewrite E. cbn [snd].
    destruct (bool_decide _); cbn.
    + split; [done|].
      right. split; [done|]. by exists false, (Static_prepared cd).
    + split; [done|by left].
  - cbn. split; [done|by left].
Qed.

Lemma Docs_click_count cd d0 w i btn :
  Docs_view_inv cd d0 w ->
  dataset_count (snd (Docs.handleControlClick i btn w)) = dataset_count w.
Proof.
  intros [[Hcd Hdr] Hw].
  destruct (disabled btn) eqn:Hd;
    [by rewrite Docs_click_ignored by (by left)|].
  destruct (truthy (data_view btn)) eqn:Hv.
  2: { rewrite Docs_click_ignored; [done|]. right.
       by destruct (data_view btn). }
  rewrite (Docs_click_eq w i btn Hd Hv). cbn zeta.
  set (new := String.eqb (data_view btn) "inflation").
  destruct (Bool.eqb new (showInflation (this w))) eqn:Hb; cbn [snd]; [done|].
  destruct Hdr as [[Hc Ho] | (Ho & show & ds & Hview & Hc)].
  - by rewrite Docs_updateChartData_no_chart by (left; cbn; by rewrite Hc).
  - pose proof (Docs_updateChartData_view (select_view new w)
                  (Docs_prepared cd d0) ds) as H.
    cbn zeta in H. cbn [select_view this document chartData
                        with_showInflation originalDatasetConfigs chart
                        showInflation] in H.
    rewrite Hcd in H.
    specialize (H Ho Hc (eq_sym (Docs_prepared_width cd d0 (document w) Hw))
                  (view_datasets_length _ _ _ _ Hview)).
    destruct (view_datasets cd (Docs_prepared cd d0) new) as [ds'|] eqn:Hn.
    + rewrite H. unfold dataset_count. cbn. rewrite Hc. cbn.
      by rewrite (view_datasets_length _ _ _ _ Hn),
                 (view_datasets_length _ _ _ _ Hview).
    + by destruct H as [msg ->].
Qed.

Lemma Static_click_count cd w i btn :
  Static_view_inv cd w ->
  dataset_count (snd (Static.handleControlClick i btn w)) = dataset_count w.
Proof.
  intros [Hcd Hdr].
  destruct (disabled btn) eqn:Hd;
    [by rewrite Static_click_ignored by (by left)|].
  destruct (truthy (data_view btn)) eqn:Hv.
  2: { rewrite Static_click_ignored; [done|]. right.
       by destruct (data_view btn). }
  rewrite (Static_click_eq w i btn Hd Hv). cbn zeta.
  set (new := String.eqb (data_view btn) "inflation").
  destruct (Bool.eqb new (showInflation (this w))) eqn:Hb; cbn [snd]; [done|].
  destruct Hdr as [[Hc Ho] | (Ho & show & ds & Hview & Hc)].
  - by rewrite Static_updateChartData_no_chart by (left; cbn; by rewrite Hc).
  - pose proof (Static_updateChartData_view (select_view new w)
                  (Static_prepared cd) ds) as H.
    cbn zeta in H. cbn [select_view this document chartData
                        with_showInflation originalDatasetConfigs chart
                        showInflation] in H.
    rewrite Hcd in H.
    specialize (H Ho Hc eq_refl (view_datasets_length _ _ _ _ Hview)).
    destruct (view_datasets cd (Static_prepared cd) new) as [ds'|] eqn:Hn.
    + rewrite H. unfold dataset_count. cbn. rewrite Hc. cbn.
      by rewrite (view_datasets_length _ _ _ _ Hn),
                 (view_datasets_length _ _ _ _ Hview).
    + by destruct H as [msg ->].
Qed.

Lemma Docs_run_count cd d0 es : forall w,
  Docs_view_inv cd d0 w -> dataset_count (Docs.run w es) = dataset_count w.
Proof.
  unfold Docs.run. induction es as [|e es IH]; intros w H; [done|].
  cbn. rewrite IH by (by apply Docs_dispatch_inv).
  destruct e as [i]. unfold Docs.dispatch.
  destruct (optchain _ _) as [| |btn]; try done.
  destruct (listener btn); [|done]. by eapply Docs_click_count.
Qed.

Lemma Static_run_count cd es : forall w,
  Static_view_inv cd w -> dataset_count (Static.run w es) = dataset_count w.
Proof.
  unfold Static.run. induction es as [|e es IH]; intros w H; [done|].
  cbn. rewrite IH by (by apply Static_dispatch_inv).
  destruct e as [i]. unfold Static.dispatch.
  destruct (optchain _ _) as [| |btn]; try done.
  destruct (listener btn); [|done]. by eapply Static_click_count.
Qed.

(** Whatever the payload, the page and the clicks, the chart keeps
    the number of datasets it was constructed with (one, or two with a
    trend line), and a renderer constructed without a chart never gets
    one.  Here and below the clicks come with no animation running. *)
Theorem clicks_keep_dataset_count
    (id : string) (cd : ChartData) (d : Dom) (es : list event) :
  dataset_count (Docs.run (Docs_constructed id cd d) es) =
    dataset_count (Docs_constructed id cd d) /\
  dataset_count (Static.run (Static_constructed id cd d) es) =
    dataset_count (Static_constructed id cd d).
Proof.
  split.
  - apply (Docs_run_count cd d), Docs_constructed_inv.
  - apply (Static_run_count cd), Static_constructed_inv.
Qed.

(** The labels and points of the two datasets in a drawn state. *)
Lemma drawn_consistent cd nominal w d0 d1 l :
  drawn cd nominal w ->
  (nominal = [d0] \/ nominal = [d0; d1] /\ trendLine cd = val l) ->
  Dataset.label d0 = "Total Wealth" ->
  Dataset.data d0 = to_chart_points (data cd) ->
  Dataset.label d1 = "Exponential Trend" ->
  Dataset.data d1 = to_chart_points l ->
  (forall name points,
     dataset_label w 0 = Some name -> dataset_points w 0 = Some points ->
     (name = "Total Wealth" /\ points = to_chart_points (data cd)) \/
     (exists idat pts,
        inflationData cd = val idat /\ InflationData.data idat = val pts /\
        name = "Total Wealth" ++ adjusted_suffix idat /\
        points = to_chart_points pts)) /\
  (forall name points,
     dataset_label w 1 = Some name -> dataset_points w 1 = Some points ->
     (name = "Exponential Trend" /\
      trendLine cd = val l /\ points = to_chart_points l) \/
     (exists idat t,
        inflationData cd = val idat /\ adjusted_trend cd = val t /\
        name = "Exponential Trend" ++ adjusted_suffix idat /\
        points = to_chart_points t)).
Proof.
  intros [_ Hdr] Hnom Hl0 Hd0 Hl1 Hd1.
  unfold dataset_label, dataset_points.
  destruct Hdr as [[Hc Ho] | (Ho & show & ds & Hview & Hc)];
    rewrite Hc; [done|]. cbn.
  unfold view_datasets in Hview.
  assert (Hn : forall name points,
    (Dataset.label <$> nominal !! 0%nat = Some name ->
     Dataset.data <$> nominal !! 0%nat = Some points ->
     name = "Total Wealth" /\ points = to_chart_points (data cd)) /\
    (Dataset.label <$> nominal !! 1%nat = Some name ->
     Dataset.data <$> nominal !! 1%nat = Some points ->
     name = "Exponential Trend" /\ trendLine cd = val l /\
     points = to_chart_points l)).
  { intros name points.
    destruct Hnom as [-> | [-> Ht]]; cbn; split; intros; simplify_eq; done. }
  destruct show; [|simplify_eq; split; intros name points H1 H2; left;
                     by apply (Hn name points)].
  destruct (inflationData cd) as [| |idat] eqn:Hi;
    try (simplify_eq; split; intros name points H1 H2; left;
         by apply (Hn name points)).
  destruct (InflationData.data idat) as [| |pts] eqn:Hp; try done.
  simplify_eq. unfold adjusted_datasets.
  destruct Hnom as [-> | [-> Ht]]; cbn; split; intros name points H1 H2;
    simplify_eq; right.
  - by exists idat, pts.
  - by exists idat, pts.
  - exists idat.
    assert (exists t, adjusted_trend cd = val t) as [t Et].
    { unfold adjusted_trend.
      destruct (inflationTrendLine cd) as [| |t']; cbn; eauto. }
    exists t. rewrite Et. done.
Qed.

Lemma Docs_prepared_shape cd d :
  exists d0 d1 l,
    (Docs_prepared cd d = [d0] \/
     Docs_prepared cd d = [d0; d1] /\ trendLine cd = val l) /\
    Dataset.label d0 = "Total Wealth" /\
    Dataset.data d0 = to_chart_points (data cd) /\
    Dataset.label d1 = "Exponential Trend" /\
    Dataset.data d1 = to_chart_points l.
Proof.
  unfold Docs_prepared, has_trend, trend_points, or_else.
  destruct (trendLine cd) as [| |l]; cbn.
  1,2: eexists _, (Dataset.mk "Exponential Trend" (to_chart_points []) "" "" 0 0 0), [];
       split; [left; reflexivity | done].
  destruct l as [|p l]; cbn.
  - eexists _, (Dataset.mk "Exponential Trend" (to_chart_points []) "" "" 0 0 0), [];
      split; [left; reflexivity | done].
  - eexists _, _, (p :: l). split; [right; split; reflexivity | done].
Qed.

Lemma Static_prepared_shape cd :
  exists d0 d1 l,
    (Static_prepared cd = [d0] \/
     Static_prepared cd = [d0; d1] /\ trendLine cd = val l) /\
    Dataset.label d0 = "Total Wealth" /\
    Dataset.data d0 = to_chart_points (data cd) /\
    Dataset.label d1 = "Exponential Trend" /\
    Dataset.data d1 = to_chart_points l.
Proof.
  unfold Static_prepared, has_trend, trend_points, or_else.
  destruct (trendLine cd) as [| |l]; cbn.
  1,2: eexists _, (Dataset.mk "Exponential Trend" (to_chart_points []) "" "" 0 0 0), [];
       split; [left; reflexivity | done].
  destruct l as [|p l]; cbn.
  - eexists _, (Dataset.mk "Exponential Trend" (to_chart_points []) "" "" 0 0 0), [];
      split; [left; reflexivity | done].
  - eexists _, _, (p :: l). split; [right; split; reflexivity | done].
Qed.

(** Whatever the payload, the page and the clicks, the chart never
    pairs the points of one view with the label of the other while no
    animation interferes: the first
    dataset is "Total Wealth" with the nominal points, or "Total Wealth
    (type Adjusted)" with the points of [inflationData]. *)
Theorem label_matches_points
    (id : string) (cd : ChartData) (d : Dom) (es : list event)
    (name : string) (points : list ChartPoint.t) :
  (dataset_label (Docs.run (Docs_constructed id cd d) es) 0 = Some name /\
   dataset_points (Docs.run (Docs_constructed id cd d) es) 0 = Some points) \/
  (dataset_label (Static.run (Static_constructed id cd d) es) 0 = Some name /\
   dataset_points (Static.run (Static_constructed id cd d) es) 0 = Some points) ->
  (name = "Total Wealth" /\ points = to_chart_points (data cd)) \/
  (exists idat pts,
     inflationData cd = val idat /\ InflationData.data idat = val pts /\
     name = "Total Wealth" ++ adjusted_suffix idat /\
     points = to_chart_points pts).
Proof.
  intros [[H1 H2] | [H1 H2]].
  - destruct (Docs_prepared_shape cd d) as (d0 & d1 & l & Hs & A & B & C & D).
    pose proof (Docs_run_inv cd d es _ (Docs_constructed_inv id cd d)) as [Hdr _].
    destruct (drawn_consistent cd _ _ d0 d1 l Hdr Hs A B C D) as [H _].
    by apply H.
  - destruct (Static_prepared_shape cd) as (d0 & d1 & l & Hs & A & B & C & D).
    pose proof (Static_run_inv cd es _ (Static_constructed_inv id cd d)) as Hdr.
    destruct (drawn_consistent cd _ _ d0 d1 l Hdr Hs A B C D) as [H _].
    by apply H.
Qed.

(** The trend dataset likewise: "Exponential Trend" with the nominal
    trend line, or "Exponential Trend (type Adjusted)" with the trend
    line the adjusted view draws. *)
Theorem trend_label_matches_points
    (id : string) (cd : ChartData) (d : Dom) (es : list event)
    (name : string) (points : list ChartPoint.t) :
  (dataset_label (Docs.run (Docs_constructed id cd d) es) 1 = Some name /\
   dataset_points (Docs.run (Docs_constructed id cd d) es) 1 = Some points) \/
  (dataset_label (Static.run (Static_constructed id cd d) es) 1 = Some name /\
   dataset_points (Static.run (Static_constructed id cd d) es) 1 = Some points) ->
  (exists l, name = "Exponential Trend" /\
             trendLine cd = val l /\ points = to_chart_points l) \/
  (exists idat t,
     inflationData cd = val idat /\ adjusted_trend cd = val t /\
     name = "Exponential Trend" ++ adjusted_suffix idat /\
     points = to_chart_points t).
Proof.
  intros [[H1 H2] | [H1 H2]].
  - destruct (Docs_prepared_shape cd d) as (d0 & d1 & l & Hs & A & B & C & D).
    pose proof (Docs_run_inv cd d es _ (Docs_constructed_inv id cd d)) as [Hdr _].
    destruct (drawn_consistent cd _ _ d0 d1 l Hdr Hs A B C D) as [_ H].
    destruct (H name points H1 H2) as [? | ?]; [left; by exists l | by right].
  - destruct (Static_prepared_shape cd) as (d0 & d1 & l & Hs & A & B & C & D).
    pose proof (Static_run_inv cd es _ (Static_constructed_inv id cd d)) as Hdr.
    destruct (drawn_consistent cd _ _ d0 d1 l Hdr Hs A B C D) as [_ H].
    destruct (H name points H1 H2) as [? | ?]; [left; by exists l | by right].
Qed.

(** ** A payload whose inflation data has no points *)

Section NoPoints.
Variables (id : string) (cd : ChartData) (d : Dom) (idat : InflationData.t).
Hypothesis loaded : Chart_loaded d = true.
Hypothesis canvas : id ∈ canvases d.
Hypothesis bare : chart_section d = bare_section.
Hypothesis has_inflation : inflationData cd = val idat.
Hypothesis no_points : absent (InflationData.data idat).

Let inflation_button : Button :=
  {| text := "Inflation Adjusted"; data_view := "inflation";
     disabled := false; active := false; listener := true |}.

Lemma no_adjusted_view nominal : view_datasets cd nominal true = None.
Proof.
  unfold view_datasets. rewrite has_inflation.
  by destruct no_points as [-> | ->].
Qed.

Lemma Docs_switch_throws :
  let w0 := Docs_constructed id cd d in
  (exists msg,
     Docs.handleControlClick 1 inflation_button w0 =
     (Throw msg, select_view true w0)) /\
  Docs.run w0 [Click 1] = select_view true w0.
Proof.
  unfold Docs_constructed. rewrite (Docs_constructor_eq id cd d loaded).
  rewrite (bool_decide_eq_true_2 _ canvas). cbn [snd].
  set (P := Docs_prepared cd d).
  set (w0 := {| this := initialised id cd P;
                document := setup_section cd (Docs_info_document cd false d) |}).
  pose proof (Docs_switch w0 1 inflation_button true P P) as Hsw.
  cbn zeta in Hsw. rewrite no_adjusted_view in Hsw.
  destruct Hsw as [msg Hsw]; try done.
  { subst w0 P. cbn [this document chartData initialised].
    apply eq_sym, Docs_prepared_width.
    by rewrite setup_section_width, Docs_info_document_width. }
  split; [by exists msg|].
  unfold Docs.run. cbn [fold_left].
  rewrite (Docs_dispatch_click w0 1
             {| has_controls := true;
                buttons := [ {| text := "Nominal Values"; data_view := "nominal";
                                disabled := false; active := true;
                                listener := true |}; inflation_button ] |}
             inflation_button); [by rewrite Hsw | | reflexivity | reflexivity].
  subst w0. cbn [document]. unfold setup_section.
  destruct (Docs_info_document_uniform cd) as [H | [h H]]; rewrite H;
    cbn; rewrite bare; cbn; rewrite has_inflation; reflexivity.
Qed.

Lemma Static_switch_throws :
  let w0 := Static_constructed id cd d in
  (exists msg,
     Static.handleControlClick 1 inflation_button w0 =
     (Throw msg, select_view true w0)) /\
  Static.run w0 [Click 1] = select_view true w0.
Proof.
  unfold Static_constructed. rewrite (Static_constructor_eq id cd d loaded).
  rewrite (bool_decide_eq_true_2 _ canvas). cbn [snd].
  set (P := Static_prepared cd).
  set (w0 := {| this := initialised id cd P;
                document := setup_section cd (Static_info_document cd false d) |}).
  pose proof (Static_switch w0 1 inflation_button true P P) as Hsw.
  cbn zeta in Hsw. rewrite no_adjusted_view in Hsw.
  destruct Hsw as [msg Hsw]; try done.
  split; [by exists msg|].
  unfold Static.run. cbn [fold_left].
  rewrite (Static_dispatch_click w0 1
             {| has_controls := true;
                buttons := [ {| text := "Nominal Values"; data_view := "nominal";
                                disabled := false; active := true;
                                listener := true |}; inflation_button ] |}
             inflation_button); [by rewrite Hsw | | reflexivity | reflexivity].
  subst w0. cbn [document]. unfold setup_section.
  destruct (Static_info_document_uniform cd) as [H | [h H]]; rewrite H;
    cbn; rewrite bare; cbn; rewrite has_inflation; reflexivity.
Qed.

End NoPoints.

(** [updateChartData] leaves the page, the payload and the view flag
    alone. *)
Lemma Docs_updateChartData_frame (w : World) :
  let w' := snd (Docs.updateChartData w) in
  document w' = document w /\ chartData (this w') = chartData (this w) /\
  showInflation (this w') = showInflation (this w) /\
  (chart (this w) = null -> chart (this w') = null).
Proof.
  unfold Docs.updateChartData. js_eval.
Qed.

Lemma Static_updateChartData_frame (w : World) :
  let w' := snd (Static.updateChartData w) in
  document w' = document w /\ chartData (this w') = chartData (this w) /\
  showInflation (this w') = showInflation (this w) /\
  (chart (this w) = null -> chart (this w') = null).
Proof.
  unfold Static.updateChartData. js_eval.
Qed.

(** ** A page without the canvas *)

Lemma Docs_click_no_chart (w : World) (i : nat) (btn : Button) :
  chart (this w) = null ->
  fst (Docs.handleControlClick i btn w) = Ok tt /\
  chart (this (snd (Docs.handleControlClick i btn w))) = null.
Proof.
  intros Hc.
  destruct (disabled btn) eqn:Hd;
    [by rewrite Docs_click_ignored by (by left)|].
  destruct (truthy (data_view btn)) eqn:Hv.
  2: { rewrite Docs_click_ignored; [done|]. right.
       by destruct (data_view btn). }
  rewrite (Docs_click_eq w i btn Hd Hv). cbn zeta.
  destruct (Bool.eqb _ _); [done|].
  rewrite Docs_updateChartData_no_chart by (left; cbn; by rewrite Hc).
  done.
Qed.

Lemma Static_click_no_chart (w : World) (i : nat) (btn : Button) :
  chart (this w) = null ->
  fst (Static.handleControlClick i btn w) = Ok tt /\
  chart (this (snd (Static.handleControlClick i btn w))) = null.
Proof.
  intros Hc.
  destruct (disabled btn) eqn:Hd;
    [by rewrite Static_click_ignored by (by left)|].
  destruct (truthy (data_view btn)) eqn:Hv.
  2: { rewrite Static_click_ignored; [done|]. right.
       by destruct (data_view btn). }
  rewrite (Static_click_eq w i btn Hd Hv). cbn zeta.
  destruct (Bool.eqb _ _); [done|].
  rewrite Static_updateChartData_no_chart by (left; cbn; by rewrite Hc).
  done.
Qed.

Lemma Docs_run_no_chart es : forall w,
  chart (this w) = null -> chart (this (Docs.run w es)) = null.
Proof.
  unfold Docs.run. induction es as [|e es IH]; intros w H; [done|].
  cbn. apply IH. destruct e as [i]. unfold Docs.dispatch.
  destruct (optchain _ _) as [| |btn]; try done.
  destruct (listener btn); [|done]. by apply Docs_click_no_chart.
Qed.

Lemma Static_run_no_chart es : forall w,
  chart (this w) = null -> chart (this (Static.run w es)) = null.
Proof.
  unfold Static.run. induction es as [|e es IH]; intros w H; [done|].
  cbn. apply IH. destruct e as [i]. unfold Static.dispatch.
  destruct (optchain _ _) as [| |btn]; try done.
  destruct (listener btn); [|done]. by apply Static_click_no_chart.
Qed.

(** When the page has no canvas with the chart's id, no chart is
    ever created: after any clicks [this.chart] is still [null], and no
    click handler throws, whatever the payload. *)
Theorem no_canvas_no_chart
    (id : string) (cd : ChartData) (d : Dom) (es : list event)
    (i : nat) (btn : Button) :
  id ∉ canvases d ->
  (chart (this (Docs.run (Docs_constructed id cd d) es)) = null /\
   fst (Docs.handleControlClick i btn
          (Docs.run (Docs_constructed id cd d) es)) = Ok tt) /\
  (chart (this (Static.run (Static_constructed id cd d) es)) = null /\
   fst (Static.handleControlClick i btn
          (Static.run (Static_constructed id cd d) es)) = Ok tt).
Proof.
  intros Hno.
  assert (Hd : chart (this (Docs_constructed id cd d)) = null).
  { unfold Docs_constructed. destruct (Chart_loaded d) eqn:Hl.
    - rewrite (Docs_constructor_eq id cd d Hl).
      by rewrite (bool_decide_eq_false_2 _ Hno).
    - unfold Docs.constructor. by rewrite Hl. }
  assert (Hs : chart (this (Static_constructed id cd d)) = null).
  { unfold Static_constructed. destruct (Chart_loaded d) eqn:Hl.
    - rewrite (Static_constructor_eq id cd d Hl).
      by rewrite (bool_decide_eq_false_2 _ Hno).
    - unfold Static.constructor. by rewrite Hl. }
  split.
  - pose proof (Docs_run_no_chart es _ Hd) as H. split; [done|].
    by apply Docs_click_no_chart.
  - pose proof (Static_run_no_chart es _ Hs) as H. split; [done|].
    by apply Static_click_no_chart.
Qed.

(** ** The active control *)

Lemma toggle_active_lookup (i j : nat) (bs : list Button) :
  toggle_active i bs !! j =
  (fun b => {| text := text b; data_view := data_view b;
               disabled := disabled b; active := Nat.eqb j i;
               listener := listener b |}) <$> bs !! j.
Proof. unfold toggle_active. apply list_lookup_imap. Qed.

(** A click on an enabled control with a view either completes, and
    then exactly the clicked control carries the [active] class while no
    control changes its text, view, disabled state or listener; or it
    throws, and then the page is left as it was. *)
Theorem clicked_control_becomes_active
    (w : World) (i j : nat) (btn : Button) (sec : ChartSection) :
  chart_section (document w) = val sec ->
  disabled btn = false -> data_view btn <> "" ->
  let rd := Docs.handleControlClick i btn w in
  let rs := Static.handleControlClick i btn w in
  (match fst rd with
   | Ok _ =>
       exists sec', chart_section (document (snd rd)) = val sec' /\
         buttons sec' !! j =
         (fun b => {| text := text b; data_view := data_view b;
                      disabled := disabled b; active := Nat.eqb j i;
                      listener := listener b |}) <$> buttons sec !! j
   | Throw _ => document (snd rd) = document w
   end) /\
  (match fst rs with
   | Ok _ =>
       exists sec', chart_section (document (snd rs)) = val sec' /\
         buttons sec' !! j =
         (fun b => {| text := text b; data_view := data_view b;
                      disabled := disabled b; active := Nat.eqb j i;
                      listener := listener b |}) <$> buttons sec !! j
   | Throw _ => document (snd rs) = document w
   end).
Proof.
  intros Hsec Hd Hv rd rs. subst rd rs.
  assert (Hv' : truthy (data_view btn) = true) by (by destruct (data_view btn)).
  rewrite (Docs_click_eq w i btn Hd Hv'), (Static_click_eq w i btn Hd Hv').
  cbn zeta. set (new := String.eqb (data_view btn) "inflation").
  destruct (Bool.eqb new (showInflation (this w))); cbn [fst snd].
  - unfold click_section. cbn [document]. rewrite Hsec. cbn.
    split; eexists; (split; [reflexivity|apply toggle_active_lookup]).
  - pose proof (Docs_updateChartData_frame (select_view new w)) as (Dd & _).
    pose proof (Static_updateChartData_frame (select_view new w)) as (Ds & _).
    destruct (Docs.updateChartData _) as [[[]|e] wd];
      destruct (Static.updateChartData _) as [[[]|e'] ws];
      cbn [fst snd document] in *; rewrite ?Dd, ?Ds.
    all: split; try done.
    all: unfold click_section;
      try (destruct (Docs_info_document_uniform (chartData (this wd)))
             as [H | [h H]]; rewrite H);
      try (destruct (Static_info_document_uniform (chartData (this ws)))
             as [H | [h H]]; rewrite H);
      cbn; rewrite Hsec; cbn;
      eexists; (split; [reflexivity|apply toggle_active_lookup]).
Qed.

(** On a page with the chart's canvas and a chart section without
    controls, for a payload whose inflation data has points, a click on
    "Inflation Adjusted" selects the adjusted view (flag set, adjusted
    points drawn under the adjusted label), and a following click on
    "Nominal Values" brings the whole renderer and page back to the
    state right after construction, in both renderers. *)
Theorem switching_views_round_trip
    (id : string) (cd : ChartData) (d : Dom)
    (idat : InflationData.t) (pts : list Point.t) :
  Chart_loaded d = true -> id ∈ canvases d ->
  chart_section d = bare_section ->
  inflationData cd = val idat -> InflationData.data idat = val pts ->
  (showInflation (this (Docs.run (Docs_constructed id cd d) [Click 1])) = true /\
   dataset_label (Docs.run (Docs_constructed id cd d) [Click 1]) 0 =
     Some ("Total Wealth" ++ adjusted_suffix idat) /\
   dataset_points (Docs.run (Docs_constructed id cd d) [Click 1]) 0 =
     Some (to_chart_points pts) /\
   Docs.run (Docs_constructed id cd d) [Click 1; Click 0] =
     Docs_constructed id cd d) /\
  (showInflation (this (Static.run (Static_constructed id cd d) [Click 1])) = true /\
   dataset_label (Static.run (Static_constructed id cd d) [Click 1]) 0 =
     Some ("Total Wealth" ++ adjusted_suffix idat) /\
   dataset_points (Static.run (Static_constructed id cd d) [Click 1]) 0 =
     Some (to_chart_points pts) /\
   Static.run (Static_constructed id cd d) [Click 1; Click 0] =
     Static_constructed id cd d).
Proof.
  intros Hl Hc Hb Hi Hp. split.
  - destruct (Docs_round_trip id cd d idat pts Hl Hc Hb Hi Hp)
      as (? & ? & ? & ? & ?). done.
  - destruct (Static_round_trip id cd d idat pts Hl Hc Hb Hi Hp)
      as (? & ? & ? & ? & ?). done.
Qed.

Lemma switching_views_on_published_page :
  Docs.run (Docs_constructed "wealth-timeline-chart"
              payload_with_inflation_trend page) [Click 1; Click 0] =
  Docs_constructed "wealth-timeline-chart" payload_with_inflation_trend page.
Proof.
  refine (proj2 (proj2 (proj2 (proj1 (switching_views_round_trip
    "wealth-timeline-chart" payload_with_inflation_trend page
    (InflationData.mk
       (val [ Point.mk "2023-01-01" 10.4%Q; Point.mk "2024-01-01" 11.3%Q ])
       (val "cpi_u") (val "2024-01-01"))
    [ Point.mk "2023-01-01" 10.4%Q; Point.mk "2024-01-01" 11.3%Q ]
    _ _ _ _ _))))); try reflexivity.
  apply list_elem_of_here.
Defined.

(** When the payload's inflation data has no [data] array, the
    first click on "Inflation Adjusted" throws out of the click handler
    in both renderers, after [showInflation] was set: the flag is the
    only thing that changed, the chart, the info text and the
    highlighted control are those of the nominal view. *)
Theorem switch_without_points_throws
    (id : string) (cd : ChartData) (d : Dom) (idat : InflationData.t) :
  Chart_loaded d = true -> id ∈ canvases d ->
  chart_section d = bare_section ->
  inflationData cd = val idat -> absent (InflationData.data idat) ->
  let button := {| text := "Inflation Adjusted"; data_view := "inflation";
                   disabled := false; active := false; listener := true |} in
  ((exists msg,
      Docs.handleControlClick 1 button (Docs_constructed id cd d) =
      (Throw msg, select_view true (Docs_constructed id cd d))) /\
   Docs.run (Docs_constructed id cd d) [Click 1] =
     select_view true (Docs_constructed id cd d)) /\
  ((exists msg,
      Static.handleControlClick 1 button (Static_constructed id cd d) =
      (Throw msg, select_view true (Static_constructed id cd d))) /\
   Static.run (Static_constructed id cd d) [Click 1] =
     select_view true (Static_constructed id cd d)).
Proof.
  intros Hl Hc Hb Hi Hp button. split.
  - apply (Docs_switch_throws id cd d idat Hl Hc Hb Hi Hp).
  - apply (Static_switch_throws id cd d idat Hl Hc Hb Hi Hp).
Qed.

Lemma switch_without_points_on_published_page :
  Docs.run (Docs_constructed "wealth-timeline-chart"
              payload_without_inflation_points page) [Click 1] =
  select_view true
    (Docs_constructed "wealth-timeline-chart"
       payload_without_inflation_points page).
Proof.
  refine (proj2 (proj1 (switch_without_points_throws
    "wealth-timeline-chart" payload_without_inflation_points page
    (InflationData.mk undefined (val "cpi_u") (val "2024-01-01"))
    _ _ _ _ _))); try reflexivity.
  - apply list_elem_of_here.
  - right. reflexivity.
Defined.

Lemma label_matches_points_after_a_click :
  ("Total Wealth (cpi_u Adjusted)" = "Total Wealth" /\
   to_chart_points
     [ Point.mk "2023-01-01" 10.4%Q; Point.mk "2024-01-01" 11.3%Q ] =
   to_chart_points (data payload_with_inflation_trend)) \/
  (exists idat pts,
     inflationData payload_with_inflation_trend = val idat /\
     InflationData.data idat = val pts /\
     "Total Wealth (cpi_u Adjusted)" = "Total Wealth" ++ adjusted_suffix idat /\
     to_chart_points
       [ Point.mk "2023-01-01" 10.4%Q; Point.mk "2024-01-01" 11.3%Q ] =
     to_chart_points pts).
Proof.
  apply (label_matches_points "wealth-timeline-chart"
           payload_with_inflation_trend page [Click 1]).
  left. split; reflexivity.
Defined.

Lemma trend_label_matches_points_after_a_click :
  (exists l, "Exponential Trend (cpi_u Adjusted)" = "Exponential Trend" /\
             trendLine payload_with_inflation_trend = val l /\
             to_chart_points
               [ Point.mk "2023-01-01" 10.4%Q; Point.mk "2024-01-01" 11.3%Q ] =
             to_chart_points l) \/
  (exists idat t,
     inflationData payload_with_inflation_trend = val idat /\
     adjusted_trend payload_with_inflation_trend = val t /\
     "Exponential Trend (cpi_u Adjusted)" =
       "Exponential Trend" ++ adjusted_suffix idat /\
     to_chart_points
       [ Point.mk "2023-01-01" 10.4%Q; Point.mk "2024-01-01" 11.3%Q ] =
     to_chart_points t).
Proof.
  apply (trend_label_matches_points "wealth-timeline-chart"
           payload_with_inflation_trend page [Click 1]).
  right. split; reflexivity.
Defined.

Lemma no_chart_on_page_without_canvas :
  chart (this (Docs.run
                 (Docs_constructed "wealth-timeline-chart"
                    payload_with_inflation_trend page_without_canvas)
                 [Click 1; Click 0])) = null.
Proof.
  refine (proj1 (proj1 (no_canvas_no_chart "wealth-timeline-chart"
    payload_with_inflation_trend page_without_canvas [Click 1; Click 0]
    0 {| text := ""; data_view := ""; disabled := false; active := false;
         listener := false |} _))).
  apply not_elem_of_nil.
Defined.

Lemma clicked_control_on_published_page :
  match fst (Docs.handleControlClick 1
               {| text := "Inflation Adjusted"; data_view := "inflation";
                  disabled := false; active := false; listener := true |}
               (Docs_constructed "wealth-timeline-chart"
                  payload_with_inflation_trend page)) with
  | Ok _ =>
      exists sec',
        chart_section (document (snd (Docs.handleControlClick 1
          {| text := "Inflation Adjusted"; data_view := "inflation";
             disabled := false; active := false; listener := true |}
          (Docs_constructed "wealth-timeline-chart"
             payload_with_inflation_trend page)))) = val sec' /\
        buttons sec' !! 0%nat =
        (fun b => {| text := text b; data_view := data_view b;
                     disabled := disabled b; active := Nat.eqb 0 1;
                     listener := listener b |}) <$>
        buttons {| has_controls := true;
                   buttons := map listen (controls payload_with_inflation_trend) |}
          !! 0%nat
  | Throw _ =>
      document (snd (Docs.handleControlClick 1
        {| text := "Inflation Adjusted"; data_view := "inflation";
           disabled := false; active := false; listener := true |}
        (Docs_constructed "wealth-timeline-chart"
           payload_with_inflation_trend page))) =
      document (Docs_constructed "wealth-timeline-chart"
                  payload_with_inflation_trend page)
  end.
Proof.
  refine (proj1 (clicked_control_becomes_active
    (Docs_constructed "wealth-timeline-chart" payload_with_inflation_trend page)
    1 0
    {| text := "Inflation Adjusted"; data_view := "inflation";
       disabled := false; active := false; listener := true |}
    {| has_controls := true;
       buttons := map listen (controls payload_with_inflation_trend) |}
    _ _ _)); [reflexivity | reflexivity | discriminate].
Defined.

(** ** Numbers in the info text *)

Lemma append_nonempty_r (s t : string) : t <> "" -> s ++ t <> "".
Proof. destruct s; [done|]. discriminate. Qed.

Lemma toFixed_nonempty (f : nat) (x : Q) : toFixed f x <> "".
Proof.
  unfold toFixed. apply append_nonempty_r.
  destruct f as [|f].
  - set (dg := digits _). rewrite Nat.sub_0_r.
    destruct dg as [|c dg]; cbn; discriminate.
  - apply append_nonempty_r. discriminate.
Qed.



(** ** Tooltips *)

Lemma first_word_total (s : string) : first_word ("Total Wealth" ++ s) = "Total".
Proof. reflexivity. Qed.

(** Once the adjusted view is selected, the tooltip of the static
    renderer appends the "(type Adjusted)" suffix to a dataset label
    that already ends with it, so the suffix shows twice; the tooltip of
    the docs renderer keeps the first word of the label only and reads
    "Total: $..T" in either view. *)
Theorem tooltip_labels_in_adjusted_view
    (id : string) (cd : ChartData) (d : Dom)
    (idat : InflationData.t) (pts : list Point.t)
    (d0 : Dataset.t) (p : ChartPoint.t) :
  Chart_loaded d = true -> id ∈ canvases d ->
  chart_section d = bare_section ->
  inflationData cd = val idat -> InflationData.data idat = val pts ->
  (dataset (Static.run (Static_constructed id cd d) [Click 1]) 0 = Some d0 ->
   StaticOptions.tooltip_label
     (Static.run (Static_constructed id cd d) [Click 1]) d0 p =
   ("Total Wealth" ++ adjusted_suffix idat) ++ adjusted_suffix idat
   ++ ": $" ++ toFixed 1 (ChartPoint.y p) ++ " trillion") /\
  (dataset (Docs.run (Docs_constructed id cd d) [Click 1]) 0 = Some d0 \/
   dataset (Docs_constructed id cd d) 0 = Some d0 ->
   DocsOptions.tooltip_label d0 p =
   "Total: $" ++ toFixed 1 (ChartPoint.y p) ++ "T").
Proof.
  intros Hl Hc Hb Hi Hp.
  destruct (Docs_round_trip id cd d idat pts Hl Hc Hb Hi Hp)
    as (_ & _ & Ld & _ & Rd).
  destruct (Static_round_trip id cd d idat pts Hl Hc Hb Hi Hp)
    as (Ss & Cs & Ls & _ & _).
  split.
  - intros H0. unfold StaticOptions.tooltip_label.
    rewrite Cs, Hi, Ss.
    unfold dataset_label in Ls. unfold dataset in H0.
    destruct (chart (this (Static.run _ _))); try done.
    rewrite H0 in Ls. cbn in Ls. simplify_eq.
    rewrite Ls. reflexivity.
  - intros [H0 | H0]; unfold DocsOptions.tooltip_label.
    + unfold dataset_label in Ld. unfold dataset in H0.
      destruct (chart (this (Docs.run _ _))); try done.
      rewrite H0 in Ld. cbn in Ld. simplify_eq. rewrite Ld.
      by rewrite first_word_total.
    + unfold Docs_constructed in H0.
      rewrite (Docs_constructor_eq id cd d Hl) in H0.
      rewrite (bool_decide_eq_true_2 _ Hc) in H0.
      cbn in H0. unfold Docs_prepared in H0. cbn in H0. by simplify_eq.
Qed.

Lemma tooltip_on_published_page :
  StaticOptions.tooltip_label
    (Static.run (Static_constructed "wealth-timeline-chart"
                   payload_with_inflation_trend page) [Click 1])
    (Dataset.mk "Total Wealth (cpi_u Adjusted)"
       (to_chart_points
          [ Point.mk "2023-01-01" 10.4%Q; Point.mk "2024-01-01" 11.3%Q ])
       "#8b2635" "#8b2635" 0 3 2)
    (ChartPoint.mk (NewDate "2024-01-01") 11.3%Q) =
  "Total Wealth (cpi_u Adjusted) (cpi_u Adjusted): $11.3 trillion".
Proof.
  refine (eq_trans (proj1 (tooltip_labels_in_adjusted_view
    "wealth-timeline-chart" payload_with_inflation_trend page
    (InflationData.mk
       (val [ Point.mk "2023-01-01" 10.4%Q; Point.mk "2024-01-01" 11.3%Q ])
       (val "cpi_u") (val "2024-01-01"))
    [ Point.mk "2023-01-01" 10.4%Q; Point.mk "2024-01-01" 11.3%Q ]
    (Dataset.mk "Total Wealth (cpi_u Adjusted)"
       (to_chart_points
          [ Point.mk "2023-01-01" 10.4%Q; Point.mk "2024-01-01" 11.3%Q ])
       "#8b2635" "#8b2635" 0 3 2)
    (ChartPoint.mk (NewDate "2024-01-01") 11.3%Q)
    _ _ _ _ _) _) _); try reflexivity.
  apply list_elem_of_here.
Defined.




Lemma Simple_constructor_eq (id : string) (cd : ChartData) (d : Dom) :
  Chart_loaded d = true -> id ∈ canvases d ->
  Simple.constructor id cd d =
  Simple.updateInfo
    {| this := with_chart (val {| datasets := [Simple.dataset cd] |}) (fresh id cd);
       document := d |}.
Proof.
  intros Hl Hc. unfold Simple.constructor, Simple.init, Simple.rethrow.
  rewrite Hl. js_unfold. cbn.
  rewrite (bool_decide_eq_true_2 _ Hc). reflexivity.
Qed.

Arguments Simple.info_html : simpl never.

(** The first chart printed the three amounts of the summary with a bare
    [toFixed]: when one of them is missing the constructor throws, after
    the chart is created and before the info line is written, and the
    auto-initialisation leaves [window.wealthChart] undefined; when all
    three are there it returns. *)
Theorem simple_chart_throws_on_missing_amount
    (cd : ChartData) (d : Dom) (el : Element) (s : Summary) :
  Chart_loaded d = true -> "wealth-timeline-chart" ∈ canvases d ->
  chart_info d = val el -> summary cd = val s ->
  let missing :=
    absent (startValue s) \/ absent (endValue s) \/ absent (totalIncrease s) in
  (missing ->
   (exists msg,
      Simple.constructor "wealth-timeline-chart" cd d =
      (Throw msg,
       {| this := with_chart (val {| datasets := [Simple.dataset cd] |})
                             (fresh "wealth-timeline-chart" cd);
          document := d |})) /\
   Simple.auto_initialize (Some cd) d = (undefined, d)) /\
  (~ missing -> fst (Simple.constructor "wealth-timeline-chart" cd d) = Ok tt).
Proof.
  intros Hl Hc Hel Hs missing. subst missing.
  unfold Simple.auto_initialize. rewrite Hl.
  rewrite (Simple_constructor_eq _ cd d Hl Hc).
  unfold Simple.updateInfo. js_unfold. cbn. rewrite Hel, Hs. cbn.
  unfold absent.
  destruct (startValue s) as [| |a]; cbn;
    try (split; [intros _; split; [eexists|]; reflexivity | intros H; exfalso; apply H; auto]).
  destruct (endValue s) as [| |b]; cbn;
    try (split; [intros _; split; [eexists|]; reflexivity | intros H; exfalso; apply H; auto]).
  destruct (totalIncrease s) as [| |c]; cbn;
    try (split; [intros _; split; [eexists|]; reflexivity | intros H; exfalso; apply H; auto]).
  split; [|reflexivity].
  intros [H|[H|H]]; destruct H; discriminate.
Qed.


Lemma simple_chart_on_payload_without_total :
  Simple.auto_initialize (Some payload_without_total) page = (undefined, page).
Proof.
  refine (proj2 (proj1 (simple_chart_throws_on_missing_amount
                   payload_without_total page {| innerHTML := "" |}
                   summary_without_total _ _ _ _) _)).
  - reflexivity.
  - vm_compute. left.
  - reflexivity.
  - reflexivity.
  - right. right. right. reflexivity.
Defined.

Lemma Nav_current_app (pre : list Nav.section) (s : Nav.section)
    (post : list Nav.section) (y : Q) :
  (inject_Z (Nav.offsetTop s - 200) <= y)%Q ->
  (forall s', s' ∈ post -> (y < inject_Z (Nav.offsetTop s' - 200))%Q) ->
  Nav.current (pre ++ s :: post) y = Nav.section_id s.
Proof.
  intros Hs Hpost. unfold Nav.current.
  rewrite fold_left_app. cbn.
  apply Qle_bool_iff in Hs. rewrite Hs. clear Hs.
  generalize (Nav.section_id s) as c.
  induction post as [|s' post IH]; intros c; [reflexivity|].
  cbn. destruct (Qle_bool (inject_Z (Nav.offsetTop s' - 200)) y) eqn:E.
  - apply Qle_bool_iff in E.
    specialize (Hpost s' ltac:(left)). exfalso.
    apply (Qlt_not_le _ _ Hpost E).
  - apply IH. intros s'' H. apply Hpost. by right.
Qed.

Lemma Nav_points_at (c : string) (l : Nav.link) :
  Nav.points_at c l = true <-> Nav.href l = val ("#" ++ c).
Proof.
  unfold Nav.points_at. destruct (Nav.href l) as [| |h]; try done.
  rewrite String.eqb_eq. split; [by intros ->|by intros [= ->]].
Qed.

(** After a scroll event exactly the links to the last section, in
    document order, whose top is at most 200 pixels below the scroll
    position are active, whatever was active before; above every
    section the active links are those whose target is the bare [#]. *)
Theorem scroll_marks_last_reached_section (p : Nav.page) (l : Nav.link) :
  l ∈ Nav.links (Nav.on_scroll p) ->
  ((forall s, s ∈ Nav.sections p ->
      (Nav.pageYOffset p < inject_Z (Nav.offsetTop s - 200))%Q) ->
   (Nav.link_active l = true <-> Nav.href l = val "#")) /\
  (forall pre s post,
     Nav.sections p = (pre ++ s :: post)%list ->
     (inject_Z (Nav.offsetTop s - 200) <= Nav.pageYOffset p)%Q ->
     (forall s', s' ∈ post ->
        (Nav.pageYOffset p < inject_Z (Nav.offsetTop s' - 200))%Q) ->
     (Nav.link_active l = true <->
      Nav.href l = val ("#" ++ Nav.section_id s))).
Proof.
  unfold Nav.on_scroll. cbn. intros Hl. change (l ∈ (fun l => Nav.Build_link (Nav.href l) (Nav.points_at (Nav.current (Nav.sections p) (Nav.pageYOffset p)) l)) <$> Nav.links p) in Hl. apply list_elem_of_fmap in Hl. revert Hl.
  intros [l0 [-> _]]. cbn. split.
  - intros Hnone.
    assert (Nav.current (Nav.sections p) (Nav.pageYOffset p) = "") as ->.
    { rewrite <- (app_nil_l (Nav.sections p)).
      unfold Nav.current. generalize "" as c.
      induction (Nav.sections p) as [|s ss IH]; intros c; [reflexivity|].
      cbn. destruct (Qle_bool _ _) eqn:E.
      - apply Qle_bool_iff in E. exfalso.
        apply (Qlt_not_le _ _ (Hnone s ltac:(left)) E).
      - apply IH. intros s' H. apply Hnone. by right. }
    apply Nav_points_at.
  - intros pre s post Hsec Hs Hpost. rewrite Hsec.
    rewrite (Nav_current_app pre s post _ Hs Hpost).
    apply Nav_points_at.
Qed.

Lemma scroll_on_scrolled_page :
  Nav.Build_link (val "#timeline") true ∈ Nav.links (Nav.on_scroll scrolled_page) /\
  (Nav.link_active (Nav.Build_link (val "#timeline") true) = true <->
   Nav.href (Nav.Build_link (val "#timeline") true) = val "#timeline").
Proof.
  assert (Nav.Build_link (val "#timeline") true
          ∈ Nav.links (Nav.on_scroll scrolled_page)) as Hl.
  { vm_compute. right. left. }
  split; [exact Hl|].
  refine (proj2 (scroll_marks_last_reached_section scrolled_page _ Hl)
            [Nav.Build_section "overview" 0]
            (Nav.Build_section "timeline" 900)
            [Nav.Build_section "about" 2400] _ _ _).
  - reflexivity.
  - vm_compute. discriminate.
  - intros s' Hs'. apply list_elem_of_singleton in Hs'. subst s'.
    reflexivity.
Defined.

(** * The info line *)

Lemma fixed_or_NA_amount (f : nat) (v : js Q) :
  fixed_or_NA f v = amount_or_NA f v.
Proof.
  unfold fixed_or_NA, amount_or_NA. destruct v as [| |q]; try reflexivity.
  cbn. pose proof (toFixed_nonempty f q).
  by destruct (toFixed f q).
Qed.

Lemma fixed_or_NA_default (f : nat) (v : js Q) :
  fixed_or_NA f (val (or_else v (fun q => q) 0%Q)) =
  fit_or_zero f (toFixed f 0) v.
Proof.
  rewrite fixed_or_NA_amount. unfold fit_or_zero, or_else.
  destruct v as [| |q]; try reflexivity.
  change (truthy (val q)) with (truthy q). by destruct (truthy q).
Qed.

Lemma summary_html_fields (indent : string) (s : Summary) (note growth r2 tail : string) :
  summary_html indent s note growth r2 tail =
  info_html indent (count_or_NA (dataPoints s)) (span_or_NA (timespan s)) note
            (amount_or_NA 1 (startValue s)) (amount_or_NA 1 (endValue s))
            (amount_or_NA 1 (totalIncrease s)) growth r2 tail.
Proof.
  unfold summary_html. rewrite !fixed_or_NA_amount. f_equal.
  - destruct (dataPoints s) as [| |z]; try reflexivity. cbn.
    change (truthy z) with (negb (z =? 0)%Z). by destruct (z =? 0)%Z.
  - destruct (timespan s) as [| |t]; try reflexivity. by destruct t.
Qed.

Section InfoLine.
Variables (w : World) (el : Element) (s s' : Summary).
Let cd := chartData (this w).
Hypothesis has_element : chart_info (document w) = val el.
Hypothesis has_summary : summary cd = val s.
Hypothesis on_display : displayed_summary w = val s'.

Lemma Docs_updateInfo_text :
  chart_info (document (snd (Docs.updateInfo w))) =
  val {| innerHTML :=
           summary_html "      " s' (Docs_note w)
             (if inflation_fit_used w
              then fixed_or_NA 1 (optchain (inflationFitParams cd) annualGrowthRate)
              else fixed_or_NA 1 (val (or_else (optchain (fitParams cd) annualGrowthRate) (fun q => q) 0%Q)))
             (if inflation_fit_used w
              then fixed_or_NA 3 (optchain (inflationFitParams cd) r_squared)
              else fixed_or_NA 3 (val (or_else (optchain (fitParams cd) r_squared) (fun q => q) 0%Q)))
             Docs_tail |}.
Proof.
  subst cd. revert on_display.
  unfold displayed_summary, Docs_note, inflation_fit_used, inflation_view, Docs_tail.
  unfold Docs.updateInfo. js_unfold; cbn.
  rewrite has_element, has_summary; cbn.
  destruct (showInflation (this w)); cbn.
  - destruct (inflationData (chartData (this w))) as [| |idat]; cbn;
      try (intros [= <-]; by rewrite has_element).
    destruct (inflationSummary (chartData (this w))) as [| |isum]; cbn;
      try (intros [= <-]; by rewrite has_element).
    intros [= <-].
    destruct (inflationFitParams (chartData (this w))) as [| |ifit]; cbn;
      by rewrite has_element.
  - intros [= <-]. by rewrite has_element.
Qed.

Lemma Static_updateInfo_text :
  chart_info (document (snd (Static.updateInfo w))) =
  val {| innerHTML :=
           summary_html "        " s' (Static_note w)
             (if inflation_fit_used w
              then fixed_or_NA 1 (optchain (inflationFitParams cd) annualGrowthRate)
              else fixed_or_NA 1 (val (or_else (optchain (fitParams cd) annualGrowthRate) (fun q => q) 0%Q)))
             (if inflation_fit_used w
              then fixed_or_NA 3 (optchain (inflationFitParams cd) r_squared)
              else fixed_or_NA 3 (val (or_else (optchain (fitParams cd) r_squared) (fun q => q) 0%Q)))
             (Static_tail w) |}.
Proof.
  subst cd. revert on_display.
  unfold displayed_summary, Static_note, inflation_fit_used, inflation_view, Static_tail.
  unfold Static.updateInfo. js_unfold; cbn.
  rewrite has_element, has_summary; cbn.
  destruct (showInflation (this w)); cbn.
  - destruct (inflationData (chartData (this w))) as [| |idat]; cbn;
      try (intros [= <-]; by rewrite has_element).
    destruct (inflationSummary (chartData (this w))) as [| |isum]; cbn;
      try (intros [= <-]; by rewrite has_element).
    intros [= <-].
    assert (forall bd : js string,
              match bd with
              | val a => if truthy a then a else "latest"
              | _ => "latest"
              end =
              match bd with
              | val EmptyString => "latest"
              | val day => day
              | _ => "latest"
              end) as Hbd by (intros [| |[|]]; reflexivity).
    rewrite Hbd.
    destruct (inflationFitParams (chartData (this w))) as [| |ifit]; cbn;
      by rewrite has_element.
  - intros [= <-]. by rewrite has_element.
Qed.

End InfoLine.

(** C10, amended: in both renderers [updateInfo] never throws, whatever
    the payload, the state and the page.  When the [.chart-info] element
    and the summary exist and the inflation fit is not the one on
    display, the info line is the template filled, for the summary on
    display, with its data point count and time span ("N/A" when missing,
    zero or empty), its three amounts to one decimal ("N/A" when
    missing), the growth rate of [fitParams] to one decimal, "0.0" when
    it is missing or zero, and, independently, its R² to three decimals,
    "0.000" when it is missing or zero.  When both are missing or zero
    the page after [updateInfo] is the page for a zero fit, in every
    state. *)
Theorem C10_missing_fit_defaults (w : World) (el : Element) (s s' : Summary) :
  let cd := chartData (this w) in
  let growth := optchain (fitParams cd) annualGrowthRate in
  let r2 := optchain (fitParams cd) r_squared in
  (fst (Docs.updateInfo w) = Ok tt /\ fst (Static.updateInfo w) = Ok tt) /\
  (chart_info (document w) = val el ->
   summary cd = val s ->
   displayed_summary w = val s' ->
   inflation_fit_used w = false ->
   chart_info (document (snd (Docs.updateInfo w))) =
     val {| innerHTML :=
              info_html "      "
                (count_or_NA (dataPoints s')) (span_or_NA (timespan s'))
                (Docs_note w)
                (amount_or_NA 1 (startValue s')) (amount_or_NA 1 (endValue s'))
                (amount_or_NA 1 (totalIncrease s'))
                (fit_or_zero 1 "0.0" growth) (fit_or_zero 3 "0.000" r2)
                Docs_tail |} /\
   chart_info (document (snd (Static.updateInfo w))) =
     val {| innerHTML :=
              info_html "        "
                (count_or_NA (dataPoints s')) (span_or_NA (timespan s'))
                (Static_note w)
                (amount_or_NA 1 (startValue s')) (amount_or_NA 1 (endValue s'))
                (amount_or_NA 1 (totalIncrease s'))
                (fit_or_zero 1 "0.0" growth) (fit_or_zero 3 "0.000" r2)
                (Static_tail w) |}) /\
  (missing_or_zero growth -> missing_or_zero r2 ->
   document (snd (Docs.updateInfo w)) =
     document (snd (Docs.updateInfo
                      (with_chartData (with_fitParams (val zero_fit) cd) w))) /\
   document (snd (Static.updateInfo w)) =
     document (snd (Static.updateInfo
                      (with_chartData (with_fitParams (val zero_fit) cd) w)))).
Proof.
  intros cd growth r2. split; [|split].
  - destruct (Docs_updateInfo_frame w) as (? & -> & _).
    destruct (Static_updateInfo_frame w) as (? & -> & _). done.
  - intros Hel Hs Hs' Hu. split.
    + rewrite (Docs_updateInfo_text w el s s' Hel Hs Hs'), Hu.
      rewrite summary_html_fields, !fixed_or_NA_default. reflexivity.
    + rewrite (Static_updateInfo_text w el s s' Hel Hs Hs'), Hu.
      rewrite summary_html_fields, !fixed_or_NA_default. reflexivity.
  - intros Hg Hr. split.
    + by apply Docs_missing_fit_as_zero_fit.
    + by apply Static_missing_fit_as_zero_fit.
Qed.

(** The published page with the fit taken out of the published
    payload. *)
Lemma C10_published_payload_without_fit :
  chart_info (document (snd (Docs.updateInfo
    {| this := fresh "wealth-timeline-chart"
                 (with_fitParams null wealthTimelineData);
       document := page |}))) =
  val {| innerHTML :=
           info_html "      " "141" "2023-04-15 to 2025-06-01" ""
                     "12.6" "16.5" "30.8" "0.0" "0.000" (nl ++ "    ") |}.
Proof.
  refine (proj1 (proj1 (proj2 (C10_missing_fit_defaults
    {| this := fresh "wealth-timeline-chart"
                 (with_fitParams null wealthTimelineData);
       document := page |}
    {| innerHTML := "" |}
    {| dataPoints := val 141%Z;
       timespan := val "2023-04-15 to 2025-06-01";
       startValue := val 12.640847367000001%Q;
       endValue := val 16.529622766%Q;
       totalIncrease := val 30.763565812462655%Q |}
    {| dataPoints := val 141%Z;
       timespan := val "2023-04-15 to 2025-06-01";
       startValue := val 12.640847367000001%Q;
       endValue := val 16.529622766%Q;
       totalIncrease := val 30.763565812462655%Q |})) _ _ _ _));
    reflexivity.
Defined.

(** When the inflation fit is on display, the info line is filled from
    [inflationSummary] and [inflationFitParams]: every number that is
    present is printed to its decimals, zero included, and one that is
    missing reads "N/A"; the [|| 0] of the nominal fit does not apply. *)
Theorem inflation_fit_is_printed_as_it_is
    (w : World) (el : Element) (s isum : Summary)
    (idat : InflationData.t) (ifit : FitParams) :
  let cd := chartData (this w) in
  chart_info (document w) = val el ->
  summary cd = val s ->
  showInflation (this w) = true ->
  inflationData cd = val idat ->
  inflationSummary cd = val isum ->
  inflationFitParams cd = val ifit ->
  chart_info (document (snd (Docs.updateInfo w))) =
    val {| innerHTML :=
             info_html "      "
               (count_or_NA (dataPoints isum)) (span_or_NA (timespan isum))
               (" (" ++ interpolate (InflationData.inflationType idat)
                ++ " adjusted)")
               (amount_or_NA 1 (startValue isum)) (amount_or_NA 1 (endValue isum))
               (amount_or_NA 1 (totalIncrease isum))
               (amount_or_NA 1 (annualGrowthRate ifit))
               (amount_or_NA 3 (r_squared ifit))
               Docs_tail |} /\
  chart_info (document (snd (Static.updateInfo w))) =
    val {| innerHTML :=
             info_html "        "
               (count_or_NA (dataPoints isum)) (span_or_NA (timespan isum))
               (Static_note w)
               (amount_or_NA 1 (startValue isum)) (amount_or_NA 1 (endValue isum))
               (amount_or_NA 1 (totalIncrease isum))
               (amount_or_NA 1 (annualGrowthRate ifit))
               (amount_or_NA 3 (r_squared ifit))
               (Static_tail w) |}.
Proof.
  intros cd Hel Hs Hshow Hdat Hsum Hfit.
  assert (inflation_view w = true) as Hv.
  { unfold inflation_view. fold cd. by rewrite Hshow, Hdat, Hsum. }
  assert (inflation_fit_used w = true) as Hu.
  { unfold inflation_fit_used. fold cd. by rewrite Hv, Hfit. }
  assert (displayed_summary w = val isum) as Hd.
  { unfold displayed_summary. fold cd. by rewrite Hv. }
  split.
  - rewrite (Docs_updateInfo_text w el s isum Hel Hs Hd), Hu.
    fold cd. rewrite Hfit. cbn [optchain].
    rewrite summary_html_fields, !fixed_or_NA_amount.
    unfold Docs_note. fold cd. by rewrite Hv, Hdat.
  - rewrite (Static_updateInfo_text w el s isum Hel Hs Hd), Hu.
    fold cd. rewrite Hfit. cbn [optchain].
    by rewrite summary_html_fields, !fixed_or_NA_amount.
Qed.

Lemma inflation_fit_without_growth_reads_NA :
  chart_info (document (snd (Docs.updateInfo
    (Docs_inflation_view payload_with_partial_inflation_fit)))) =
  val {| innerHTML :=
           info_html "      " "2" "2023-01-01 to 2024-01-01" " (cpi_u adjusted)"
                     "10.4" "11.3" "0.0" "N/A" "0.000" (nl ++ "    ") |}.
Proof.
  refine (proj1 (inflation_fit_is_printed_as_it_is
    (Docs_inflation_view payload_with_partial_inflation_fit)
    {| innerHTML :=
         info_html "      " "2" "2023-01-01 to 2024-01-01" " (cpi_u adjusted)"
                   "10.4" "11.3" "0.0" "N/A" "0.000" (nl ++ "    ") |}
    {| dataPoints := val 2%Z;
       timespan := val "2023-01-01 to 2024-01-01";
       startValue := val 10%Q; endValue := val 11.3%Q;
       totalIncrease := val 13%Q |}
    {| dataPoints := val 2%Z;
       timespan := val "2023-01-01 to 2024-01-01";
       startValue := val 10.4%Q; endValue := val 11.3%Q;
       totalIncrease := val 0%Q |}
    (InflationData.mk
       (val [ Point.mk "2023-01-01" 10.4%Q; Point.mk "2024-01-01" 11.3%Q ])
       (val "cpi_u") (val "2024-01-01"))
    {| fit_a := val 10.4%Q; fit_b := val 0.00023%Q;
       annualGrowthRate := undefined; r_squared := val 0%Q |}
    _ _ _ _ _ _)); vm_compute; reflexivity.
Defined.

(** Whatever the payload and the page, the renderer's own steps of
    construction return: [prepareDatasets] (a missing or empty [trendLine]
    is skipped), [updateInfo] (missing fields are defaulted) and
    [setupControls] (a missing chart section is skipped).  What can make
    a constructor throw is [getContext] or [new Chart]. *)
Theorem construction_steps_never_throw (w : World) :
  (exists ds, Docs.prepareDatasets w = (Ok ds, w)) /\
  fst (Docs.updateInfo w) = Ok tt /\
  fst (Docs.setupControls w) = Ok tt /\
  (exists ds, Static.prepareDatasets w = (Ok ds, w)) /\
  fst (Static.updateInfo w) = Ok tt /\
  fst (Static.setupControls w) = Ok tt.
Proof.
  split; [by eexists; apply Docs_prepareDatasets_eq|].
  split; [by rewrite Docs_updateInfo_eq|].
  split.
  { unfold Docs.setupControls. js_unfold. cbn.
    by destruct (chart_section (document w)). }
  split; [by eexists; apply Static_prepareDatasets_eq|].
  split; [by rewrite Static_updateInfo_eq|].
  unfold Static.setupControls. js_unfold. cbn.
  by destruct (chart_section (document w)).
Qed.

(** * The trend line of the inflation view *)

Section SelectedView.
Variables (cd : ChartData) (idat : InflationData.t) (pts : list Point.t).
Hypothesis has_inflation : inflationData cd = val idat.
Hypothesis has_points : InflationData.data idat = val pts.

Lemma view_datasets_total (nominal : list Dataset.t) (show : bool) :
  view_datasets cd nominal show =
  Some (if show then adjusted_datasets cd idat pts nominal else nominal).
Proof.
  unfold view_datasets. rewrite has_inflation, has_points. by destruct show.
Qed.

Lemma Docs_click_selected (d0 : Dom) (w : World) (i : nat) (btn : Button) :
  shows_selected cd (Docs_prepared cd d0) w ->
  innerWidth (document w) = innerWidth d0 ->
  shows_selected cd (Docs_prepared cd d0) (snd (Docs.handleControlClick i btn w)) /\
  innerWidth (document (snd (Docs.handleControlClick i btn w))) = innerWidth d0.
Proof.
  intros (Hcd & Ho & ds & Hview & Hc) Hw.
  destruct (disabled btn) eqn:Hd.
  { rewrite Docs_click_ignored by (by left). split; [|done]. by repeat split; eauto. }
  destruct (truthy (data_view btn)) eqn:Hv.
  2: { rewrite Docs_click_ignored; [split; [|done]; by repeat split; eauto|].
       right. by destruct (data_view btn). }
  rewrite (Docs_click_eq w i btn Hd Hv). cbn zeta.
  set (new := String.eqb (data_view btn) "inflation").
  destruct (Bool.eqb new (showInflation (this w))) eqn:Hb; cbn [snd].
  - split; [|same_width]. repeat split; try done. by exists ds.
  - pose proof (Docs_updateChartData_view (select_view new w)
                  (Docs_prepared cd d0) ds) as H.
    cbn zeta in H. cbn [select_view this document chartData
                        with_showInflation originalDatasetConfigs chart
                        showInflation] in H.
    rewrite Hcd in H. specialize (H Ho Hc).
    specialize (H (eq_sym (Docs_prepared_width cd d0 (document w) Hw))
                  (view_datasets_length _ _ _ _ Hview)).
    rewrite view_datasets_total in H. rewrite H. cbn.
    split; [|same_width]. repeat split; try done.
    eexists. split; [apply view_datasets_total|reflexivity].
Qed.

Lemma Static_click_selected (w : World) (i : nat) (btn : Button) :
  shows_selected cd (Static_prepared cd) w ->
  shows_selected cd (Static_prepared cd) (snd (Static.handleControlClick i btn w)).
Proof.
  intros (Hcd & Ho & ds & Hview & Hc).
  destruct (disabled btn) eqn:Hd.
  { rewrite Static_click_ignored by (by left). by repeat split; eauto. }
  destruct (truthy (data_view btn)) eqn:Hv.
  2: { rewrite Static_click_ignored; [by repeat split; eauto|].
       right. by destruct (data_view btn). }
  rewrite (Static_click_eq w i btn Hd Hv). cbn zeta.
  set (new := String.eqb (data_view btn) "inflation").
  destruct (Bool.eqb new (showInflation (this w))) eqn:Hb; cbn [snd].
  - repeat split; try done. by exists ds.
  - pose proof (Static_updateChartData_view (select_view new w)
                  (Static_prepared cd) ds) as H.
    cbn zeta in H. cbn [select_view this document chartData
                        with_showInflation originalDatasetConfigs chart
                        showInflation] in H.
    rewrite Hcd in H.
    specialize (H Ho Hc eq_refl (view_datasets_length _ _ _ _ Hview)).
    rewrite view_datasets_total in H. rewrite H. cbn.
    repeat split; try done.
    eexists. split; [apply view_datasets_total|reflexivity].
Qed.

Lemma Docs_run_selected (d0 : Dom) (es : list event) : forall w,
  shows_selected cd (Docs_prepared cd d0) w ->
  innerWidth (document w) = innerWidth d0 ->
  shows_selected cd (Docs_prepared cd d0) (Docs.run w es).
Proof.
  unfold Docs.run. induction es as [|e es IH]; intros w H Hw; [done|].
  cbn [fold_left]. destruct e as [i]. unfold Docs.dispatch at 2.
  destruct (optchain _ _) as [| |btn]; try by apply IH.
  destruct (listener btn); [|by apply IH].
  destruct (Docs_click_selected d0 w i btn H Hw). by apply IH.
Qed.

Lemma Static_run_selected (es : list event) : forall w,
  shows_selected cd (Static_prepared cd) w ->
  shows_selected cd (Static_prepared cd) (Static.run w es).
Proof.
  unfold Static.run. induction es as [|e es IH]; intros w H; [done|].
  cbn [fold_left]. destruct e as [i]. unfold Static.dispatch at 2.
  destruct (optchain _ _) as [| |btn]; try by apply IH.
  destruct (listener btn); [|by apply IH].
  by apply IH, Static_click_selected.
Qed.

Variables (id : string) (d : Dom).
Hypothesis loaded : Chart_loaded d = true.
Hypothesis canvas : id ∈ canvases d.

Lemma Docs_constructed_selected :
  shows_selected cd (Docs_prepared cd d) (Docs_constructed id cd d) /\
  innerWidth (document (Docs_constructed id cd d)) = innerWidth d.
Proof.
  unfold Docs_constructed. rewrite (Docs_constructor_eq id cd d loaded).
  rewrite (bool_decide_eq_true_2 _ canvas). cbn [snd]. split.
  - repeat split. by exists (Docs_prepared cd d).
  - cbn [document]. by rewrite setup_section_width, Docs_info_document_width.
Qed.

Lemma Static_constructed_selected :
  shows_selected cd (Static_prepared cd) (Static_constructed id cd d).
Proof.
  unfold Static_constructed. rewrite (Static_constructor_eq id cd d loaded).
  rewrite (bool_decide_eq_true_2 _ canvas). cbn [snd].
  repeat split. by exists (Static_prepared cd).
Qed.

(** The datasets of the adjusted view over those of construction. *)
Lemma adjusted_prepared (nominal : list Dataset.t) (w : World) :
  (exists d0 rest,
     nominal = d0 :: rest /\
     (has_trend cd = false -> rest = []) /\
     (has_trend cd = true -> exists d1, rest = [d1])) ->
  shows_selected cd nominal w ->
  showInflation (this w) = true ->
  dataset_label w 0 = Some ("Total Wealth" ++ adjusted_suffix idat) /\
  dataset_points w 0 = Some (to_chart_points pts) /\
  (has_trend cd = true ->
   dataset_label w 1 = Some ("Exponential Trend" ++ adjusted_suffix idat) /\
   dataset_points w 1 = Some (or_else (adjusted_trend cd) to_chart_points [])) /\
  (has_trend cd = false ->
   dataset_label w 1 = None /\ dataset_points w 1 = None).
Proof.
  intros (d0 & rest & -> & Hno & Hyes) (Hcd & Ho & ds & Hview & Hc) Hshow.
  rewrite Hshow, view_datasets_total in Hview. simplify_eq.
  unfold dataset_label, dataset_points. rewrite Hc. cbn.
  split; [done|]. split; [done|]. split.
  - intros Ht. destruct (Hyes Ht) as [d1 ->]. done.
  - intros Ht. by rewrite (Hno Ht).
Qed.

End SelectedView.

Lemma prepared_shape (cd : ChartData) (d : Dom) :
  (exists d0 rest,
     Docs_prepared cd d = d0 :: rest /\
     (has_trend cd = false -> rest = []) /\
     (has_trend cd = true -> exists d1, rest = [d1])) /\
  (exists d0 rest,
     Static_prepared cd = d0 :: rest /\
     (has_trend cd = false -> rest = []) /\
     (has_trend cd = true -> exists d1, rest = [d1])).
Proof.
  unfold Docs_prepared, Static_prepared.
  split; do 2 eexists; (split; [reflexivity|]);
    destruct (has_trend cd); split; try done; intros _; by eexists.
Qed.

(** C7, amended: the renderer never fits or rescales a trend line; it
    draws what the payload carries.  With no animation running, on a
    page where the chart was created and for a payload whose inflation
    data has points, whenever [showInflation] is set after any clicks the
    first dataset holds the adjusted points under the adjusted label,
    and
    - if the payload has a non-empty [trendLine], the second dataset
      carries the adjusted label and holds the points of
      [inflationTrendLine] as they are when the payload has one, and the
      points of the nominal [trendLine] as they are when it has none;
    - if the payload has no [trendLine], or an empty one, there is no
      second dataset, whether or not it has an [inflationTrendLine]. *)
Theorem C7_inflation_view_trend_line
    (id : string) (cd : ChartData) (d : Dom)
    (idat : InflationData.t) (pts : list Point.t) (es : list event) :
  Chart_loaded d = true -> id ∈ canvases d ->
  inflationData cd = val idat -> InflationData.data idat = val pts ->
  let adjusted_view_of (w : World) :=
    showInflation (this w) = true ->
    dataset_label w 0 = Some ("Total Wealth" ++ adjusted_suffix idat) /\
    dataset_points w 0 = Some (to_chart_points pts) /\
    (forall l, trendLine cd = val l -> l <> [] ->
       dataset_label w 1 = Some ("Exponential Trend" ++ adjusted_suffix idat) /\
       (forall t, inflationTrendLine cd = val t ->
          dataset_points w 1 = Some (to_chart_points t)) /\
       (absent (inflationTrendLine cd) ->
          dataset_points w 1 = Some (to_chart_points l))) /\
    (absent (trendLine cd) \/ trendLine cd = val [] ->
     dataset_label w 1 = None /\ dataset_points w 1 = None) in
  adjusted_view_of (Docs.run (Docs_constructed id cd d) es) /\
  adjusted_view_of (Static.run (Static_constructed id cd d) es).
Proof.
  intros Hl Hc Hinf Hpts adjusted_view_of.
  assert (forall nominal w,
            (exists d0 rest,
               nominal = d0 :: rest /\
               (has_trend cd = false -> rest = []) /\
               (has_trend cd = true -> exists d1, rest = [d1])) ->
            shows_selected cd nominal w -> adjusted_view_of w) as H.
  { intros nominal w Hshape Hsel Hshow.
    destruct (adjusted_prepared cd idat pts Hinf Hpts nominal w Hshape Hsel Hshow)
      as (L0 & P0 & Hyes & Hno).
    split; [exact L0|]. split; [exact P0|]. split.
    - intros l Htl Hne.
      assert (has_trend cd = true) as Ht.
      { unfold has_trend. rewrite Htl. by destruct l. }
      destruct (Hyes Ht) as [L1 P1]. split; [exact L1|]. split.
      + intros t Hit. rewrite P1. unfold adjusted_trend. by rewrite Hit.
      + intros Habs. rewrite P1. unfold adjusted_trend.
        destruct Habs as [-> | ->]; cbn; by rewrite Htl.
    - intros Hnone. apply Hno. unfold has_trend.
      destruct Hnone as [[-> | ->] | ->]; reflexivity. }
  destruct (prepared_shape cd d) as [Hd Hs].
  destruct (Docs_constructed_selected cd id d Hl Hc) as [Hsel Hw].
  split.
  - apply (H (Docs_prepared cd d)); [exact Hd|].
    by apply (Docs_run_selected cd idat pts Hinf Hpts).
  - apply (H (Static_prepared cd)); [exact Hs|].
    apply (Static_run_selected cd idat pts Hinf Hpts).
    by apply Static_constructed_selected.
Qed.

(** A payload with an [inflationTrendLine], drawn on the published
    page. *)
Lemma C7_inflation_trend_line_drawn :
  dataset_points
    (Docs.run (Docs_constructed "wealth-timeline-chart"
                 payload_with_inflation_trend page) [Click 1]) 1 =
  Some (to_chart_points
          [ Point.mk "2023-01-01" 10.4%Q; Point.mk "2024-01-01" 11.3%Q ]).
Proof.
  refine (proj1 (proj2 (proj1 (proj2 (proj2 (proj1
    (C7_inflation_view_trend_line "wealth-timeline-chart"
       payload_with_inflation_trend page
       (InflationData.mk
          (val [ Point.mk "2023-01-01" 10.4%Q; Point.mk "2024-01-01" 11.3%Q ])
          (val "cpi_u") (val "2024-01-01"))
       [ Point.mk "2023-01-01" 10.4%Q; Point.mk "2024-01-01" 11.3%Q ]
       [Click 1] _ _ _ _) _)))
    [ Point.mk "2023-01-01" 10%Q; Point.mk "2024-01-01" 11.3%Q ] _ _))
    [ Point.mk "2023-01-01" 10.4%Q; Point.mk "2024-01-01" 11.3%Q ] _).
  - reflexivity.
  - apply list_elem_of_here.
  - reflexivity.
  - reflexivity.
  - vm_compute. reflexivity.
  - reflexivity.
  - discriminate.
  - reflexivity.
Defined.

(** * The scroll animation *)

Import Animation.

Lemma forEach_cons {S A} (x : A) (a : list A) (f : A -> M S unit) (s : S) :
  forEach (x :: a) f s =
  match f x s with
  | (Ok _, s') => forEach a f s'
  | (Throw e, s') => (Throw e, s')
  end.
Proof. reflexivity. Qed.

Lemma with_data_same (d : Dataset.t) : with_data (Dataset.data d) d = d.
Proof. by destruct d. Qed.

Lemma stage_same (w : World) (d0 : Dataset.t) (rest : list Dataset.t) :
  chart (this w) = val {| datasets := d0 :: rest |} ->
  stage w (isAnimating (this w)) (animationPlayed (this w)) (d0 :: rest) = w.
Proof. destruct w as [[] ?]; cbn. by intros ->. Qed.

Lemma lift_snd {A} (m : M World A) (w' : World) (o : bool) (ts : list timer) :
  snd (lift m {| world := w'; observing := o; timers := ts |}) =
  {| world := snd (m w'); observing := o; timers := ts |}.
Proof. unfold lift. cbn. by destruct (m w'). Qed.

Lemma animateChart_eq (w : World) (played : bool) (d0 : Dataset.t)
    (rest : list Dataset.t) (o : bool) (ts : list timer) :
  animateChart
    {| world := stage w false played (d0 :: rest); observing := o; timers := ts |} =
  (Ok tt,
   {| world := stage w true played (with_data [] d0 :: cleared rest);
      observing := o;
      timers := (ts ++ [pointInterval 0 (Dataset.data d0) (trend_of rest)])%list |}).
Proof.
  unfold animateChart, stage. js_unfold. cbn.
  destruct rest as [|d1 rest']; reflexivity.
Qed.

(** Once the animation has played, or while it plays, the observer's
    reports change nothing. *)
Lemma observer_played (es : list bool) (p : Page) :
  animationPlayed (this (world p)) = true ->
  observer_callback es p = (Ok tt, p).
Proof.
  intros Hp. unfold observer_callback.
  induction es as [|e es' IH]; [reflexivity|].
  rewrite forEach_cons.
  assert (observer_entry e p = (Ok tt, p)) as ->; [|exact IH].
  unfold observer_entry. js_unfold. cbn. rewrite Hp.
  by rewrite andb_false_r.
Qed.

Section AnimationRun.

Variable pointCount : nat -> nat -> nat.
Variable v : version.

Lemma run_app (p : Page) (es es' : list event) :
  run pointCount v p (es ++ es') =
  run pointCount v (run pointCount v p es) es'.
Proof. apply fold_left_app. Qed.

Lemma run_one (p : Page) (e : event) :
  run pointCount v p (repeat e 1) = dispatch pointCount v p e.
Proof. reflexivity. Qed.

Lemma run_cons (p : Page) (e : event) (es : list event) :
  run pointCount v p (e :: es) =
  run pointCount v (dispatch pointCount v p e) es.
Proof. reflexivity. Qed.

Lemma run_S (p : Page) (e : event) (n : nat) :
  run pointCount v p (repeat e (S n)) =
  dispatch pointCount v (run pointCount v p (repeat e n)) e.
Proof.
  cbn [repeat]. rewrite repeat_cons. unfold run. by rewrite fold_left_app.
Qed.

Variable w : World.

Lemma animation_starts (d0 : Dataset.t) (rest : list Dataset.t) (es : list bool) :
  dispatch pointCount v
    {| world := stage w false false (d0 :: rest); observing := true; timers := [] |}
    (Intersect (true :: es)) =
  playing w (with_data [] d0 :: cleared rest)
          [pointInterval 0 (Dataset.data d0) (trend_of rest)].
Proof.
  unfold dispatch, observer_callback. cbn [observing].
  rewrite forEach_cons.
  assert (observer_entry true
            {| world := stage w false false (d0 :: rest);
               observing := true; timers := [] |} =
          (Ok tt, playing w (with_data [] d0 :: cleared rest)
                    [pointInterval 0 (Dataset.data d0) (trend_of rest)])) as ->.
  { unfold observer_entry.
    unfold bind at 1. unfold get at 1.
    cbn [world this animationPlayed isAnimating stage andb negb].
    unfold bind at 1. rewrite animateChart_eq. reflexivity. }
  fold (observer_callback es).
  by rewrite observer_played.
Qed.

Variables (originalData originalTrend : list ChartPoint.t).

(** One point more on whatever the first dataset holds. *)
Lemma point_tick (c0 : Dataset.t) (cs : list Dataset.t) (k : nat) (point : ChartPoint.t) :
  originalData !! k = Some point ->
  dispatch pointCount v
    (playing w (c0 :: cs) [pointInterval k originalData originalTrend]) (Tick 0) =
  playing w (with_data (Dataset.data c0 ++ [point]) c0 :: cs)
          [pointInterval (S k) originalData originalTrend].
Proof.
  intros Hk. unfold dispatch, playing. cbn [timers lookup list_lookup].
  unfold pointInterval_callback. js_unfold. cbn. rewrite Hk. reflexivity.
Qed.

Lemma point_ticks (c0 : Dataset.t) (cs : list Dataset.t) (k j : nat) :
  (k + j <= length originalData)%nat ->
  run pointCount v
    (playing w (c0 :: cs) [pointInterval k originalData originalTrend])
    (repeat (Tick 0) j) =
  playing w (with_data (Dataset.data c0 ++ firstn j (skipn k originalData)) c0 :: cs)
          [pointInterval (k + j) originalData originalTrend].
Proof.
  induction j as [|j IH]; intros Hj.
  - cbn [repeat firstn]. rewrite app_nil_r, with_data_same, Nat.add_0_r. reflexivity.
  - rewrite run_S, IH by lia.
    destruct (originalData !! (k + j)%nat) as [point|] eqn:E.
    + rewrite (point_tick _ _ _ point E).
      rewrite <- lookup_drop in E.
      rewrite (take_S_r _ _ _ E), Nat.add_succ_r, app_assoc.
      reflexivity.
    + apply lookup_ge_None in E. lia.
Qed.

Lemma points_done (c0 : Dataset.t) (cs : list Dataset.t) :
  originalTrend = [] \/ cs = [] ->
  dispatch pointCount v
    (playing w (c0 :: cs)
       [pointInterval (length originalData) originalData originalTrend])
    (Tick 0) =
  finished v w (c0 :: cs) (match v with docs => true | static => false end).
Proof.
  intros H. unfold dispatch, playing. cbn [timers lookup list_lookup].
  unfold pointInterval_callback.
  unfold bind at 1. unfold get at 1. cbn [fst snd].
  rewrite (proj2 (lookup_ge_None _ _) (Nat.le_refl _)).
  assert (forall (A : Type) (x y : A),
            (if truthy (optchain (chart (this (world
                 {| world := stage w true true (c0 :: cs); observing := true;
                    timers := [pointInterval (length originalData)
                                 originalData originalTrend] |})))
                           (fun c => at_index (datasets c) 1))
                && (0 <? length originalTrend)%nat then x else y) = y) as Hif.
  { intros A x y. destruct H as [-> | ->]; [by rewrite andb_false_r | reflexivity]. }
  rewrite Hif. unfold finished. destruct v.
  - unfold bind at 1. unfold clearInterval, set_timers at 1. cbn [fst snd].
    unfold bind at 1. unfold lift at 1, set_this at 1. cbn [world observing timers].
    rewrite lift_snd. reflexivity.
  - reflexivity.
Qed.

Lemma points_done_trend (c0 c1 : Dataset.t) (cs : list Dataset.t) :
  originalTrend <> [] ->
  dispatch pointCount v
    (playing w (c0 :: c1 :: cs)
       [pointInterval (length originalData) originalData originalTrend])
    (Tick 0) =
  playing w (c0 :: c1 :: cs) [interval 0 originalTrend true].
Proof.
  intros Ht. unfold dispatch, playing. cbn [timers lookup list_lookup].
  unfold pointInterval_callback.
  unfold bind at 1. unfold get at 1. cbn [fst snd].
  rewrite (proj2 (lookup_ge_None _ _) (Nat.le_refl _)).
  destruct originalTrend as [|x l]; [done|].
  reflexivity.
Qed.

Lemma trend_tick (c0 c1 : Dataset.t) (cs : list Dataset.t) (k : nat) :
  (k <= 40)%nat ->
  dispatch pointCount v
    (playing w (c0 :: c1 :: cs) [interval k originalTrend true]) (Tick 0) =
  playing w (c0 :: trend_at pointCount originalTrend c1 (S k) :: cs)
          [interval (S k) originalTrend true].
Proof.
  intros Hk. unfold dispatch, playing. cbn [timers lookup list_lookup].
  unfold interval_callback.
  rewrite (proj2 (Nat.leb_le _ _) Hk).
  js_unfold. reflexivity.
Qed.

Lemma trend_ticks (c0 c1 : Dataset.t) (cs : list Dataset.t) (k : nat) :
  (k <= 41)%nat ->
  run pointCount v
    (playing w (c0 :: c1 :: cs) [interval 0 originalTrend true])
    (repeat (Tick 0) k) =
  playing w (c0 :: trend_at pointCount originalTrend c1 k :: cs)
          [interval k originalTrend true].
Proof.
  induction k as [|k IH]; intros Hk; [reflexivity|].
  rewrite run_S, IH by lia.
  destruct k as [|k]; cbn [trend_at]; apply trend_tick; lia.
Qed.

Lemma trend_done (ds : list Dataset.t) (attached : bool) :
  dispatch pointCount v
    (playing w ds [interval 41 originalTrend attached]) (Tick 0) =
  finished v w ds true.
Proof.
  unfold dispatch, playing. cbn [timers lookup list_lookup].
  unfold interval_callback. cbn [Nat.leb].
  unfold bind at 1. unfold clearInterval, set_timers at 1. cbn [fst snd].
  unfold bind at 1. unfold lift at 1, set_this at 1. cbn [world observing timers].
  unfold finished. rewrite lift_snd. reflexivity.
Qed.

Hypothesis pointCount_full : forall len, pointCount len 40 = len.

(** From the first replayed point to the end, whatever the datasets
    hold meanwhile. *)
Lemma replay_from (c0 : Dataset.t) (cs : list Dataset.t) (k : nat) :
  (k <= length originalData)%nat ->
  let trend := match cs with
               | _ :: _ => (0 <? length originalTrend)%nat
               | [] => false
               end in
  run pointCount v
    (playing w (c0 :: cs) [pointInterval k originalData originalTrend])
    (repeat (Tick 0)
       (length originalData - k + 1 + (if trend then 42 else 0))) =
  finished v w
    (with_data (Dataset.data c0 ++ skipn k originalData) c0
     :: match cs with
        | c1 :: cs' => (if trend then with_data originalTrend c1 else c1) :: cs'
        | [] => []
        end)
    (match v with docs => true | static => trend end).
Proof.
  intros Hk trend.
  rewrite <- Nat.add_assoc, repeat_app, run_app, point_ticks by lia.
  replace (k + (length originalData - k))%nat with (length originalData) by lia.
  rewrite firstn_all2 by (rewrite length_skipn; lia).
  destruct cs as [|c1 cs'].
  - subst trend. cbn [Nat.add]. rewrite run_one.
    rewrite points_done by (by right). by destruct v.
  - assert (originalTrend = [] \/ originalTrend <> []) as [E|E]
      by (destruct originalTrend; [by left|by right]).
    + assert (trend = false) as -> by (subst trend; by rewrite E).
      cbn [Nat.add]. rewrite run_one.
      rewrite points_done by (left; exact E). by destruct v.
    + assert (trend = true) as ->
        by (subst trend; by destruct originalTrend).
      change (1 + 42)%nat with (1 + (41 + 1))%nat.
      rewrite !repeat_app, !run_app, !run_one.
      rewrite points_done_trend by exact E.
      rewrite trend_ticks by lia.
      rewrite trend_done. cbn [trend_at].
      rewrite pointCount_full, firstn_all. by destruct v.
Qed.

End AnimationRun.

Lemma updateInfo_eq (v : version) (w : World) :
  exists d, updateInfo v w = (Ok tt, {| this := this w; document := d |}) /\
            forall a p ds, updateInfo v (stage w a p ds) =
              (Ok tt, {| this := this (stage w a p ds); document := d |}).
Proof.
  destruct v; cbn [updateInfo].
  - eexists. split; [apply Docs_updateInfo_eq|].
    intros. rewrite Docs_updateInfo_eq. reflexivity.
  - eexists. split; [apply Static_updateInfo_eq|].
    intros. rewrite Static_updateInfo_eq. reflexivity.
Qed.

(** The whole animation, from the observer's first report to the last
    timer event, on a renderer in any view and on any page. *)
Lemma animation_run (pointCount : nat -> nat -> nat) (v : version)
    (w : World) (d0 : Dataset.t) (rest : list Dataset.t) (es : list bool) :
  (forall len, pointCount len 40 = len) ->
  run pointCount v
    {| world := stage w false false (d0 :: rest); observing := true; timers := [] |}
    (Intersect (true :: es) :: repeat (Tick 0) (ticks d0 rest)) =
  finished v w (d0 :: rest) (info_refreshed v rest).
Proof.
  intros Hfull. rewrite run_cons, animation_starts.
  pose proof (replay_from pointCount v w (Dataset.data d0) (trend_of rest)
                Hfull (with_data [] d0) (cleared rest) 0 (Nat.le_0_l _)) as H.
  cbn zeta in H. rewrite Nat.sub_0_r in H.
  unfold ticks, info_refreshed.
  assert (forall d, with_data (Dataset.data (with_data [] d)
                               ++ skipn 0 (Dataset.data d)) (with_data [] d) = d)
    as R0 by (by intros []).
  assert (forall d, with_data (Dataset.data d) (with_data [] d) = d)
    as R1 by (by intros []).
  rewrite R0 in H.
  destruct rest as [|d1 rest']; cbn [cleared trend_of length Nat.ltb Nat.leb] in *.
  - exact H.
  - rewrite H. do 2 f_equal.
    destruct (Dataset.data d1) as [|x l] eqn:E; cbn [length Nat.ltb Nat.leb].
    + by rewrite <- E, with_data_same.
    + by rewrite <- E, R1.
Qed.

Lemma page_as_stage (p : Page) (d0 : Dataset.t) (rest : list Dataset.t) :
  observing p = true -> timers p = [] ->
  chart (this (world p)) = val {| datasets := d0 :: rest |} ->
  animationPlayed (this (world p)) = false ->
  isAnimating (this (world p)) = false ->
  p = {| world := stage (world p) false false (d0 :: rest);
         observing := true; timers := [] |}.
Proof.
  destruct p as [[[] ?] ? ?]; cbn. intros -> -> -> -> ->. reflexivity.
Qed.

(** Left to itself, the scroll animation ends after one timer event per
    data point, one more, and 42 for a trend line that has points: every
    timer is cleared, the chart shows the datasets it showed before, the
    renderer differs from the one before only in [animationPlayed], the
    info line is rewritten (in the static version only after a trend
    animation), and later reports of the observer change nothing. *)
Theorem scroll_animation_restores_chart (pointCount : nat -> nat -> nat)
    (v : version) (p : Page) (d0 : Dataset.t) (rest : list Dataset.t)
    (es : list bool) :
  (forall len, pointCount len 40 = len) ->
  observing p = true -> timers p = [] ->
  chart (this (world p)) = val {| datasets := d0 :: rest |} ->
  animationPlayed (this (world p)) = false ->
  isAnimating (this (world p)) = false ->
  let q := run pointCount v p
             (Intersect (true :: es) :: repeat (Tick 0) (ticks d0 rest)) in
  timers q = [] /\
  this (world q) = with_animationPlayed true (this (world p)) /\
  document (world q) =
    (if info_refreshed v rest
     then document (snd (updateInfo v (world p)))
     else document (world p)) /\
  (forall es', dispatch pointCount v q (Intersect es') = q).
Proof.
  intros Hfull Ho Ht Hc Hp Ha q. subst q.
  assert (run pointCount v p
            (Intersect (true :: es) :: repeat (Tick 0) (ticks d0 rest)) =
          finished v (world p) (d0 :: rest) (info_refreshed v rest)) as ->.
  { rewrite (page_as_stage p d0 rest Ho Ht Hc Hp Ha) at 1.
    apply animation_run, Hfull. }
  destruct (updateInfo_eq v (world p)) as [d [E1 E2]].
  unfold finished. rewrite E1, E2. cbn [snd document].
  assert (this (stage (world p) false true (d0 :: rest)) =
          with_animationPlayed true (this (world p))) as Hthis.
  { destruct p as [[[] ?] ? ?]; cbn in *. by subst. }
  destruct (info_refreshed v rest); cbn [world this document timers].
  - split; [reflexivity|]. split; [exact Hthis|]. split; [reflexivity|].
    intros es'. unfold dispatch. cbn [observing].
    by rewrite observer_played.
  - split; [reflexivity|]. split; [exact Hthis|]. split; [reflexivity|].
    intros es'. unfold dispatch. cbn [observing].
    by rewrite observer_played.
Qed.

(** While the points are replayed the chart shows, after [k] timer
    events, the first [k] points in their order and no trend point, and
    the renderer stays in its animating state. *)
Theorem animation_replays_points_in_order (pointCount : nat -> nat -> nat)
    (v : version) (p : Page) (d0 : Dataset.t) (rest : list Dataset.t)
    (es : list bool) (k : nat) :
  observing p = true -> timers p = [] ->
  chart (this (world p)) = val {| datasets := d0 :: rest |} ->
  animationPlayed (this (world p)) = false ->
  isAnimating (this (world p)) = false ->
  (k <= length (Dataset.data d0))%nat ->
  let q := run pointCount v p (Intersect (true :: es) :: repeat (Tick 0) k) in
  isAnimating (this (world q)) = true /\
  chart (this (world q)) =
    val {| datasets := with_data (firstn k (Dataset.data d0)) d0 :: cleared rest |} /\
  trend_of (cleared rest) = [] /\
  document (world q) = document (world p).
Proof.
  intros Ho Ht Hc Hp Ha Hk q.
  assert (q = playing (world p)
                (with_data (firstn k (Dataset.data d0)) d0 :: cleared rest)
                [pointInterval k (Dataset.data d0) (trend_of rest)]) as ->.
  { subst q. rewrite (page_as_stage p d0 rest Ho Ht Hc Hp Ha) at 1.
    rewrite run_cons, animation_starts.
    by rewrite (point_ticks pointCount v (world p) _ _ _ _ 0 k). }
  cbn. repeat split. by destruct rest.
Qed.

(** ** The animation after construction *)

Lemma constructor_page (v : version) (id : string) (cd : ChartData) (d : Dom) :
  Chart_loaded d = true -> id ∈ canvases d ->
  snd (constructor v id cd d) =
  {| world := constructed v id cd d;
     observing := chart_container d; timers := [] |}.
Proof.
  intros Hl Hc. unfold constructor, constructed. rewrite Hl.
  destruct v; cbn [init setupControls updateInfo prepared info_document].
  - destruct (Docs_info_document_shape cd false) as [oh Hoh].
    unfold bind at 1. unfold lift at 1. cbn [world].
    unfold Docs.init. unfold bind at 1, get. cbn [this canvasId fresh document].
    rewrite (bool_decide_eq_true_2 _ Hc). cbn [negb].
    unfold bind at 1. rewrite Docs_prepareDatasets_eq.
    unfold bind at 1 2, set_this. cbn [this document fresh chartData].
    rewrite Docs_updateInfo_eq. cbn [this document chartData showInflation with_chart with_configs].
    rewrite !Hoh.
    unfold setupScrollAnimation, bind, get, observe, lift, ret. cbn.
    assert (chart_container (match oh with Some h => with_info h d | None => d end)
            = chart_container d) as -> by (by destruct oh).
    destruct (chart_container d); cbn; unfold setup_section;
      destruct (chart_section _); reflexivity.
  - destruct (Static_info_document_shape cd false) as [oh Hoh].
    unfold bind at 1. unfold lift at 1. cbn [world].
    unfold Static.init. unfold bind at 1, get. cbn [this canvasId fresh document].
    rewrite (bool_decide_eq_true_2 _ Hc). cbn [negb].
    unfold bind at 1. rewrite Static_prepareDatasets_eq.
    unfold bind at 1 2, set_this. cbn [this document fresh chartData].
    rewrite Static_updateInfo_eq. cbn [this document chartData showInflation with_chart with_configs].
    rewrite !Hoh.
    unfold setupScrollAnimation, bind, get, observe, lift, ret. cbn.
    assert (chart_container (match oh with Some h => with_info h d | None => d end)
            = chart_container d) as -> by (by destruct oh).
    destruct (chart_container d); cbn; unfold setup_section;
      destruct (chart_section _); reflexivity.
Qed.

Lemma info_document_uniform (v : version) (cd : ChartData) :
  (forall show d, info_document v cd show d = d) \/
  (exists h : bool -> string,
     forall show d, info_document v cd show d = with_info (h show) d).
Proof.
  destruct v; [apply Docs_info_document_uniform | apply Static_info_document_uniform].
Qed.

Lemma updateInfo_document (v : version) (w : World) :
  updateInfo v w =
  (Ok tt, {| this := this w;
             document := info_document v (chartData (this w))
                           (showInflation (this w)) (document w) |}).
Proof.
  destruct v; [apply Docs_updateInfo_eq | apply Static_updateInfo_eq].
Qed.

Lemma with_info_setup (h : string) (cd : ChartData) (d : Dom) :
  with_info h (setup_section cd d) = setup_section cd (with_info h d).
Proof.
  unfold setup_section.
  destruct d as [iw cl cs cc [| |sec] [| |el]]; reflexivity.
Qed.

Lemma with_info_click (h : string) (i : nat) (d : Dom) :
  with_info h (click_section i d) = click_section i (with_info h d).
Proof.
  unfold click_section.
  destruct d as [iw cl cs cc [| |sec] [| |el]]; reflexivity.
Qed.

(** [updateInfo] run again in the same view leaves the page as it is. *)
Lemma info_document_again (v : version) (cd : ChartData) (show : bool) (d : Dom) :
  (info_document v cd show (setup_section cd (info_document v cd show d)) =
   setup_section cd (info_document v cd show d)) /\
  (forall show' i,
     info_document v cd show
       (click_section i (info_document v cd show
          (setup_section cd (info_document v cd show' d)))) =
     click_section i (info_document v cd show
       (setup_section cd (info_document v cd show' d)))).
Proof.
  destruct (info_document_uniform v cd) as [H | [h H]].
  - split; intros; by rewrite !H.
  - split; intros; rewrite !H.
    + by rewrite with_info_setup, with_info_twice.
    + by rewrite with_info_click, with_info_twice.
Qed.

Lemma prepared_ticks (v : version) (cd : ChartData) (d : Dom) :
  exists d0 rest,
    prepared v cd d = d0 :: rest /\
    Dataset.data d0 = to_chart_points (data cd) /\
    trend_of rest = (if has_trend cd then trend_points cd else []) /\
    (rest = [] <-> has_trend cd = false) /\
    ((0 <? length (trend_of rest))%nat = has_trend cd).
Proof.
  destruct v; unfold prepared, Docs_prepared, Static_prepared; do 2 eexists;
    (split; [reflexivity|]); (split; [reflexivity|]);
    unfold has_trend, trend_points, to_chart_points;
    destruct (trendLine cd) as [| |l]; cbn; try done;
    destruct l; cbn; done.
Qed.

(** On a page with the canvas and the chart container, the animation
    played after construction leaves page and renderer as the
    constructor left them, but for [animationPlayed]: the info line it
    rewrites is the text already there. *)
Theorem animation_leaves_page_as_constructed
    (pointCount : nat -> nat -> nat) (v : version) (id : string)
    (cd : ChartData) (d : Dom) (es : list bool) :
  (forall len, pointCount len 40 = len) ->
  Chart_loaded d = true -> id ∈ canvases d -> chart_container d = true ->
  let p := snd (constructor v id cd d) in
  let n := (length (data cd) + 1 + (if has_trend cd then 42 else 0))%nat in
  timers p = [] /\
  run pointCount v p (Intersect (true :: es) :: repeat (Tick 0) n) =
  {| world := {| this := with_animationPlayed true (this (world p));
                 document := document (world p) |};
     observing := true; timers := [] |}.
Proof.
  intros Hfull Hl Hc Hcc p n. subst p n.
  rewrite (constructor_page v id cd d Hl Hc), Hcc.
  split; [reflexivity|]. cbn [world].
  destruct (prepared_ticks v cd d) as (d0 & rest & Hprep & Hd0 & Hrest & _ & Htr).
  set (W := constructed v id cd d).
  assert ({| world := W; observing := true; timers := [] |} =
          {| world := stage W false false (d0 :: rest);
             observing := true; timers := [] |}) as ->.
  { subst W. unfold constructed, stage. cbn. by rewrite Hprep. }
  replace (length (data cd) + 1 + (if has_trend cd then 42 else 0))%nat
    with (ticks d0 rest).
  2:{ unfold ticks. rewrite Htr, Hd0. unfold to_chart_points.
      by rewrite length_map. }
  rewrite (animation_run pointCount v W d0 rest es Hfull).
  unfold finished. f_equal.
  assert (stage W false true (d0 :: rest) =
          {| this := with_animationPlayed true (this W); document := document W |})
    as E by (subst W; unfold constructed, stage; cbn; by rewrite Hprep).
  destruct (info_refreshed v rest); [|exact E].
  rewrite updateInfo_document, E. cbn [snd this document].
  f_equal. subst W. cbn.
  apply (info_document_again v cd false d).
Qed.

(** ** A click while the points are replayed *)

Section PressDuringReplay.

Variables (pointCount : nat -> nat -> nat) (v : version).
Variables (id : string) (cd : ChartData) (d : Dom).
Variables (idat : InflationData.t) (pts : list Point.t).
Hypothesis bare : chart_section d = bare_section.
Hypothesis has_inflation : inflationData cd = val idat.
Hypothesis has_points : InflationData.data idat = val pts.

Lemma constructed_section :
  chart_section (document (constructed v id cd d)) =
  val {| has_controls := true; buttons := map listen (controls cd) |}.
Proof.
  unfold constructed. cbn [document]. unfold setup_section.
  destruct (info_document_uniform v cd) as [H | [h H]]; rewrite H;
    cbn; rewrite bare; reflexivity.
Qed.

Lemma constructed_width :
  innerWidth (document (constructed v id cd d)) = innerWidth d.
Proof.
  unfold constructed. cbn [document]. unfold setup_section.
  destruct (info_document_uniform v cd) as [H | [h H]]; rewrite H;
    cbn; rewrite bare; reflexivity.
Qed.

Lemma click_playing (a pl : bool) (DS : list Dataset.t) :
  length DS = length (prepared v cd d) ->
  click v (stage (constructed v id cd d) a pl DS) 1 =
  stage (adjusted v id cd d) a pl
        (adjusted_datasets cd idat pts (prepared v cd d)).
Proof.
  intros Hlen.
  set (btn := {| text := "Inflation Adjusted"; data_view := "inflation";
                 disabled := false; active := false; listener := true |}).
  pose proof constructed_section as Hsec.
  pose proof constructed_width as Hw.
  assert (buttons {| has_controls := true; buttons := map listen (controls cd) |}
            !! 1%nat = Some btn) as Hb.
  { cbn. rewrite has_inflation. reflexivity. }
  destruct v; cbn [click prepared] in *.
  - erewrite Docs_dispatch_click; [| exact Hsec | exact Hb | reflexivity].
    pose proof (Docs_switch (stage (constructed docs id cd d) a pl DS) 1 btn true
                  (Docs_prepared cd d) DS) as Hsw.
    cbn zeta in Hsw.
    cbn [this stage chartData constructed initialised] in Hsw.
    unfold view_datasets in Hsw. rewrite has_inflation, has_points in Hsw.
    rewrite Hsw; try done.
    apply eq_sym, Docs_prepared_width, Hw.
  - erewrite Static_dispatch_click; [| exact Hsec | exact Hb | reflexivity].
    pose proof (Static_switch (stage (constructed static id cd d) a pl DS) 1 btn true
                  (Static_prepared cd) DS) as Hsw.
    cbn zeta in Hsw.
    cbn [this stage chartData constructed initialised] in Hsw.
    unfold view_datasets in Hsw. rewrite has_inflation, has_points in Hsw.
    rewrite Hsw; try done.
Qed.

Lemma press_playing (DS : list Dataset.t) (k : nat)
    (originalData originalTrend : list ChartPoint.t) :
  length DS = length (prepared v cd d) ->
  dispatch pointCount v
    (playing (constructed v id cd d) DS
       [pointInterval k originalData originalTrend]) (Press 1) =
  playing (adjusted v id cd d)
    (adjusted_datasets cd idat pts (prepared v cd d))
    [pointInterval k originalData originalTrend].
Proof.
  intros Hlen. unfold dispatch, playing. cbn [world observing timers].
  rewrite (click_playing true true DS Hlen).
  f_equal. by destruct (trend_replaced _ _ _).
Qed.

End PressDuringReplay.

Lemma finished_this (v : version) (w : World) (ds : list Dataset.t) (info : bool) :
  this (world (finished v w ds info)) = this (stage w false true ds) /\
  timers (finished v w ds info) = [].
Proof.
  unfold finished. destruct info; cbn [world timers]; [|done].
  by rewrite updateInfo_document.
Qed.

(** A click on "Inflation Adjusted" after [k] replayed points does not
    stop the replay: the remaining nominal points are appended to the
    adjusted ones, and the trend animation then puts the nominal trend
    under the adjusted label.  When the animation ends the chart is in
    the adjusted view with [length pts + (length data - k)] points. *)
Theorem view_switch_during_replay_keeps_old_points
    (pointCount : nat -> nat -> nat) (v : version) (id : string)
    (cd : ChartData) (d : Dom) (idat : InflationData.t) (pts : list Point.t)
    (es : list bool) (k : nat) :
  (forall len, pointCount len 40 = len) ->
  Chart_loaded d = true -> id ∈ canvases d -> chart_container d = true ->
  chart_section d = bare_section ->
  inflationData cd = val idat -> InflationData.data idat = val pts ->
  (k <= length (data cd))%nat ->
  let p := snd (constructor v id cd d) in
  let n := (length (data cd) - k + 1 + (if has_trend cd then 42 else 0))%nat in
  let q := run pointCount v p
             (Intersect (true :: es)
              :: repeat (Tick 0) k ++ Press 1 :: repeat (Tick 0) n) in
  timers q = [] /\
  isAnimating (this (world q)) = false /\
  showInflation (this (world q)) = true /\
  dataset_label (world q) 0 = Some ("Total Wealth" ++ adjusted_suffix idat) /\
  dataset_points (world q) 0 =
    Some (to_chart_points pts ++ skipn k (to_chart_points (data cd)))%list /\
  (has_trend cd = true ->
   dataset_label (world q) 1 =
     Some ("Exponential Trend" ++ adjusted_suffix idat) /\
   dataset_points (world q) 1 = Some (trend_points cd)).
Proof.
  intros Hfull Hl Hc Hcc Hbare Hinf Hpts Hk p n q.
  destruct (prepared_ticks v cd d)
    as (d0 & rest & Hprep & Hd0 & Hrest & Hnone & Htr).
  assert (length (Dataset.data d0) = length (data cd)) as Hlen
    by (rewrite Hd0; unfold to_chart_points; by rewrite length_map).
  set (W0 := constructed v id cd d).
  set (W1 := adjusted v id cd d).
  set (od := Dataset.data d0). set (ot := trend_of rest).
  set (A := adjusted_datasets cd idat pts (d0 :: rest)).
  assert (exists c0 cs,
            A = c0 :: cs /\
            Dataset.label c0 = "Total Wealth" ++ adjusted_suffix idat /\
            Dataset.data c0 = to_chart_points pts /\
            (cs = [] <-> rest = []) /\
            (forall c1 cs', cs = c1 :: cs' ->
               Dataset.label c1 = "Exponential Trend" ++ adjusted_suffix idat))
    as (c0 & cs & HA & Hl0 & Hp0 & Hcs & Hl1).
  { subst A. unfold adjusted_datasets. do 2 eexists.
    split; [reflexivity|]. split; [reflexivity|]. split; [reflexivity|].
    split; [by destruct rest|].
    destruct rest; intros c1 cs' E; simplify_eq. reflexivity. }
  assert (q = finished v W1
                (with_data (Dataset.data c0 ++ skipn k od) c0
                 :: match cs with
                    | c1 :: cs' =>
                        (if has_trend cd then with_data ot c1 else c1) :: cs'
                    | [] => []
                    end)
                (match v with docs => true | static => has_trend cd end)) as Hq.
  { subst q p n.
    rewrite (constructor_page v id cd d Hl Hc), Hcc. fold W0.
    assert ({| world := W0; observing := true; timers := [] |} =
            {| world := stage W0 false false (d0 :: rest);
               observing := true; timers := [] |}) as ->.
    { subst W0. unfold constructed, stage. cbn. by rewrite Hprep. }
    rewrite run_cons, animation_starts, run_app, run_cons.
    rewrite (point_ticks pointCount v W0 od ot _ _ 0 k) by (subst od; lia).
    cbn [Nat.add].
    subst W0. rewrite (press_playing pointCount v id cd d idat pts Hbare Hinf Hpts).
    2:{ rewrite Hprep. cbn [length]. by destruct rest. }
    rewrite Hprep. fold A. rewrite HA.
    pose proof (replay_from pointCount v W1 od ot Hfull c0 cs k) as H.
    cbn zeta in H.
    assert (match cs with
            | _ :: _ => (0 <? length ot)%nat
            | [] => false
            end = has_trend cd) as Ht.
    { subst ot. rewrite <- Htr. destruct cs as [|c1 cs']; [|reflexivity].
      by rewrite (proj1 Hcs eq_refl). }
    rewrite Ht in H. subst od. rewrite Hlen in H.
    apply H. lia. }
  rewrite Hq.
  destruct (finished_this v W1
              (with_data (Dataset.data c0 ++ skipn k od) c0
               :: match cs with
                  | c1 :: cs' =>
                      (if has_trend cd then with_data ot c1 else c1) :: cs'
                  | [] => []
                  end)
              (match v with docs => true | static => has_trend cd end))
    as [Hthis Htim].
  unfold dataset_label, dataset_points. rewrite Htim, Hthis.
  cbn [stage this chart isAnimating showInflation datasets lookup list_lookup
       fmap option_fmap option_map with_data Dataset.label Dataset.data].
  split; [reflexivity|]. split; [reflexivity|]. split; [reflexivity|].
  split; [by rewrite Hl0|].
  split; [by rewrite Hp0; subst od; rewrite Hd0|].
  intros Htrend. rewrite Htrend.
  destruct cs as [|c1 cs'].
  - exfalso. pose proof (proj1 Hnone (proj1 Hcs eq_refl)). congruence.
  - cbn. rewrite (Hl1 c1 cs' eq_refl). split; [reflexivity|].
    subst ot. by rewrite Hrest, Htrend.
Qed.

(** ** A click while the trend line is animated *)

Lemma detached_ticks (pointCount : nat -> nat -> nat) (v : version) (w : World)
    (ds : list Dataset.t) (trendData : list ChartPoint.t) (k j : nat) :
  (k + j <= 41)%nat ->
  run pointCount v (playing w ds [interval k trendData false])
      (repeat (Tick 0) j) =
  playing w ds [interval (k + j) trendData false].
Proof.
  induction j as [|j IH]; intros Hj.
  - by rewrite Nat.add_0_r.
  - rewrite run_S, IH by lia. rewrite Nat.add_succ_r.
    unfold dispatch, playing. cbn [timers lookup list_lookup].
    unfold interval_callback.
    rewrite (proj2 (Nat.leb_le (k + j) 40)) by lia.
    js_unfold. reflexivity.
Qed.

Section PressDuringTrend.

Variables (pointCount : nat -> nat -> nat) (v : version).
Variables (id : string) (cd : ChartData) (d : Dom).
Variables (idat : InflationData.t) (pts : list Point.t).
Hypothesis bare : chart_section d = bare_section.
Hypothesis has_inflation : inflationData cd = val idat.
Hypothesis has_points : InflationData.data idat = val pts.

Lemma updateChartData_adjusted (a pl : bool) (DS : list Dataset.t) :
  length DS = length (prepared v cd d) ->
  fst (updateChartData v
         (select_view true (stage (constructed v id cd d) a pl DS))) = Ok tt.
Proof.
  intros Hlen.
  pose proof (constructed_width v id cd d bare) as Hw.
  destruct v; cbn [updateChartData prepared] in *.
  - pose proof (Docs_updateChartData_view
                  (select_view true (stage (constructed docs id cd d) a pl DS))
                  (Docs_prepared cd d) DS) as H.
    cbn zeta in H.
    cbn [this stage chartData constructed initialised select_view
         with_showInflation showInflation] in H.
    unfold view_datasets in H. rewrite has_inflation, has_points in H.
    rewrite H; try done.
    apply eq_sym, Docs_prepared_width, Hw.
  - pose proof (Static_updateChartData_view
                  (select_view true (stage (constructed static id cd d) a pl DS))
                  (Static_prepared cd) DS) as H.
    cbn zeta in H.
    cbn [this stage chartData constructed initialised select_view
         with_showInflation showInflation] in H.
    unfold view_datasets in H. rewrite has_inflation, has_points in H.
    rewrite H; try done.
Qed.

Lemma press_trend (c0 c1 : Dataset.t) (k : nat) (trendData : list ChartPoint.t)
    (attached : bool) :
  length (prepared v cd d) = 2%nat ->
  dispatch pointCount v
    (playing (constructed v id cd d) [c0; c1] [interval k trendData attached])
    (Press 1) =
  playing (adjusted v id cd d)
    (adjusted_datasets cd idat pts (prepared v cd d))
    [interval k trendData false].
Proof.
  intros Hlen. unfold dispatch, playing. cbn [world observing timers].
  rewrite (click_playing v id cd d idat pts bare has_inflation has_points
             true true [c0; c1]) by (by rewrite Hlen).
  f_equal.
  assert (trend_replaced v (stage (constructed v id cd d) true true [c0; c1])
            (stage (adjusted v id cd d) true true
               (adjusted_datasets cd idat pts (prepared v cd d))) = true) as ->;
    [|reflexivity].
  unfold trend_replaced.
  cbn [this stage showInflation adjusted constructed initialised
       with_showInflation Bool.eqb negb andb].
  change (select_view true ?w) with (select_view true w).
  pose proof (updateChartData_adjusted true true [c0; c1]) as H.
  rewrite Hlen in H. specialize (H eq_refl).
  unfold constructed in H.
  destruct (updateChartData v _) as [[[]|msg] w'] eqn:E in H |- *;
    cbn [fst] in H; [|discriminate].
  cbn [originalDatasetConfigs chart optchain datasets at_index lookup list_lookup].
  destruct (prepared v cd d) as [|x0 [|x1 [|x2 xs]]]; try discriminate.
  reflexivity.
Qed.

End PressDuringTrend.

(** A click on "Inflation Adjusted" during the trend animation is
    harmless: the timer goes on writing to the dataset the click has
    replaced, and the chart ends with exactly the adjusted datasets. *)
Theorem view_switch_during_trend_animation
    (pointCount : nat -> nat -> nat) (v : version) (id : string)
    (cd : ChartData) (d : Dom) (idat : InflationData.t) (pts : list Point.t)
    (es : list bool) (j : nat) :
  Chart_loaded d = true -> id ∈ canvases d -> chart_container d = true ->
  chart_section d = bare_section ->
  inflationData cd = val idat -> InflationData.data idat = val pts ->
  has_trend cd = true -> (j <= 41)%nat ->
  let p := snd (constructor v id cd d) in
  let q := run pointCount v p
             (Intersect (true :: es)
              :: repeat (Tick 0) (length (data cd) + 1 + j)
              ++ Press 1 :: repeat (Tick 0) (42 - j)) in
  timers q = [] /\
  isAnimating (this (world q)) = false /\
  showInflation (this (world q)) = true /\
  chart (this (world q)) =
    val {| datasets := adjusted_datasets cd idat pts (prepared v cd d) |}.
Proof.
  intros Hl Hc Hcc Hbare Hinf Hpts Htrend Hj p q.
  destruct (prepared_ticks v cd d)
    as (d0 & rest & Hprep & Hd0 & Hrest & Hnone & Htr).
  assert (length (Dataset.data d0) = length (data cd)) as Hlen
    by (rewrite Hd0; unfold to_chart_points; by rewrite length_map).
  assert (exists d1, rest = [d1]) as [d1 ->].
  { revert Hprep. unfold prepared, Docs_prepared, Static_prepared.
    rewrite Htrend. destruct v; intros [= _ <-]; by eexists. }
  set (W0 := constructed v id cd d).
  set (A := adjusted_datasets cd idat pts (prepared v cd d)).
  assert (q = finished v (adjusted v id cd d) A true) as ->.
  { subst q p.
    rewrite (constructor_page v id cd d Hl Hc), Hcc. fold W0.
    assert ({| world := W0; observing := true; timers := [] |} =
            {| world := stage W0 false false [d0; d1];
               observing := true; timers := [] |}) as ->.
    { subst W0. unfold constructed, stage. cbn. by rewrite Hprep. }
    rewrite run_cons, animation_starts, run_app.
    rewrite <- Nat.add_assoc, repeat_app, run_app.
    rewrite (repeat_app _ 1 j), run_app, run_one.
    rewrite <- Hlen.
    rewrite (point_ticks pointCount v W0 _ _ _ _ 0 (length (Dataset.data d0)))
      by lia.
    cbn [Nat.add cleared].
    assert (trend_of [d1] <> []) as Hne.
    { intros E. rewrite E in Htr. cbn in Htr. congruence. }
    rewrite points_done_trend by exact Hne.
    rewrite trend_ticks by exact Hj.
    rewrite run_cons. subst W0.
    rewrite (press_trend pointCount v id cd d idat pts Hbare Hinf Hpts)
      by (by rewrite Hprep).
    fold A.
    replace (42 - j)%nat with ((41 - j) + 1)%nat by lia.
    rewrite repeat_app, run_app, run_one.
    rewrite (detached_ticks pointCount v _ _ _ j (41 - j)) by lia.
    replace (j + (41 - j))%nat with 41%nat by lia.
    apply trend_done. }
  destruct (finished_this v (adjusted v id cd d) A true) as [Hthis Htim].
  rewrite Htim, Hthis. repeat split.
Qed.

(** ** The theorems at concrete pages *)

Lemma exact_pointCount_full (len : nat) : exact_pointCount len 40 = len.
Proof. unfold exact_pointCount. by rewrite Nat.div_mul. Qed.

Lemma animation_on_published_page :
  timers (run exact_pointCount docs Docs_page_observed
            (Intersect [true] :: repeat (Tick 0) 45)) = [].
Proof.
  refine (proj1 (scroll_animation_restores_chart exact_pointCount docs
                   Docs_page_observed
                   (Dataset.mk "Total Wealth"
                      (to_chart_points (data wealthTimelineData))
                      "#8b2635" "#8b2635" 0 3 2)
                   [Dataset.mk "Exponential Trend"
                      (trend_points wealthTimelineData)
                      "#e74c3c" "transparent" 3 0 1]
                   [] exact_pointCount_full _ _ _ _ _));
    vm_compute; reflexivity.
Defined.

Lemma animation_after_construction_of_published_page :
  timers Static_page_observed = [] /\
  run exact_pointCount static Static_page_observed
    (Intersect [true] :: repeat (Tick 0) 45) =
  {| world := {| this := with_animationPlayed true (this (world Static_page_observed));
                 document := document (world Static_page_observed) |};
     observing := true; timers := [] |}.
Proof.
  refine (animation_leaves_page_as_constructed exact_pointCount static
            "wealth-timeline-chart" wealthTimelineData page []
            exact_pointCount_full _ _ _).
  - reflexivity.
  - vm_compute. left.
  - reflexivity.
Defined.

Lemma first_point_on_published_page :
  chart (this (world (run exact_pointCount docs Docs_page_observed
                        [Intersect [true]; Tick 0]))) =
  val {| datasets :=
           [ Dataset.mk "Total Wealth"
               (firstn 1 (to_chart_points (data wealthTimelineData)))
               "#8b2635" "#8b2635" 0 3 2;
             Dataset.mk "Exponential Trend" [] "#e74c3c" "transparent" 3 0 1 ] |}.
Proof.
  refine (proj1 (proj2 (animation_replays_points_in_order exact_pointCount docs
                   Docs_page_observed
                   (Dataset.mk "Total Wealth"
                      (to_chart_points (data wealthTimelineData))
                      "#8b2635" "#8b2635" 0 3 2)
                   [Dataset.mk "Exponential Trend"
                      (trend_points wealthTimelineData)
                      "#e74c3c" "transparent" 3 0 1]
                   [] 1 _ _ _ _ _ _)));
    vm_compute; try reflexivity. lia.
Defined.

Lemma switch_after_first_point :
  dataset_points
    (world (run exact_pointCount docs
              (snd (constructor docs "wealth-timeline-chart"
                      payload_without_inflation_trend page))
              (Intersect [true]
               :: repeat (Tick 0) 1
               ++ Press 1
               :: repeat (Tick 0)
                    (length (data payload_without_inflation_trend) - 1 + 1
                     + (if has_trend payload_without_inflation_trend
                        then 42 else 0))))) 0 =
  Some (to_chart_points [ Point.mk "2023-01-01" 10.4%Q;
                          Point.mk "2024-01-01" 11.3%Q ]
        ++ skipn 1 (to_chart_points (data payload_without_inflation_trend)))%list.
Proof.
  refine (proj1 (proj2 (proj2 (proj2 (proj2
    (view_switch_during_replay_keeps_old_points exact_pointCount docs
       "wealth-timeline-chart" payload_without_inflation_trend page
       (InflationData.mk
          (val [ Point.mk "2023-01-01" 10.4%Q; Point.mk "2024-01-01" 11.3%Q ])
          (val "cpi_u") (val "2024-01-01"))
       [ Point.mk "2023-01-01" 10.4%Q; Point.mk "2024-01-01" 11.3%Q ]
       [] 1 exact_pointCount_full _ _ _ _ _ _ _)))))).
  - reflexivity.
  - vm_compute. left.
  - reflexivity.
  - reflexivity.
  - reflexivity.
  - reflexivity.
  - vm_compute. lia.
Defined.

Lemma switch_during_trend_on_published_page :
  chart (this (world (run exact_pointCount static
              (snd (constructor static "wealth-timeline-chart"
                      payload_without_inflation_trend page))
              (Intersect [true]
               :: repeat (Tick 0)
                    (length (data payload_without_inflation_trend) + 1 + 5)
               ++ Press 1 :: repeat (Tick 0) (42 - 5))))) =
  val {| datasets :=
           adjusted_datasets payload_without_inflation_trend
             (InflationData.mk
                (val [ Point.mk "2023-01-01" 10.4%Q; Point.mk "2024-01-01" 11.3%Q ])
                (val "cpi_u") (val "2024-01-01"))
             [ Point.mk "2023-01-01" 10.4%Q; Point.mk "2024-01-01" 11.3%Q ]
             (prepared static payload_without_inflation_trend page) |}.
Proof.
  refine (proj2 (proj2 (proj2
    (view_switch_during_trend_animation exact_pointCount static
       "wealth-timeline-chart" payload_without_inflation_trend page
       (InflationData.mk
          (val [ Point.mk "2023-01-01" 10.4%Q; Point.mk "2024-01-01" 11.3%Q ])
          (val "cpi_u") (val "2024-01-01"))
       [ Point.mk "2023-01-01" 10.4%Q; Point.mk "2024-01-01" 11.3%Q ]
       [] 5 _ _ _ _ _ _ _ _)))).
  - reflexivity.
  - vm_compute. left.
  - reflexivity.
  - reflexivity.
  - reflexivity.
  - reflexivity.
  - reflexivity.
  - lia.
Defined.
